(** * Export-to-FINN verification notebook

    A shallow embedding of
    [notebooks/end2end_example/cybersecurity/2-export-to-finn-and-verify.ipynb].

    The notebook is a linear script: it loads an exported ONNX model, runs the
    tidy-up transformations, marks the input datatype, saves the result, loads
    a slice of the quantized test set and the trained Brevitas network, and
    then compares the two execution paths sample by sample.

    Conventions of the model.
    - Python exceptions are values of [Exn]; a computation is a function from
      the session state [World] to a result and the state at which it stopped.
    - Tensors carry their shape and their elements in row-major order.  Float
      tensors hold rationals: every value the script itself computes on
      (0, 1, -1, 0.5, 2x-1) is exact, and what the libraries compute inside
      the network is left to the library interface [Externals].  Infinities
      and NaN are outside the model.
    - [torch.sigmoid] works on 32-bit floats and rounds: it is part of the
      library interface, and no statement assumes anything about its values.
    - Library code that the notebook only calls (transformation passes, the
      ONNX execution engine, the Brevitas layers and their constructors,
      [torch.sigmoid], the dataset loader) is an interface, [Externals];
      every statement below holds for every implementation of it.
    - [stdout] holds the lines that the cells print.  What a cell displays
      as its value (the viewer's frame, [input_tensor.shape], the answer of
      [load_state_dict]) and what the progress bar writes to the error
      stream are not part of it. *)

From Stdlib Require Import ZArith QArith Qround Lia List String.
From stdpp Require Import base option list gmap strings pretty.

Local Open Scope string_scope.
Local Open Scope list_scope.

(** ** Exceptions and results *)

Inductive Exn : Type :=
| FileNotFoundError (path : string)
| AssertionError
| IndexError
| KeyError (key : string)
| ValueError
| RuntimeError
| LibraryError (code : nat).

Inductive result (A : Type) : Type :=
| Ok (a : A)
| Raise (e : Exn).
Arguments Ok {A} a.
Arguments Raise {A} e.

Definition rbind {A B} (r : result A) (k : A -> result B) : result B :=
  match r with
  | Ok a => k a
  | Raise e => Raise e
  end.

(** ** Tensors (numpy arrays and torch tensors) *)

Record Tensor (A : Type) : Type := mkTensor {
  shape : list nat;
  data : list A
}.
Arguments mkTensor {A} shape data.
Arguments shape {A} t.
Arguments data {A} t.

Definition numel (shp : list nat) : nat := foldr Nat.mul 1%nat shp.

Definition wf_tensor {A} (t : Tensor A) : Prop :=
  length (data t) = numel (shape t).

Definition tmap {A B} (f : A -> B) (t : Tensor A) : Tensor B :=
  mkTensor (shape t) (map f (data t)).

(** [t.reshape(shp)]; [exn] is what the library raises on a size mismatch
    ([RuntimeError] for torch, [ValueError] for numpy). *)
Definition reshape {A} (exn : Exn) (t : Tensor A) (shp : list nat)
  : result (Tensor A) :=
  if decide (numel shp = length (data t))
  then Ok (mkTensor shp (data t))
  else Raise exn.

(** The rows of a two-dimensional tensor of shape [(r, c)]. *)
Definition rows_of {A} (r c : nat) (d : list A) : list (list A) :=
  map (fun i => take c (drop (i * c) d)) (seq 0 r).

(** [t[i]]: the [i]-th slice along the first axis, for a non-negative [i]. *)
Definition index0 {A} (t : Tensor A) (i : nat) : result (Tensor A) :=
  match shape t with
  | r :: rest =>
      if decide (i < r)%nat
      then Ok (mkTensor rest (take (numel rest) (drop (i * numel rest) (data t))))
      else Raise IndexError
  | [] => Raise IndexError
  end.

(** [t[:n, :-1]]: the first [n] slices along the first axis (all of them
    when there are fewer), each without its last slice along the second
    axis.  On a matrix these are rows without their last column; a tensor
    of more axes is sliced along its first two; a tensor of fewer has too
    few axes for the two indices. *)
Definition slice_rows_drop_last {A} (t : Tensor A) (n : nat)
  : result (Tensor A) :=
  match shape t with
  | r :: c :: rest =>
      let k := numel rest in
      Ok (mkTensor (Nat.min n r :: (c - 1)%nat :: rest)
            (concat (map (take ((c - 1) * k))
                         (take n (rows_of r (c * k) (data t))))))
  | _ => Raise IndexError
  end.

(** [np.pad(t, [(0, 0), (0, after)])]: constant mode, zeros appended to each
    row of a matrix; the pad specification does not fit other ranks. *)
Definition np_pad_cols (t : Tensor Q) (after : nat) : result (Tensor Q) :=
  match shape t with
  | [r; c] =>
      Ok (mkTensor [r; (c + after)%nat]
            (concat (map (fun row => row ++ replicate after 0%Q)
                         (rows_of r c (data t)))))
  | _ => Raise ValueError
  end.

(** [2*t - 1] on a float array and on an integer array. *)
Definition to_bipolar_Q (t : Tensor Q) : Tensor Q :=
  tmap (fun x => (2 * x - 1)%Q) t.

Definition to_bipolar_Z (t : Tensor Z) : Tensor Z :=
  tmap (fun x => (2 * x - 1)%Z) t.

(** [t > c], elementwise. *)
Definition gtb_Q (c x : Q) : bool := negb (Qle_bool x c).

(** [b * 1]: a boolean array becomes an integer array. *)
Definition bool_times_one (b : bool) : Z := if b then 1%Z else 0%Z.

(** Broadcasting of two shapes, aligned at their last axes; the arguments of
    [broadcast_rev] are the reversed shapes. *)
Fixpoint broadcast_rev (a b : list nat) : option (list nat) :=
  match a, b with
  | [], s => Some s
  | s, [] => Some s
  | x :: a', y :: b' =>
      match broadcast_rev a' b' with
      | None => None
      | Some s =>
          if decide (x = y) then Some (x :: s)
          else if decide (x = 1%nat) then Some (y :: s)
          else if decide (y = 1%nat) then Some (x :: s)
          else None
      end
  end.

Definition broadcast_shape (a b : list nat) : option (list nat) :=
  option_map (@rev nat) (broadcast_rev (rev a) (rev b)).

(** The truth value that an [if] takes from an elementwise comparison of a
    float array with an integer array, as numpy answered at the time of the
    notebook (Python 3.6).  Shapes that broadcast to one element: the
    comparison [cmp] of the two entries.  Shapes that broadcast to no
    element: false, the truth value of an empty array.  Shapes that
    broadcast to several elements: no truth value.  Shapes that do not
    broadcast: the elementwise comparison is given up and the operator
    answers [mismatch], false for [==] and true for [!=]. *)
Definition compare_truth (cmp : Q -> Z -> bool) (mismatch : bool)
    (a : Tensor Q) (b : Tensor Z) : result bool :=
  match broadcast_shape (shape a) (shape b) with
  | None => Ok mismatch
  | Some s =>
      match numel s with
      | O => Ok false
      | S O =>
          match data a, data b with
          | [x], [y] => Ok (cmp x y)
          | _, _ => Raise ValueError
          end
      | _ => Raise ValueError
      end
  end.

Definition eq_QZ (x : Q) (y : Z) : bool := Qeq_bool x (inject_Z y).
Definition ne_QZ (x : Q) (y : Z) : bool := negb (Qeq_bool x (inject_Z y)).

(** [bool(a == b)] and [bool(a != b)]. *)
Definition truth_eq := compare_truth eq_QZ false.
Definition truth_ne := compare_truth ne_QZ true.

(** ** The model wrapper and its files *)

Inductive DataType : Type :=
| BINARY
| BIPOLAR
| TERNARY
| UINT (bits : nat)
| INT (bits : nat)
| FLOAT32.

Definition str_DataType (d : DataType) : string :=
  match d with
  | BINARY => "DataType.BINARY"
  | BIPOLAR => "DataType.BIPOLAR"
  | TERNARY => "DataType.TERNARY"
  | UINT n => "DataType.UINT" +:+ pretty n
  | INT n => "DataType.INT" +:+ pretty n
  | FLOAT32 => "DataType.FLOAT32"
  end.

Record ValueInfo : Type := mkValueInfo {
  vi_name : string;
  vi_dims : list nat
}.

Record Node : Type := mkNode {
  op_type : string;
  node_name : string;
  node_input : list string;
  node_output : list string
}.

(** Modelled from the spec: [finn.core.modelwrapper.ModelWrapper], whose
    source is not part of the notebook.  The spec calls the graph "opaque to
    this notebook beyond shape/datatype metadata": the wrapper is the graph's
    value infos (names and shapes of inputs, outputs and intermediate
    tensors), its nodes and initializers, and the datatype annotations of its
    tensors. *)
Record ModelWrapper : Type := mkModel {
  graph_input : list ValueInfo;
  graph_output : list ValueInfo;
  graph_value_info : list ValueInfo;
  graph_node : list Node;
  graph_initializer : gmap string (Tensor Q);
  quantization_annotation : gmap string DataType
}.

(** Modelled from the spec: [ModelWrapper.get_tensor_shape], the shape
    metadata of a named tensor, [None] when the graph has no value info of
    that name. *)
Definition get_tensor_shape (m : ModelWrapper) (name : string)
  : option (list nat) :=
  vi_dims <$>
    find (fun vi => bool_decide (vi_name vi = name))
         (graph_input m ++ graph_output m ++ graph_value_info m).

(** Modelled from the spec: [ModelWrapper.set_tensor_datatype], "mark an
    input tensor's datatype": the annotation of the named tensor is
    overwritten, the rest of the model is untouched. *)
Definition set_tensor_datatype (m : ModelWrapper) (name : string)
    (d : DataType) : ModelWrapper :=
  mkModel (graph_input m) (graph_output m) (graph_value_info m)
          (graph_node m) (graph_initializer m)
          (<[name := d]> (quantization_annotation m)).

(** Modelled from the spec: [ModelWrapper.get_tensor_datatype], the
    annotation of the named tensor, [FLOAT32] for a tensor without one. *)
Definition get_tensor_datatype (m : ModelWrapper) (name : string) : DataType :=
  default FLOAT32 (quantization_annotation m !! name).

Inductive Transformation : Type :=
| InferShapes
| FoldConstants
| GiveUniqueNodeNames
| GiveReadableTensorNames
| InferDataTypes
| RemoveStaticGraphInputs.

Inductive File : Type :=
| OnnxFile (m : ModelWrapper)
| CheckpointFile (ckpt : gmap string (list (gmap string (Tensor Q))))
| DataFile (content : string).

(** ** The Brevitas network *)

Inductive Layer : Type :=
| QuantLinear (in_features out_features : nat) (bias : bool)
              (weight_bit_width : nat)
| BatchNorm1d (num_features : nat)
| Dropout (p : Q)
| QuantReLU (bit_width : nat).

Definition input_size : nat := 593.
Definition hidden1 : nat := 64.
Definition hidden2 : nat := 64.
Definition hidden3 : nat := 64.
Definition weight_bit_width : nat := 2.
Definition act_bit_width : nat := 2.
Definition num_classes : nat := 1.

Definition brevitas_model : list Layer :=
  [ QuantLinear input_size hidden1 true weight_bit_width;
    BatchNorm1d hidden1;
    Dropout (1 # 2);
    QuantReLU act_bit_width;
    QuantLinear hidden1 hidden2 true weight_bit_width;
    BatchNorm1d hidden2;
    Dropout (1 # 2);
    QuantReLU act_bit_width;
    QuantLinear hidden2 hidden3 true weight_bit_width;
    BatchNorm1d hidden3;
    Dropout (1 # 2);
    QuantReLU act_bit_width;
    QuantLinear hidden3 num_classes true weight_bit_width ].

(** ** Session state *)

Record World : Type := mkWorld {
  files : gmap string File;            (* the working directory *)
  stdout : list string;                (* printed lines, oldest first *)
  netron : option string;              (* file shown by the viewer *)
  params : gmap string (Tensor Q);     (* parameters of brevitas_model *)
  training : bool;                     (* brevitas_model.training *)
  rng : nat -> bool;                   (* the generator's random bits *)
  drawn : nat;                         (* draws consumed so far *)
  exec_log : list (ModelWrapper * gmap string (Tensor Q));
                                       (* calls made to execute_onnx *)
  ok : nat;
  nok : nat;
  description : string                 (* text of the progress bar *)
}.

Definition set_files (f : gmap string File) (w : World) : World :=
  mkWorld f (stdout w) (netron w) (params w) (training w) (rng w) (drawn w)
          (exec_log w) (ok w) (nok w) (description w).
Definition set_stdout (o : list string) (w : World) : World :=
  mkWorld (files w) o (netron w) (params w) (training w) (rng w) (drawn w)
          (exec_log w) (ok w) (nok w) (description w).
Definition set_netron (n : option string) (w : World) : World :=
  mkWorld (files w) (stdout w) n (params w) (training w) (rng w) (drawn w)
          (exec_log w) (ok w) (nok w) (description w).
Definition set_params (p : gmap string (Tensor Q)) (w : World) : World :=
  mkWorld (files w) (stdout w) (netron w) p (training w) (rng w) (drawn w)
          (exec_log w) (ok w) (nok w) (description w).
Definition set_training (b : bool) (w : World) : World :=
  mkWorld (files w) (stdout w) (netron w) (params w) b (rng w) (drawn w)
          (exec_log w) (ok w) (nok w) (description w).
Definition set_rng (r : nat -> bool) (w : World) : World :=
  mkWorld (files w) (stdout w) (netron w) (params w) (training w) r (drawn w)
          (exec_log w) (ok w) (nok w) (description w).
Definition set_drawn (d : nat) (w : World) : World :=
  mkWorld (files w) (stdout w) (netron w) (params w) (training w) (rng w) d
          (exec_log w) (ok w) (nok w) (description w).
Definition set_exec_log (l : list (ModelWrapper * gmap string (Tensor Q)))
    (w : World) : World :=
  mkWorld (files w) (stdout w) (netron w) (params w) (training w) (rng w)
          (drawn w) l (ok w) (nok w) (description w).
Definition set_ok (n : nat) (w : World) : World :=
  mkWorld (files w) (stdout w) (netron w) (params w) (training w) (rng w)
          (drawn w) (exec_log w) n (nok w) (description w).
Definition set_nok (n : nat) (w : World) : World :=
  mkWorld (files w) (stdout w) (netron w) (params w) (training w) (rng w)
          (drawn w) (exec_log w) (ok w) n (description w).
Definition set_description (s : string) (w : World) : World :=
  mkWorld (files w) (stdout w) (netron w) (params w) (training w) (rng w)
          (drawn w) (exec_log w) (ok w) (nok w) s.

(** ** Computations: state and exceptions *)

Definition M (A : Type) : Type := World -> result A * World.

Definition ret {A} (a : A) : M A := fun w => (Ok a, w).
Definition raise {A} (e : Exn) : M A := fun w => (Raise e, w).
Definition lift {A} (r : result A) : M A := fun w => (r, w).
Definition modify (f : World -> World) : M unit := fun w => (Ok tt, f w).

(** Sequencing.  There is no handler anywhere in the script, so the only
    thing that can happen to an exception is that the rest is skipped. *)
Definition bind {A B} (c : M A) (k : A -> M B) : M B :=
  fun w =>
    match c w with
    | (Ok a, w') => k a w'
    | (Raise e, w') => (Raise e, w')
    end.

Notation "'do' x <- c1 ; c2" := (bind c1 (fun x => c2))
  (at level 10, x name, c1 at level 100, c2 at level 200).
Notation "'run' c1 ; c2" := (bind c1 (fun _ => c2))
  (at level 10, c1 at level 100, c2 at level 200).

(** [for x in xs: body(x)] *)
Fixpoint for_each {A} (body : A -> M unit) (xs : list A) : M unit :=
  match xs with
  | [] => ret tt
  | x :: xs' => run body x; for_each body xs'
  end.

Definition print (line : string) : M unit :=
  modify (fun w => set_stdout (stdout w ++ [line]) w).

(** [d[k]] on a dictionary and [l[i]] on a list *)
Definition dict_get {V} (d : gmap string V) (k : string) : result V :=
  match d !! k with
  | Some v => Ok v
  | None => Raise (KeyError k)
  end.

Definition list_get {V} (l : list V) (i : nat) : result V :=
  match l !! i with
  | Some v => Ok v
  | None => Raise IndexError
  end.

(** [str(shape)] for a list of dimensions or [None] *)
Definition str_shape (s : option (list nat)) : string :=
  match s with
  | Some dims => "[" +:+ String.concat ", " (map pretty dims) +:+ "]"
  | None => "None"
  end.

(** ** Library interface *)

Class Externals : Type := {
  (** [model.transform(t)]: a transformed copy of the model *)
  transform : ModelWrapper -> Transformation -> result ModelWrapper;
  (** [oxe.execute_onnx(model, input_dict)] *)
  execute_onnx : ModelWrapper -> gmap string (Tensor Q)
                 -> result (gmap string (Tensor Q));
  (** the forward function of the layer at a position of the network,
      with the given parameters and training flag; [Dropout] is below.
      What a layer writes back in training mode (running statistics) is
      not modelled: the notebook runs the network only after [eval()]. *)
  layer_forward : gmap string (Tensor Q) -> nat -> Layer -> bool
                  -> Tensor Q -> result (Tensor Q);
  (** the constructors of the layers of a network: its freshly initialised
      parameters, made from the generator's bits from a position on, and
      the number of bits consumed *)
  init_parameters : list Layer -> (nat -> bool) -> nat
                    -> gmap string (Tensor Q) * nat;
  (** [torch.sigmoid] on one entry *)
  torch_sigmoid : Q -> Q;
  (** [UNSW_NB15_quantized(file_path_train, file_path_test, train).data] *)
  UNSW_NB15_quantized : gmap string File -> string -> string -> bool
                        -> result (Tensor Q)
}.

(** ** The notebook *)

(** Code cells are named after their execution counts, [cell2] to
    [cell13]; the two cells that only define a function are those
    functions. *)

Section Notebook.
Context `{Ext : Externals}.

(** *** Import model and visualize *)

(** Modelled from the spec: the constructor [ModelWrapper(path)] of the
    absent [finn.core.modelwrapper], which "consumes a serialized model
    file": it answers the model stored under [path]; it asserts that the
    file exists before it reads it. *)
Definition load_model (path : string) : M ModelWrapper :=
  fun w =>
    match files w !! path with
    | Some (OnnxFile m) => (Ok m, w)
    | Some _ => (Raise (LibraryError 0), w)
    | None => (Raise AssertionError, w)
    end.

(** Modelled from the spec: [ModelWrapper.save(path)], which "produces a
    normalized serialized model file": the file [path] now holds the
    model. *)
Definition save_model (m : ModelWrapper) (path : string) : M unit :=
  modify (fun w => set_files (<[path := OnnxFile m]> (files w)) w).

Definition netron_address : string := "http://0.0.0.0:8081".

(** Modelled from the spec: [showInNetron(path)] of the absent
    [finn.util.visualization], "a visualization server side effect": the
    viewer now shows [path].  The lines it prints are those of the
    notebook's recorded outputs: a viewer that is running is stopped
    first, after an empty line. *)
Definition showInNetron (path : string) : M unit :=
  do running <- (fun w => (Ok (netron w), w));
  run (match running with
       | Some _ => run print ""; print ("Stopping " +:+ netron_address)
       | None => ret tt
       end);
  run print ("Serving '" +:+ path +:+ "' at " +:+ netron_address);
  modify (set_netron (Some path)).

Definition model_file_path : string := "cybsec-mlp.onnx".

Definition cell2 : M ModelWrapper := load_model model_file_path.

Definition cell3 : M unit := showInNetron model_file_path.

(** *** Tidy-up transformations *)

Definition cell4 (model_for_sim : ModelWrapper) : M ModelWrapper :=
  do model_for_sim <- lift (transform model_for_sim InferShapes);
  do model_for_sim <- lift (transform model_for_sim FoldConstants);
  do model_for_sim <- lift (transform model_for_sim GiveUniqueNodeNames);
  do model_for_sim <- lift (transform model_for_sim GiveReadableTensorNames);
  do model_for_sim <- lift (transform model_for_sim InferDataTypes);
  do model_for_sim <- lift (transform model_for_sim RemoveStaticGraphInputs);
  ret model_for_sim.

(** *** Input datatype and saved model *)

(** What the later cells read from the session. *)
Record Prepared : Type := mkPrepared {
  model_for_sim : ModelWrapper;
  finnonnx_in_tensor_name : string;
  finnonnx_out_tensor_name : string;
  finnonnx_model_in_shape : option (list nat)
}.

Definition verified_model_filename : string := "cybsec-mlp-verified.onnx".

Definition cell5 (model_for_sim : ModelWrapper) : M Prepared :=
  do in_vi <- lift (list_get (graph_input model_for_sim) 0);
  do out_vi <- lift (list_get (graph_output model_for_sim) 0);
  let finnonnx_in_tensor_name := vi_name in_vi in
  let finnonnx_out_tensor_name := vi_name out_vi in
  run print ("Input tensor name: " +:+ finnonnx_in_tensor_name);
  run print ("Output tensor name: " +:+ finnonnx_out_tensor_name);
  let finnonnx_model_in_shape :=
    get_tensor_shape model_for_sim finnonnx_in_tensor_name in
  run print ("Input tensor shape: " +:+ str_shape finnonnx_model_in_shape);
  let model_for_sim :=
    set_tensor_datatype model_for_sim finnonnx_in_tensor_name BIPOLAR in
  run print ("Input tensor datatype: " +:+
             str_DataType (get_tensor_datatype model_for_sim
                                               finnonnx_in_tensor_name));
  run save_model model_for_sim verified_model_filename;
  ret (mkPrepared model_for_sim finnonnx_in_tensor_name
                  finnonnx_out_tensor_name finnonnx_model_in_shape).

Definition cell6 : M unit := showInNetron verified_model_filename.

(** *** Dataset and Brevitas model *)

Definition n_verification_inputs : nat := 100.

Definition cell7 : M (Tensor Q) :=
  do test_quantized_dataset <-
    (fun w => (UNSW_NB15_quantized (files w) "UNSW_NB15_training-set.csv"
                                   "UNSW_NB15_testing-set.csv" false, w));
  lift (slice_rows_drop_last test_quantized_dataset n_verification_inputs).

(** [torch.load(path)] *)
Definition torch_load (path : string)
  : M (gmap string (list (gmap string (Tensor Q)))) :=
  fun w =>
    match files w !! path with
    | Some (CheckpointFile c) => (Ok c, w)
    | Some _ => (Raise (LibraryError 1), w)
    | None => (Raise (FileNotFoundError path), w)
    end.

(** [brevitas_model = nn.Sequential(...)]: a new network, its parameters
    freshly initialised from the generator, in training mode. *)
Definition construct_brevitas_model : M unit :=
  modify (fun w =>
    let (fresh, k) := init_parameters brevitas_model (rng w) (drawn w) in
    set_training true (set_params fresh (set_drawn (drawn w + k)%nat w))).

(** [brevitas_model.load_state_dict(sd, strict=False)]: every parameter of
    the network named in [sd] with its shape takes the value found there;
    names on one side only are reported, not refused; a parameter of
    another shape is refused, once the fitting ones have been copied. *)
Definition load_state_dict (sd : gmap string (Tensor Q)) : M unit :=
  fun w =>
    let fits (k : string) (v : Tensor Q) : bool :=
      match sd !! k with
      | Some v' => bool_decide (shape v' = shape v)
      | None => true
      end in
    let loaded :=
      map_imap (fun k v => Some (if fits k v then default v (sd !! k) else v))
               (params w) in
    (if forallb (fun kv => fits kv.1 kv.2) (map_to_list (params w))
     then Ok tt else Raise RuntimeError,
     set_params loaded w).

Definition cell8 : M unit :=
  run construct_brevitas_model;
  do ckpt <- torch_load "state_dict.pth";
  do states <- lift (dict_get ckpt "models_state_dict");
  do trained_state_dict <- lift (list_get states 0);
  load_state_dict trained_state_dict.

(** [nn.Dropout(p)]: the identity in evaluation mode; in training mode
    each element is kept with probability [1 - p] and scaled by
    [1 / (1 - p)], or zeroed. *)
Definition dropout (p : Q) (x : Tensor Q) : M (Tensor Q) :=
  fun w =>
    if training w
    then
      let n := length (data x) in
      let mask := map (fun k => rng w (drawn w + k)%nat) (seq 0 n) in
      (Ok (mkTensor (shape x)
             (zip_with (fun (keep : bool) v =>
                          if keep then (v / (1 - p))%Q else 0%Q)
                       mask (data x))),
       set_drawn (drawn w + n)%nat w)
    else (Ok x, w).

Definition apply_layer (i : nat) (l : Layer) (x : Tensor Q) : M (Tensor Q) :=
  match l with
  | Dropout p => dropout p x
  | _ => fun w => (layer_forward (params w) i l (training w) x, w)
  end.

(** [nn.Sequential(...).forward(x)] from the layer at position [i] on *)
Fixpoint sequential_forward (i : nat) (layers : list Layer) (x : Tensor Q)
  : M (Tensor Q) :=
  match layers with
  | [] => ret x
  | l :: layers' =>
      do y <- apply_layer i l x;
      sequential_forward (S i) layers' y
  end.

Definition brevitas_forward (x : Tensor Q) : M (Tensor Q) :=
  sequential_forward 0 brevitas_model x.

(** The steps after the forward pass: sigmoid, threshold, bipolar. *)
Definition postprocess (brevitas_output : Tensor Q) : Tensor Z :=
  let brevitas_output := tmap torch_sigmoid brevitas_output in
  let brevitas_output :=
    tmap bool_times_one (tmap (gtb_Q (1 # 2)) brevitas_output) in
  to_bipolar_Z brevitas_output.

Definition inference_with_brevitas (current_inp : Tensor Q) : M (Tensor Z) :=
  do brevitas_output <- brevitas_forward current_inp;
  ret (postprocess brevitas_output).

(** *** Compare FINN and Brevitas execution *)

(** The input dictionary that [inference_with_finn_onnx] builds.  A
    graph without a shape for its input gives [reshape(None)], which
    leaves the array as it is. *)
Definition finn_input_dict (P : Prepared) (current_inp : Tensor Q)
  : result (gmap string (Tensor Q)) :=
  rbind (np_pad_cols current_inp 7) (fun current_inp =>
  let current_inp := to_bipolar_Q current_inp in
  rbind (match finnonnx_model_in_shape P with
         | Some shp => reshape ValueError current_inp shp
         | None => Ok current_inp
         end) (fun current_inp =>
  Ok ({[ finnonnx_in_tensor_name P := current_inp ]}))).

(** The call into the engine, recorded in [exec_log]. *)
Definition call_execute_onnx (m : ModelWrapper)
    (input_dict : gmap string (Tensor Q)) : M (gmap string (Tensor Q)) :=
  fun w =>
    (execute_onnx m input_dict,
     set_exec_log (exec_log w ++ [(m, input_dict)]) w).

Definition inference_with_finn_onnx (P : Prepared) (current_inp : Tensor Q)
  : M (Tensor Q) :=
  do input_dict <- lift (finn_input_dict P current_inp);
  do output_dict <- call_execute_onnx (model_for_sim P) input_dict;
  lift (dict_get output_dict (finnonnx_out_tensor_name P)).

Definition progress_text (ok nok : nat) : string :=
  "ok " +:+ pretty ok +:+ " nok " +:+ pretty nok.

(** The comparison and the tally at the end of the loop body. *)
Definition tally (finn_output : Tensor Q) (brevitas_output : Tensor Z)
  : M unit :=
  do agree <- lift (truth_eq finn_output brevitas_output);
  run modify (fun w => set_ok (ok w + (if agree then 1 else 0))%nat w);
  do differ <- lift (truth_ne finn_output brevitas_output);
  run modify (fun w => set_nok (nok w + (if differ then 1 else 0))%nat w);
  modify (fun w => set_description (progress_text (ok w) (nok w)) w).

(** The body of the verification loop. *)
Definition verify_iteration (P : Prepared) (input_tensor : Tensor Q)
    (i : nat) : M unit :=
  do row <- lift (index0 input_tensor i);
  do current_inp <- lift (reshape RuntimeError row [1; 593]%nat);
  do brevitas_output <- inference_with_brevitas current_inp;
  do finn_output <- inference_with_finn_onnx P current_inp;
  tally finn_output brevitas_output.

(** The loop over [range(n)], after [eval()] and the reset of the tally. *)
Definition verification_loop (P : Prepared) (input_tensor : Tensor Q)
    (n : nat) : M unit :=
  run modify (set_description "FINN execution");
  run modify (set_training false);
  run modify (set_ok 0);
  run modify (set_nok 0);
  for_each (verify_iteration P input_tensor) (seq 0 n).

Definition cell11 (P : Prepared) (input_tensor : Tensor Q) : M unit :=
  verification_loop P input_tensor n_verification_inputs.

Definition succeeded_message : string :=
  "Verification succeeded. Brevitas and FINN-ONNX execution outputs are identical".
Definition failed_message : string :=
  "Verification failed. Brevitas and FINN-ONNX execution outputs are NOT identical".

Definition cell13 : M unit :=
  fun w =>
    if decide (ok w = n_verification_inputs)
    then print succeeded_message w
    else print failed_message w.

(** The cells up to the saved model, and the whole notebook. *)
Definition prepare : M Prepared :=
  do model_for_sim <- cell2;
  run cell3;
  do model_for_sim <- cell4 model_for_sim;
  do P <- cell5 model_for_sim;
  run cell6;
  ret P.

Definition verify (P : Prepared) : M unit :=
  do input_tensor <- cell7;
  run cell8;
  run cell11 P input_tensor;
  cell13.

Definition notebook : M unit :=
  do P <- prepare;
  verify P.

End Notebook.

(** ** Reference definitions used in the statements *)

(** The tidy-up passes, as a list. *)
Definition tidy_up_passes : list Transformation :=
  [ InferShapes; FoldConstants; GiveUniqueNodeNames; GiveReadableTensorNames;
    InferDataTypes; RemoveStaticGraphInputs ].

(** Each pass applied to the result of the previous one. *)
Fixpoint apply_passes `{Ext : Externals} (ts : list Transformation)
    (m : ModelWrapper) : result ModelWrapper :=
  match ts with
  | [] => Ok m
  | t :: ts' => rbind (transform m t) (apply_passes ts')
  end.

(** The class that the reference network predicts from its raw output:
    +1 when the sigmoid of the output exceeds 0.5, and -1 otherwise. *)
Definition predicted_class `{Ext : Externals} (x : Q) : Z :=
  if gtb_Q (1 # 2) (torch_sigmoid x) then 1%Z else (-1)%Z.

(** The exported model's output is one number, the reference network's raw
    output is one number, and the first is the class predicted from the
    second. *)
Definition agrees `{Ext : Externals} (finn_output raw : Tensor Q) : Prop :=
  numel (shape finn_output) = 1%nat /\ numel (shape raw) = 1%nat /\
  exists x y, data raw = [x] /\ data finn_output = [y] /\
              (y == inject_Z (predicted_class x))%Q.

(** Two shapes broadcast to a shape without elements: an elementwise
    comparison of such arrays is an empty array, which is false as a truth
    value, for [==] and for [!=] alike. *)
Definition empty_broadcast (a b : list nat) : bool :=
  match broadcast_shape a b with
  | Some s => Nat.eqb (numel s) 0
  | None => false
  end.

(** The two outputs that iteration [i] of the loop compares when it is run
    from [w]: [(finn_output, brevitas_output)], if the iteration gets as far
    as the comparison. *)
Definition iteration_outputs `{Ext : Externals} (P : Prepared)
    (input_tensor : Tensor Q) (i : nat) (w : World)
  : option (Tensor Q * Tensor Z) :=
  match (do row <- lift (index0 input_tensor i);
         do current_inp <- lift (reshape RuntimeError row [1; 593]%nat);
         do brevitas_output <- inference_with_brevitas current_inp;
         do finn_output <- inference_with_finn_onnx P current_inp;
         ret (finn_output, brevitas_output)) w with
  | (Ok o, _) => Some o
  | (Raise _, _) => None
  end.

(** The outputs compared by the iterations that a loop over [xs] from [w]
    completes, in order. *)
Fixpoint loop_outputs `{Ext : Externals} (P : Prepared)
    (input_tensor : Tensor Q) (xs : list nat) (w : World)
  : list (Tensor Q * Tensor Z) :=
  match xs with
  | [] => []
  | i :: xs' =>
      match verify_iteration P input_tensor i w with
      | (Ok _, w') =>
          option_list (iteration_outputs P input_tensor i w)
          ++ loop_outputs P input_tensor xs' w'
      | (Raise _, _) => []
      end
  end.

(** How a pair of outputs compares: [==] is true, [!=] is true, or the
    comparison is empty. *)
Definition compared_equal (o : Tensor Q * Tensor Z) : bool :=
  match truth_eq o.1 o.2 with Ok true => true | _ => false end.

Definition compared_unequal (o : Tensor Q * Tensor Z) : bool :=
  match truth_ne o.1 o.2 with Ok true => true | _ => false end.

Definition compared_empty (o : Tensor Q * Tensor Z) : bool :=
  empty_broadcast (shape o.1) (shape o.2).

Definition count {A} (f : A -> bool) (l : list A) : nat :=
  length (List.filter f l).

(** A feature vector is boolean-encoded, an input of the graph bipolar. *)
Definition boolean_encoded (v : list Q) : Prop :=
  Forall (fun x => x = 0%Q \/ x = 1%Q) v.

Definition bipolar_encoded (v : list Q) : Prop :=
  Forall (fun x => x = (-1)%Q \/ x = 1%Q) v.

(** The state in which the loop body first runs. *)
Definition loop_start (w : World) : World :=
  set_nok 0 (set_ok 0 (set_training false
                         (set_description "FINN execution" w))).

(** The state of the random generator. *)
Definition set_generator (r : nat -> bool) (d : nat) (w : World) : World :=
  set_drawn d (set_rng r w).

(** ** Frames and independence, as predicates on computations *)

(** [c] moves every state to an [R]-related one. *)
Definition respects (R : World -> World -> Prop) {A} (c : M A) : Prop :=
  forall w, R w (c w).2.

(** The files are as they were and the engine was called with the model
    of [P] only. *)
Definition model_frame (P : Prepared) (w w' : World) : Prop :=
  files w' = files w /\
  exists calls, exec_log w' = exec_log w ++ calls /\
                Forall (fun c => c.1 = model_for_sim P) calls.

(** What the verification loop leaves alone. *)
Definition loop_frame (P : Prepared) (w w' : World) : Prop :=
  model_frame P w w' /\ stdout w' = stdout w /\ netron w' = netron w /\
  rng w' = rng w.

(** What the two inference paths leave alone. *)
Definition inference_frame (P : Prepared) (w w' : World) : Prop :=
  loop_frame P w w' /\ training w' = training w /\
  ok w' = ok w /\ nok w' = nok w /\ description w' = description w.

(** [c] does not look at the generator: run from a state with another
    generator it gives the same result and the same state, up to the
    generator.  [rng_blind] asks this of states in evaluation mode, which
    [c] must not leave. *)
Definition rng_free {A} (c : M A) : Prop :=
  forall r d w,
    c (set_generator r d w) = ((c w).1, set_generator r d (c w).2).

Definition rng_blind {A} (c : M A) : Prop :=
  forall r d w, training w = false ->
    c (set_generator r d w) = ((c w).1, set_generator r d (c w).2) /\
    training (c w).2 = false.

(** Two runs end alike: same result, same tally, same printed lines, same
    progress text. *)
Definition same_outcome (a b : result unit * World) : Prop :=
  a.1 = b.1 /\ ok a.2 = ok b.2 /\ nok a.2 = nok b.2 /\
  stdout a.2 = stdout b.2 /\ description a.2 = description b.2.

(** ** A small concrete instance of the libraries *)

Module Toy.

Definition relu (x : Q) : Q := if Qle_bool x 0 then 0%Q else x.

(** A sigmoid with the rounding of 32-bit floats around 0.5: the tangent
    1/2 + x/4 of the sigmoid at 0, kept between 0 and 1 and rounded to the
    nearest multiple of 2^-24. *)
Definition toy_sigmoid (x : Q) : Q :=
  let y := ((1 # 2) + x / 4)%Q in
  let y := if Qle_bool y 0 then 0%Q else if Qle_bool 1 y then 1%Q else y in
  (Qfloor (y * 16777216 + (1 # 2)) # 16777216)%Q.

(** Constructors that make one parameter, the bias of the output layer,
    from one bit of the generator. *)
Definition toy_init_parameters (layers : list Layer) (r : nat -> bool)
    (d : nat) : gmap string (Tensor Q) * nat :=
  ({[ "12.bias" := mkTensor [1]%nat [if r d then 1%Q else 0%Q] ]}, 1%nat).

Definition entry (k : nat) (x : Tensor Q) : Q := nth k (data x) 0%Q.

(** A network of the right shapes: the first layer computes 2*x0 + x1 in
    every hidden unit, the hidden layers copy their first input, the output
    layer computes 2*h0 - 3. *)
Definition toy_layer_forward (sd : gmap string (Tensor Q)) (i : nat)
    (l : Layer) (tr : bool) (x : Tensor Q) : result (Tensor Q) :=
  match l with
  | QuantLinear fin fout _ _ =>
      if decide (length (data x) = fin)
      then Ok (mkTensor [1%nat; fout]
                 (replicate fout
                    (if decide (fin = input_size)
                     then (2 * entry 0 x + entry 1 x)%Q
                     else if decide (fout = num_classes)
                          then (2 * entry 0 x - 3)%Q
                          else entry 0 x)))
      else Raise RuntimeError
  | BatchNorm1d _ => Ok x
  | QuantReLU _ => Ok (tmap relu x)
  | Dropout _ => Ok x
  end.

(** An engine that answers with the entry at position [k] of what it is fed. *)
Definition toy_execute_onnx (k : nat) (m : ModelWrapper)
    (d : gmap string (Tensor Q)) : result (gmap string (Tensor Q)) :=
  match graph_input m, graph_output m with
  | i :: _, o :: _ =>
      match d !! vi_name i with
      | Some t =>
          if decide (shape t = vi_dims i)
          then Ok {[ vi_name o := mkTensor [1; 1]%nat [entry k t] ]}
          else Raise (LibraryError 3)
      | None => Raise (KeyError (vi_name i))
      end
  | _, _ => Raise (LibraryError 2)
  end.

(** An engine that fails on every input that starts with +1, -1. *)
Definition failing_execute_onnx (m : ModelWrapper)
    (d : gmap string (Tensor Q)) : result (gmap string (Tensor Q)) :=
  match graph_input m with
  | i :: _ =>
      match d !! vi_name i with
      | Some t =>
          if Qeq_bool (entry 0 t) 1 && Qeq_bool (entry 1 t) (-1)
          then Raise (LibraryError 7)
          else toy_execute_onnx 0 m d
      | None => Raise (KeyError (vi_name i))
      end
  | [] => Raise (LibraryError 2)
  end.

Definition pass_name (t : Transformation) : string :=
  match t with
  | InferShapes => "InferShapes"
  | FoldConstants => "FoldConstants"
  | GiveUniqueNodeNames => "GiveUniqueNodeNames"
  | GiveReadableTensorNames => "GiveReadableTensorNames"
  | InferDataTypes => "InferDataTypes"
  | RemoveStaticGraphInputs => "RemoveStaticGraphInputs"
  end.

(** A pass that only leaves its name behind, as a node of the graph. *)
Definition recording_transform (m : ModelWrapper) (t : Transformation)
  : result ModelWrapper :=
  Ok (mkModel (graph_input m) (graph_output m) (graph_value_info m)
              (graph_node m ++ [mkNode (pass_name t) "" [] []])
              (graph_initializer m) (quantization_annotation m)).

Definition bit (i j : nat) : Q :=
  if Nat.even (i / (j + 1)) then 1%Q else 0%Q.

(** 120 rows of 593 features and a label. *)
Definition toy_dataset : Tensor Q :=
  mkTensor [120; 594]%nat
    (concat (map (fun i => map (bit i) (seq 0 594)) (seq 0 120))).

Definition toy_UNSW_NB15_quantized (fs : gmap string File)
    (file_path_train file_path_test : string) (train : bool)
  : result (Tensor Q) :=
  match fs !! file_path_train, fs !! file_path_test with
  | Some _, Some _ => Ok toy_dataset
  | None, _ => Raise (FileNotFoundError file_path_train)
  | _, None => Raise (FileNotFoundError file_path_test)
  end.

Definition toy_ext (k : nat) : Externals :=
  Build_Externals recording_transform (toy_execute_onnx k)
                  toy_layer_forward toy_init_parameters toy_sigmoid
                  toy_UNSW_NB15_quantized.

Definition failing_ext : Externals :=
  Build_Externals recording_transform failing_execute_onnx
                  toy_layer_forward toy_init_parameters toy_sigmoid
                  toy_UNSW_NB15_quantized.

Definition toy_model : ModelWrapper :=
  mkModel [mkValueInfo "global_in" [1; 600]%nat]
          [mkValueInfo "global_out" [1; 1]%nat]
          []
          [mkNode "MatMul" "" ["global_in"] ["global_out"]]
          ∅ ∅.

Definition toy_files : gmap string File :=
  {[ "cybsec-mlp.onnx" := OnnxFile toy_model;
     "state_dict.pth" := CheckpointFile {[ "models_state_dict" := [∅] ]};
     "UNSW_NB15_training-set.csv" := DataFile "";
     "UNSW_NB15_testing-set.csv" := DataFile "" ]}.

Definition toy_world : World :=
  mkWorld toy_files [] None ∅ true Nat.even 0 [] 0 0 "".

(** The state in which the loop runs: evaluation mode. *)
Definition toy_eval_world : World := set_training false toy_world.

(** The first 100 rows of the data set without their label. *)
Definition toy_input : Tensor Q :=
  mkTensor [100; 593]%nat
    (concat (map (fun i => map (bit i) (seq 0 593)) (seq 0 100))).

(** Sample [i] as the loop hands it to the two paths. *)
Definition toy_sample (i : nat) : Tensor Q :=
  mkTensor [1; 593]%nat (map (bit i) (seq 0 593)).

Definition toy_prepared : Prepared :=
  mkPrepared (set_tensor_datatype toy_model "global_in" BIPOLAR)
             "global_in" "global_out" (Some [1; 600]%nat).

End Toy.

(** ** Further predicates on states and computations *)

(** Only the position of the random generator changed. *)
Definition only_drawn (w w' : World) : Prop :=
  exists d, w' = set_drawn d w.

(** Two states that the verification loop cannot tell apart once it has
    reset the tally: same parameters, evaluation mode, same tally and
    progress text. *)
Definition loop_sim (w1 w2 : World) : Prop :=
  params w1 = params w2 /\ training w1 = false /\ training w2 = false /\
  ok w1 = ok w2 /\ nok w1 = nok w2 /\ description w1 = description w2.

(** [c] gives the same result from such states and keeps them such. *)
Definition sim_blind {A} (c : M A) : Prop :=
  forall w1 w2, loop_sim w1 w2 ->
    (c w1).1 = (c w2).1 /\ loop_sim (c w1).2 (c w2).2.


Definition engine_call (P : Prepared) (v : list Q)
  : ModelWrapper * gmap string (Tensor Q) :=
  (model_for_sim P,
   {[ finnonnx_in_tensor_name P :=
        mkTensor [1; 600]%nat
          (map (fun x => 2 * x - 1)%Q v ++ replicate 7 (-1)%Q) ]}).

(** A call of the engine as the notebook makes them: the model of the
    session, and a dictionary with one well-formed tensor of the graph's
    input shape under the graph's input name; for a graph that gives no
    shape for its input, the padded sample as it is, of shape (1, 600). *)
Definition notebook_call (P : Prepared)
    (c : ModelWrapper * gmap string (Tensor Q)) : Prop :=
  c.1 = model_for_sim P /\
  exists t, c.2 = {[ finnonnx_in_tensor_name P := t ]} /\
            match finnonnx_model_in_shape P with
            | Some shp => shape t = shp
            | None => shape t = [1; 600]%nat
            end /\ wf_tensor t.


(** The lines that the viewer prints when it is asked to show [path]:
    a viewer that is running is stopped first. *)
Definition viewer_lines (running : option string) (path : string)
  : list string :=
  match running with
  | Some _ => [""; "Stopping http://0.0.0.0:8081"]
  | None => []
  end ++ ["Serving '" +:+ path +:+ "' at http://0.0.0.0:8081"].

(** The lines that the cells up to the saved model print when they
    complete with the session values [P]. *)
Definition prepare_lines (running : option string) (P : Prepared)
  : list string :=
  viewer_lines running "cybsec-mlp.onnx" ++
  [ "Input tensor name: " +:+ finnonnx_in_tensor_name P;
    "Output tensor name: " +:+ finnonnx_out_tensor_name P;
    "Input tensor shape: " +:+ str_shape (finnonnx_model_in_shape P);
    "Input tensor datatype: DataType.BIPOLAR" ] ++
  viewer_lines (Some "cybsec-mlp.onnx") "cybsec-mlp-verified.onnx".

(** ** Edge-case inputs *)

Module Edge.

(** A test set of three rows only. *)
Definition short_dataset : Tensor Q :=
  mkTensor [3; 594]%nat
    (concat (map (fun i => map (Toy.bit i) (seq 0 594)) (seq 0 3))).

(** A batch of two samples of three features. *)
Definition narrow_batch : Tensor Q :=
  mkTensor [2; 3]%nat [1; 0; 1; 0; 0; 1]%Q.

(** A small matrix with a label column. *)
Definition small_dataset : Tensor Q :=
  mkTensor [3; 3]%nat [1; 0; 1; 0; 1; 0; 1; 1; 0]%Q.

(** A graph without inputs. *)
Definition no_input_model : ModelWrapper :=
  mkModel [] [mkValueInfo "global_out" [1; 1]%nat] [] [] ∅ ∅.

(** An engine that answers under a name nobody asked for. *)
Definition misnaming_execute_onnx (m : ModelWrapper)
    (d : gmap string (Tensor Q)) : result (gmap string (Tensor Q)) :=
  Ok {[ "other" := mkTensor [1; 1]%nat [1%Q] ]}.

Definition misnaming_ext : Externals :=
  Build_Externals Toy.recording_transform misnaming_execute_onnx
                  Toy.toy_layer_forward Toy.toy_init_parameters
                  Toy.toy_sigmoid Toy.toy_UNSW_NB15_quantized.

(** An engine that answers with an array without elements. *)
Definition empty_execute_onnx (m : ModelWrapper)
    (d : gmap string (Tensor Q)) : result (gmap string (Tensor Q)) :=
  match graph_output m with
  | o :: _ => Ok {[ vi_name o := mkTensor [1; 0]%nat [] ]}
  | [] => Raise (LibraryError 2)
  end.

Definition empty_ext : Externals :=
  Build_Externals Toy.recording_transform empty_execute_onnx
                  Toy.toy_layer_forward Toy.toy_init_parameters
                  Toy.toy_sigmoid Toy.toy_UNSW_NB15_quantized.

(** A session without the checkpoint file. *)
Definition no_checkpoint_world : World :=
  set_files (delete "state_dict.pth" Toy.toy_files) Toy.toy_world.

End Edge.

(** * Properties *)

(** ** The monad *)

Lemma bind_Ok_inv {A B} (c : M A) (k : A -> M B) w b w' :
  bind c k w = (Ok b, w') ->
  exists a w1, c w = (Ok a, w1) /\ k a w1 = (Ok b, w').
Proof.
  unfold bind. destruct (c w) as [[a|e] w1]; [eauto | discriminate].
Qed.

Lemma bind_Raise_inv {A B} (c : M A) (k : A -> M B) w e w' :
  bind c k w = (Raise e, w') ->
  c w = (Raise e, w') \/ exists a w1, c w = (Ok a, w1) /\ k a w1 = (Raise e, w').
Proof.
  unfold bind. destruct (c w) as [[a|e0] w1]; [eauto | intros [= -> ->]; auto].
Qed.

Lemma bind_Raise {A B} (c : M A) (k : A -> M B) w e w' :
  c w = (Raise e, w') -> bind c k w = (Raise e, w').
Proof. unfold bind. intros ->. reflexivity. Qed.

Lemma bind_Ok {A B} (c : M A) (k : A -> M B) w a w1 :
  c w = (Ok a, w1) -> bind c k w = k a w1.
Proof. unfold bind. intros ->. reflexivity. Qed.

Lemma lift_inv {A} (r : result A) w a w' :
  lift r w = (a, w') -> r = a /\ w' = w.
Proof. unfold lift. intros [= <- <-]. auto. Qed.

Lemma for_each_app {A} (body : A -> M unit) xs ys w :
  for_each body (xs ++ ys) w =
  match for_each body xs w with
  | (Ok _, w1) => for_each body ys w1
  | (Raise e, w1) => (Raise e, w1)
  end.
Proof.
  revert w. induction xs as [|x xs IH]; intros w; simpl; [reflexivity|].
  unfold bind. destruct (body x w) as [[[]|e] w1]; [apply IH | reflexivity].
Qed.

(** A loop rule with a counted invariant: [I k] holds after [k] completed
    iterations, [E k] when iteration [k] raised. *)
Lemma for_each_rule {A} (body : A -> M unit)
    (I E : nat -> World -> Prop) (xs : list A) :
  (forall k x w, xs !! k = Some x -> I k w ->
     match body x w with
     | (Ok _, w') => I (S k) w'
     | (Raise _, w') => E k w'
     end) ->
  forall w, I 0%nat w ->
    match for_each body xs w with
    | (Ok _, w') => I (length xs) w'
    | (Raise _, w') => exists k, (k < length xs)%nat /\ E k w'
    end.
Proof.
  revert I E. induction xs as [|x xs IH]; intros I E Hbody w HI; simpl.
  - exact HI.
  - unfold bind. specialize (Hbody 0%nat x w eq_refl HI) as Hx.
    destruct (body x w) as [[[]|e] w1].
    + specialize (IH (fun k => I (S k)) (fun k => E (S k))).
      simpl in IH. specialize (IH (fun k y w0 Hy => Hbody (S k) y w0 Hy) w1 Hx).
      destruct (for_each body xs w1) as [[[]|e] w2]; [exact IH|].
      destruct IH as (k & Hk & HE). exists (S k). split; [lia | exact HE].
    + exists 0%nat. split; [lia | exact Hx].
Qed.

(** ** Frames: what a computation leaves alone *)

Section Frames.
Variable R : World -> World -> Prop.
Hypothesis R_refl : forall w, R w w.
Hypothesis R_trans : forall w1 w2 w3, R w1 w2 -> R w2 w3 -> R w1 w3.

Lemma respects_ret {A} (a : A) : respects R (ret a).
Proof. intros w. apply R_refl. Qed.

Lemma respects_lift {A} (r : result A) : respects R (lift r).
Proof. intros w. apply R_refl. Qed.

Lemma respects_bind {A B} (c : M A) (k : A -> M B) :
  respects R c -> (forall a, respects R (k a)) -> respects R (bind c k).
Proof.
  intros Hc Hk w. unfold bind. specialize (Hc w).
  destruct (c w) as [[a|e] w1]; simpl in *; [|exact Hc].
  eapply R_trans; [exact Hc | apply Hk].
Qed.

Lemma respects_for_each {A} (body : A -> M unit) xs :
  (forall x, respects R (body x)) -> respects R (for_each body xs).
Proof.
  intros Hb. induction xs as [|x xs IH]; simpl.
  - apply respects_ret.
  - apply respects_bind; [apply Hb | intros _; exact IH].
Qed.

Lemma respects_modify (f : World -> World) :
  (forall w, R w (f w)) -> respects R (modify f).
Proof. intros Hf w. apply Hf. Qed.

End Frames.

Lemma respects_weaken (R R' : World -> World -> Prop) {A} (c : M A) :
  (forall w w', R w w' -> R' w w') -> respects R c -> respects R' c.
Proof. intros HR Hc w. apply HR, Hc. Qed.
(** ** Threshold and predicted class *)

Lemma postprocess_data `{Ext : Externals} (t : Tensor Q) :
  shape (postprocess t) = shape t /\
  data (postprocess t) = map predicted_class (data t).
Proof.
  unfold postprocess, to_bipolar_Z, tmap. simpl. split; [reflexivity|].
  rewrite !map_map. apply map_ext. intros x. unfold predicted_class.
  destruct (gtb_Q _ _); reflexivity.
Qed.

Lemma predicted_class_cases `{Ext : Externals} (x : Q) :
  predicted_class x = 1%Z \/ predicted_class x = (-1)%Z.
Proof. unfold predicted_class. destruct (gtb_Q _ _); auto. Qed.

(** With the rounding of 32-bit floats a small positive output is in the
    class of the negative ones: its sigmoid is 0.5 exactly. *)
Example toy_sigmoid_rounds :
  Toy.toy_sigmoid (1 # 1073741824) = (8388608 # 16777216)%Q /\
  predicted_class (Ext := Toy.toy_ext 0) (1 # 1073741824) = (-1)%Z /\
  predicted_class (Ext := Toy.toy_ext 0) (1 # 1000) = 1%Z /\
  predicted_class (Ext := Toy.toy_ext 0) 0 = (-1)%Z.
Proof. repeat split. Qed.

(** ** Shapes and comparisons *)

Lemma numel_nonzero (l : list nat) :
  numel l <> 0%nat <-> Forall (fun d => d <> 0%nat) l.
Proof.
  unfold numel. induction l as [|d l IH]; simpl.
  - split; [constructor | lia].
  - rewrite Forall_cons, <- IH. nia.
Qed.

Lemma broadcast_rev_nonzero (a b s : list nat) :
  broadcast_rev a b = Some s ->
  Forall (fun d => d <> 0%nat) a -> Forall (fun d => d <> 0%nat) b ->
  Forall (fun d => d <> 0%nat) s.
Proof.
  revert b s. induction a as [|x a IH]; intros b s H Ha Hb.
  - destruct b; simpl in H; injection H as <-; assumption.
  - destruct b as [|y b]; simpl in H; [injection H as <-; assumption|].
    destruct (broadcast_rev a b) as [s'|] eqn:Hs; [|discriminate].
    apply Forall_cons in Ha as [Hx Ha]. apply Forall_cons in Hb as [Hy Hb].
    specialize (IH b s' Hs Ha Hb).
    repeat case_decide; try discriminate; injection H as <-;
      apply Forall_cons; auto.
Qed.

Lemma broadcast_shape_nonzero (a b s : list nat) :
  broadcast_shape a b = Some s ->
  numel a <> 0%nat -> numel b <> 0%nat -> numel s <> 0%nat.
Proof.
  unfold broadcast_shape. intros H Ha Hb.
  destruct (broadcast_rev (rev a) (rev b)) as [s'|] eqn:Hs; [|discriminate].
  injection H as <-. apply numel_nonzero, Forall_rev.
  apply (broadcast_rev_nonzero _ _ _ Hs);
    apply Forall_rev, numel_nonzero; assumption.
Qed.

(** The two comparisons of the loop body answer together.  Either both
    have no truth value, or both are false (an empty comparison), or the
    shapes do not fit and [==] is false and [!=] true, or both arrays hold
    one number and the answers are the comparisons of the two numbers. *)
Lemma truth_cases (a : Tensor Q) (b : Tensor Z) :
  (truth_eq a b = Raise ValueError /\ truth_ne a b = Raise ValueError) \/
  (truth_eq a b = Ok false /\ truth_ne a b = Ok false /\
   exists s, broadcast_shape (shape a) (shape b) = Some s /\ numel s = 0%nat) \/
  (truth_eq a b = Ok false /\ truth_ne a b = Ok true /\
   broadcast_shape (shape a) (shape b) = None) \/
  (exists x y, data a = [x] /\ data b = [y] /\
               truth_eq a b = Ok (eq_QZ x y) /\
               truth_ne a b = Ok (ne_QZ x y)).
Proof.
  unfold truth_eq, truth_ne, compare_truth.
  destruct (broadcast_shape (shape a) (shape b)) as [s|];
    [|right; right; left; auto].
  destruct (numel s) as [|[|n]] eqn:Hn;
    [right; left; eauto | | left; auto].
  destruct (data a) as [|x [|? ?]]; try (left; split; reflexivity).
  destruct (data b) as [|y [|? ?]]; try (left; split; reflexivity).
  right. right. right. exists x, y. auto.
Qed.

Lemma numel_one (l : list nat) :
  numel l = 1%nat <-> Forall (fun d => d = 1%nat) l.
Proof.
  unfold numel. induction l as [|d l IH]; simpl.
  - split; [constructor | reflexivity].
  - rewrite Forall_cons, <- IH. split.
    + intros H. apply Nat.eq_mul_1 in H. exact H.
    + intros [-> ->]. reflexivity.
Qed.

(** Shapes of one element each always broadcast, and only such shapes
    broadcast to a shape of one element. *)
Lemma broadcast_rev_ones (a b : list nat) :
  Forall (fun d => d = 1%nat) a -> Forall (fun d => d = 1%nat) b ->
  broadcast_rev a b <> None.
Proof.
  revert b. induction a as [|x a IH]; intros b Ha Hb.
  - destruct b; discriminate.
  - destruct b as [|y b]; [discriminate|]. simpl.
    apply Forall_cons in Ha as [-> Ha]. apply Forall_cons in Hb as [-> Hb].
    specialize (IH b Ha Hb).
    destruct (broadcast_rev a b); [|congruence].
    case_decide; [discriminate | congruence].
Qed.

Lemma broadcast_rev_to_ones (a b s : list nat) :
  broadcast_rev a b = Some s -> Forall (fun d => d = 1%nat) s ->
  Forall (fun d => d = 1%nat) a /\ Forall (fun d => d = 1%nat) b.
Proof.
  revert b s. induction a as [|x a IH]; intros b s H Hs.
  - destruct b; simpl in H; injection H as <-; split; auto.
  - destruct b as [|y b]; simpl in H; [injection H as <-; split; auto|].
    destruct (broadcast_rev a b) as [s'|] eqn:Hb; [|discriminate].
    assert (forall d, Some (d :: s') = Some s ->
                      d = 1%nat /\ Forall (fun d => d = 1%nat) s') as Hd.
    { intros d [= <-]. apply Forall_cons in Hs. exact Hs. }
    repeat case_decide; try discriminate;
      destruct (Hd _ H) as [Hone Hs'];
      destruct (IH b s' Hb Hs') as [Ha Hb'];
      split; constructor; auto; congruence.
Qed.

Lemma broadcast_shape_ones (a b : list nat) :
  numel a = 1%nat -> numel b = 1%nat -> broadcast_shape a b <> None.
Proof.
  intros Ha Hb. unfold broadcast_shape.
  pose proof (broadcast_rev_ones (rev a) (rev b)) as H.
  destruct (broadcast_rev (rev a) (rev b)); [discriminate|].
  exfalso. apply H; [| |reflexivity]; apply Forall_rev, numel_one; assumption.
Qed.

Lemma broadcast_shape_to_ones (a b s : list nat) :
  broadcast_shape a b = Some s -> numel s = 1%nat ->
  numel a = 1%nat /\ numel b = 1%nat.
Proof.
  unfold broadcast_shape. intros H Hs.
  destruct (broadcast_rev (rev a) (rev b)) as [s'|] eqn:Hr; [|discriminate].
  injection H as <-. apply numel_one in Hs.
  rewrite <- (rev_involutive s') in Hr.
  assert (Forall (fun d => d = 1%nat) s') as Hs'.
  { rewrite <- (rev_involutive s'). apply Forall_rev. exact Hs. }
  rewrite rev_involutive in Hr.
  destruct (broadcast_rev_to_ones _ _ _ Hr Hs') as [Ha Hb].
  split; apply numel_one.
  - rewrite <- (rev_involutive a). apply Forall_rev. exact Ha.
  - rewrite <- (rev_involutive b). apply Forall_rev. exact Hb.
Qed.

(** The same in terms of what is compared: the comparisons raise, or the
    comparison is empty and both are false, or the arrays are not one
    number each and do not fit, and [!=] is true, or both arrays hold one
    number. *)
Lemma truth_cases_shapes (a : Tensor Q) (b : Tensor Z) :
  (truth_eq a b = Raise ValueError /\ truth_ne a b = Raise ValueError) \/
  (truth_eq a b = Ok false /\ truth_ne a b = Ok false /\
   empty_broadcast (shape a) (shape b) = true /\
   ~ (numel (shape a) = 1%nat /\ numel (shape b) = 1%nat)) \/
  (truth_eq a b = Ok false /\ truth_ne a b = Ok true /\
   empty_broadcast (shape a) (shape b) = false /\
   ~ (numel (shape a) = 1%nat /\ numel (shape b) = 1%nat)) \/
  (exists x y, numel (shape a) = 1%nat /\ numel (shape b) = 1%nat /\
               empty_broadcast (shape a) (shape b) = false /\
               data a = [x] /\ data b = [y] /\
               truth_eq a b = Ok (eq_QZ x y) /\
               truth_ne a b = Ok (ne_QZ x y)).
Proof.
  unfold truth_eq, truth_ne, compare_truth, empty_broadcast.
  destruct (broadcast_shape (shape a) (shape b)) as [s|] eqn:Hs.
  - destruct (numel s) as [|[|n]] eqn:Hnum; [ | | left; auto].
    + right. left. repeat split. intros [Ha1 Hb1].
      assert (numel s <> 0%nat) as Hn; [|congruence].
      apply (broadcast_shape_nonzero _ _ _ Hs); congruence.
    + destruct (broadcast_shape_to_ones _ _ _ Hs Hnum) as [Ha1 Hb1].
      destruct (data a) as [|x [|? ?]]; try (left; split; reflexivity).
      destruct (data b) as [|y [|? ?]]; try (left; split; reflexivity).
      right. right. right. exists x, y. repeat split; assumption.
  - right. right. left. repeat split. intros [Ha1 Hb1].
    exact (broadcast_shape_ones _ _ Ha1 Hb1 Hs).
Qed.

(** ** The array operations on small inputs *)

Example np_pad_cols_2x2 :
  np_pad_cols (mkTensor [2; 2]%nat [1; 2; 3; 4]%Q) 1
  = Ok (mkTensor [2; 3]%nat [1; 2; 0; 3; 4; 0]%Q).
Proof. reflexivity. Qed.

Example np_pad_cols_vector :
  np_pad_cols (mkTensor [3]%nat [1; 2; 3]%Q) 7 = Raise ValueError.
Proof. reflexivity. Qed.

Example slice_rows_drop_last_3x3 :
  slice_rows_drop_last (mkTensor [3; 3]%nat [1; 2; 3; 4; 5; 6; 7; 8; 9]%Q) 2
  = Ok (mkTensor [2; 2]%nat [1; 2; 4; 5]%Q).
Proof. reflexivity. Qed.

Example slice_rows_drop_last_short :
  slice_rows_drop_last (mkTensor [1; 3]%nat [1; 2; 3]%Q) 100
  = Ok (mkTensor [1; 2]%nat [1; 2]%Q).
Proof. reflexivity. Qed.

Example index0_out_of_range :
  index0 (mkTensor [2; 2]%nat [1; 2; 3; 4]%Q) 2 = Raise IndexError.
Proof. reflexivity. Qed.

Example reshape_mismatch :
  reshape RuntimeError (mkTensor [3]%nat [1; 2; 3]%Q) [1; 593]%nat
  = Raise RuntimeError.
Proof. reflexivity. Qed.

Example truth_of_one_number :
  truth_eq (mkTensor [1; 1]%nat [1%Q]) (mkTensor [1; 1]%nat [1%Z]) = Ok true /\
  truth_ne (mkTensor [1; 1]%nat [1%Q]) (mkTensor [1; 1]%nat [1%Z]) = Ok false /\
  truth_eq (mkTensor [1]%nat [(-1)%Q]) (mkTensor [1; 1]%nat [1%Z]) = Ok false /\
  truth_ne (mkTensor [1]%nat [(-1)%Q]) (mkTensor [1; 1]%nat [1%Z]) = Ok true.
Proof. repeat split. Qed.

Example truth_of_several_numbers :
  truth_eq (mkTensor [1; 2]%nat [1; 1]%Q) (mkTensor [1; 1]%nat [1%Z])
  = Raise ValueError.
Proof. reflexivity. Qed.

Example truth_of_no_number :
  truth_eq (mkTensor [1; 0]%nat []) (mkTensor [1; 1]%nat [1%Z]) = Ok false /\
  truth_ne (mkTensor [1; 0]%nat []) (mkTensor [1; 1]%nat [1%Z]) = Ok false.
Proof. split; reflexivity. Qed.

Example truth_of_unfit_shapes :
  truth_eq (mkTensor [2]%nat [1; 1]%Q) (mkTensor [3]%nat [1; 1; 1]%Z)
    = Ok false /\
  truth_ne (mkTensor [2]%nat [1; 1]%Q) (mkTensor [3]%nat [1; 1; 1]%Z)
    = Ok true.
Proof. split; reflexivity. Qed.

Example slice_of_three_axes :
  slice_rows_drop_last
    (mkTensor [2; 2; 2]%nat [1; 2; 3; 4; 5; 6; 7; 8]%Q) 1
  = Ok (mkTensor [1; 1; 2]%nat [1; 2]%Q).
Proof. reflexivity. Qed.

Example slice_of_a_vector :
  slice_rows_drop_last (mkTensor [3]%nat [1; 2; 3]%Q) 1 = Raise IndexError.
Proof. reflexivity. Qed.

(** ** What the two inference paths leave alone *)

Section Loop.
Context `{Ext : Externals}.

Lemma model_frame_refl P w : model_frame P w w.
Proof.
  split; [reflexivity|]. exists []. rewrite app_nil_r.
  split; [reflexivity | constructor].
Qed.

Lemma model_frame_trans P w1 w2 w3 :
  model_frame P w1 w2 -> model_frame P w2 w3 -> model_frame P w1 w3.
Proof.
  intros (F1 & c1 & L1 & A1) (F2 & c2 & L2 & A2).
  split; [congruence|].
  exists (c1 ++ c2). rewrite L2, L1, app_assoc. split; [reflexivity|].
  apply Forall_app; auto.
Qed.

Lemma loop_frame_refl P w : loop_frame P w w.
Proof. split; [apply model_frame_refl | auto]. Qed.

Lemma loop_frame_trans P w1 w2 w3 :
  loop_frame P w1 w2 -> loop_frame P w2 w3 -> loop_frame P w1 w3.
Proof.
  intros (M1 & O1 & N1 & R1) (M2 & O2 & N2 & R2).
  split; [eapply model_frame_trans; eassumption|].
  repeat split; congruence.
Qed.

Lemma inference_frame_refl P w : inference_frame P w w.
Proof. split; [apply loop_frame_refl | auto]. Qed.

Lemma inference_frame_trans P w1 w2 w3 :
  inference_frame P w1 w2 -> inference_frame P w2 w3 ->
  inference_frame P w1 w3.
Proof.
  intros (L1 & T1 & K1 & N1 & D1) (L2 & T2 & K2 & N2 & D2).
  split; [eapply loop_frame_trans; eassumption|].
  repeat split; congruence.
Qed.

Lemma inference_frame_loop P w w' : inference_frame P w w' -> loop_frame P w w'.
Proof. intros [H _]. exact H. Qed.

Lemma loop_frame_model P w w' : loop_frame P w w' -> model_frame P w w'.
Proof. intros [H _]. exact H. Qed.

(** A state that differs in the tally, the progress bar, the training
    flag, the parameters or the generator position is in the loop frame. *)
Lemma loop_frame_fields P w w' :
  files w' = files w -> stdout w' = stdout w -> netron w' = netron w ->
  rng w' = rng w -> exec_log w' = exec_log w -> loop_frame P w w'.
Proof.
  intros F O N R L. repeat split; try assumption.
  exists []. rewrite app_nil_r. split; [assumption | constructor].
Qed.

Lemma dropout_frame P p x : respects (inference_frame P) (dropout p x).
Proof.
  intros w. unfold dropout. destruct (training w) eqn:Ht; simpl.
  - split; [|auto]. apply loop_frame_fields; reflexivity.
  - apply inference_frame_refl.
Qed.

Lemma apply_layer_frame P i l x : respects (inference_frame P) (apply_layer i l x).
Proof.
  destruct l; try (intros w; apply inference_frame_refl).
  apply dropout_frame.
Qed.

Lemma sequential_forward_frame P layers : forall i x,
  respects (inference_frame P) (sequential_forward i layers x).
Proof.
  induction layers as [|l layers IH]; intros i x; simpl.
  - apply respects_ret, inference_frame_refl.
  - apply respects_bind;
      [apply inference_frame_trans
      | apply apply_layer_frame | intros y; apply IH].
Qed.

Lemma inference_with_brevitas_frame P x :
  respects (inference_frame P) (inference_with_brevitas x).
Proof.
  apply respects_bind;
    [apply inference_frame_trans
    | apply sequential_forward_frame
    | intros y; apply respects_ret, inference_frame_refl].
Qed.

Lemma call_execute_onnx_frame P d :
  respects (inference_frame P) (call_execute_onnx (model_for_sim P) d).
Proof.
  intros w. simpl. split; [|auto]. repeat split.
  exists [(model_for_sim P, d)]. split; [reflexivity|].
  constructor; [reflexivity | constructor].
Qed.

Lemma inference_with_finn_onnx_frame P x :
  respects (inference_frame P) (inference_with_finn_onnx P x).
Proof.
  unfold inference_with_finn_onnx.
  apply respects_bind;
    [apply inference_frame_trans
    | apply respects_lift, inference_frame_refl | intros d].
  apply respects_bind;
    [apply inference_frame_trans
    | apply call_execute_onnx_frame
    | intros o; apply respects_lift, inference_frame_refl].
Qed.

(** ** The tally *)

(** What one pass over the two comparison lines does: [agree] and
    [differ] are the truth values of [==] and [!=]. *)
Lemma tally_spec (finn_output : Tensor Q) (brevitas_output : Tensor Z) w :
  match tally finn_output brevitas_output w with
  | (Ok _, w') =>
      exists agree differ : bool,
        truth_eq finn_output brevitas_output = Ok agree /\
        truth_ne finn_output brevitas_output = Ok differ /\
        (agree = true <->
         numel (shape finn_output) = 1%nat /\
         numel (shape brevitas_output) = 1%nat /\
         exists x y, data finn_output = [x] /\ data brevitas_output = [y] /\
                     eq_QZ x y = true) /\
        (agree = true -> differ = false) /\
        (empty_broadcast (shape finn_output) (shape brevitas_output) = true
         <-> agree = false /\ differ = false) /\
        w' = set_description
               (progress_text (ok w + (if agree then 1 else 0))
                              (nok w + (if differ then 1 else 0)))
               (set_nok (nok w + (if differ then 1 else 0))
                  (set_ok (ok w + (if agree then 1 else 0)) w))
  | (Raise _, w') => w' = w
  end.
Proof.
  unfold tally, bind, lift, modify.
  destruct (truth_cases_shapes finn_output brevitas_output)
    as [[E N]|[(E & N & He & Hno)|[(E & N & He & Hno)
        |(x & y & Ha1 & Hb1 & He & Hx & Hy & E & N)]]];
    rewrite E; simpl; rewrite ?N; simpl; [reflexivity | | |].
  - exists false, false.
    split; [reflexivity|]. split; [reflexivity|].
    split; [split; [discriminate | intros (H1 & H2 & _); exfalso; auto]|].
    split; [discriminate|].
    split; [|reflexivity]. split; [auto | intros _; exact He].
  - exists false, true. rewrite He.
    split; [reflexivity|]. split; [reflexivity|].
    split; [split; [discriminate | intros (H1 & H2 & _); exfalso; auto]|].
    split; [discriminate|].
    split; [|reflexivity]. split; [discriminate | intros [_ ?]; discriminate].
  - exists (eq_QZ x y), (ne_QZ x y). rewrite He.
    split; [reflexivity|]. split; [reflexivity|]. split.
    { split.
      - intros Hq. repeat (split; [assumption|]). exists x, y. auto.
      - intros (_ & _ & x' & y' & Hx' & Hy' & Hq). congruence. }
    split.
    { unfold ne_QZ, eq_QZ. intros ->. reflexivity. }
    split; [|reflexivity].
    split; [discriminate|].
    unfold ne_QZ, eq_QZ. destruct (Qeq_bool x (inject_Z y)); intros [? ?];
      discriminate.
Qed.

Lemma tally_Raise (finn_output : Tensor Q) (brevitas_output : Tensor Z)
    w e w' :
  tally finn_output brevitas_output w = (Raise e, w') -> w' = w.
Proof.
  unfold tally, bind, lift, modify.
  destruct (truth_cases finn_output brevitas_output)
    as [[E N]|[(E & N & _)|[(E & N & _)|(x & y & _ & _ & E & N)]]];
    rewrite E; simpl; rewrite ?N; simpl; congruence.
Qed.

Lemma tally_frame P (finn_output : Tensor Q) (brevitas_output : Tensor Z) :
  respects (loop_frame P) (tally finn_output brevitas_output).
Proof.
  unfold tally.
  repeat first
    [ apply respects_lift, loop_frame_refl
    | apply respects_modify; intros w; apply loop_frame_fields; reflexivity
    | apply respects_bind; [apply loop_frame_trans | | intros ?] ].
Qed.

Lemma verify_iteration_frame P input_tensor i :
  respects (loop_frame P) (verify_iteration P input_tensor i).
Proof.
  unfold verify_iteration.
  repeat first
    [ apply respects_lift, loop_frame_refl
    | apply tally_frame
    | apply (respects_weaken (inference_frame P));
        [apply inference_frame_loop
        | first [apply inference_with_brevitas_frame
                | apply inference_with_finn_onnx_frame]]
    | apply respects_bind; [apply loop_frame_trans | | intros ?] ].
Qed.

Lemma verification_loop_frame P input_tensor n :
  respects (loop_frame P) (verification_loop P input_tensor n).
Proof.
  unfold verification_loop.
  repeat first
    [ apply respects_modify; intros w; apply loop_frame_fields; reflexivity
    | apply respects_for_each;
        [apply loop_frame_refl | apply loop_frame_trans
        | intros ?; apply verify_iteration_frame]
    | apply respects_bind; [apply loop_frame_trans | | intros ?] ].
Qed.

Lemma cell7_frame P : respects (loop_frame P) cell7.
Proof.
  unfold cell7.
  apply respects_bind; [apply loop_frame_trans | | intros ?].
  - intros w. apply loop_frame_refl.
  - apply respects_lift, loop_frame_refl.
Qed.

Lemma cell8_frame P : respects (loop_frame P) cell8.
Proof.
  unfold cell8.
  repeat first
    [ apply respects_bind; [apply loop_frame_trans | | intros ?]
    | apply respects_lift, loop_frame_refl ].
  - intros w. unfold construct_brevitas_model, modify.
    destruct (init_parameters _ _ _). apply loop_frame_fields; reflexivity.
  - intros w. unfold torch_load.
    destruct (files w !! "state_dict.pth") as [[]|]; apply loop_frame_refl.
  - intros w. unfold load_state_dict.
    apply loop_frame_fields; reflexivity.
Qed.

Lemma cell13_model_frame P : respects (model_frame P) cell13.
Proof.
  intros w. unfold cell13, print, modify.
  case_decide; simpl; (split; [reflexivity|]); exists [];
    rewrite app_nil_r; (split; [reflexivity | constructor]).
Qed.

Lemma verify_model_frame P : respects (model_frame P) (verify P).
Proof.
  unfold verify.
  repeat first
    [ apply cell13_model_frame
    | apply (respects_weaken (loop_frame P));
        [apply loop_frame_model
        | first [apply cell7_frame | apply cell8_frame
                | apply verification_loop_frame]]
    | apply respects_bind; [apply model_frame_trans | | intros ?] ].
Qed.

End Loop.

Lemma seq_split (k n : nat) :
  (k < n)%nat -> seq 0 n = seq 0 k ++ k :: seq (S k) (n - S k).
Proof.
  intros Hk. replace n with (k + S (n - S k))%nat at 1 by lia.
  rewrite seq_app. reflexivity.
Qed.

Lemma verification_loop_unfold `{Ext : Externals} P input_tensor n w :
  verification_loop P input_tensor n w =
  for_each (verify_iteration P input_tensor) (seq 0 n) (loop_start w).
Proof. reflexivity. Qed.

Section Iteration.
Context `{Ext : Externals}.

(** ** One iteration of the verification loop *)

Lemma iteration_outputs_Some P input_tensor i w row current_inp
    brevitas_output w1 finn_output w2 :
  index0 input_tensor i = Ok row ->
  reshape RuntimeError row [1; 593]%nat = Ok current_inp ->
  inference_with_brevitas current_inp w = (Ok brevitas_output, w1) ->
  inference_with_finn_onnx P current_inp w1 = (Ok finn_output, w2) ->
  iteration_outputs P input_tensor i w = Some (finn_output, brevitas_output).
Proof.
  intros Hrow Hcur Hb Hf. unfold iteration_outputs, bind, lift, ret.
  rewrite Hrow, Hcur, Hb, Hf. reflexivity.
Qed.

Lemma verify_iteration_Ok_inv P input_tensor i w w' :
  verify_iteration P input_tensor i w = (Ok tt, w') ->
  exists row current_inp raw finn_output w1 w2 (agree differ : bool),
    index0 input_tensor i = Ok row /\
    reshape RuntimeError row [1; 593]%nat = Ok current_inp /\
    brevitas_forward current_inp w = (Ok raw, w1) /\
    inference_with_finn_onnx P current_inp w1 = (Ok finn_output, w2) /\
    iteration_outputs P input_tensor i w
      = Some (finn_output, postprocess raw) /\
    truth_eq finn_output (postprocess raw) = Ok agree /\
    truth_ne finn_output (postprocess raw) = Ok differ /\
    (agree = true <-> agrees finn_output raw) /\
    (agree = true -> differ = false) /\
    (empty_broadcast (shape finn_output) (shape raw) = true
     <-> agree = false /\ differ = false) /\
    inference_frame P w w2 /\
    w' = set_description
           (progress_text (ok w2 + (if agree then 1 else 0))
                          (nok w2 + (if differ then 1 else 0)))
           (set_nok (nok w2 + (if differ then 1 else 0))
              (set_ok (ok w2 + (if agree then 1 else 0)) w2)).
Proof.
  intros H. unfold verify_iteration in H.
  apply bind_Ok_inv in H as (row & w0 & Hrow & H).
  apply lift_inv in Hrow as [Hrow ->].
  apply bind_Ok_inv in H as (cur & w0 & Hcur & H).
  apply lift_inv in Hcur as [Hcur ->].
  apply bind_Ok_inv in H as (b & w1 & Hb & H).
  apply bind_Ok_inv in H as (f & w2 & Hf & H).
  pose proof (iteration_outputs_Some P input_tensor i w _ _ _ _ _ _
                Hrow Hcur Hb Hf) as Hout.
  unfold inference_with_brevitas in Hb.
  apply bind_Ok_inv in Hb as (raw & w1' & Hraw & Hret).
  injection Hret as <- <-.
  destruct (postprocess_data raw) as [Hps Hpd].
  pose proof (tally_spec f (postprocess raw) w2) as Ht.
  rewrite H in Ht.
  destruct Ht as (agree & differ & He & Hn & Hagree & Hexcl & Hempty & ->).
  rewrite Hps in Hempty.
  exists row, cur, raw, f, w1', w2, agree, differ.
  refine (conj Hrow (conj Hcur (conj Hraw (conj Hf (conj Hout (conj He
            (conj Hn (conj _ (conj Hexcl (conj Hempty (conj _ eq_refl))))))))))).
  - rewrite Hagree, Hps, Hpd. unfold agrees, eq_QZ. split.
    + intros (H1 & H2 & y & c & Hy & Hc & Hq).
      destruct (data raw) as [|x [|? ?]]; try discriminate.
      injection Hc as <-. repeat (split; [assumption|]).
      exists x, y. repeat split; try assumption; try reflexivity.
      apply Qeq_bool_iff, Hq.
    + intros (H1 & H2 & x & y & Hx & Hy & Hq).
      repeat (split; [assumption|]).
      exists y, (predicted_class x). rewrite Hx.
      repeat split; try assumption; try reflexivity.
      apply Qeq_bool_iff, Hq.
  - eapply inference_frame_trans.
    + pose proof (sequential_forward_frame P brevitas_model 0 cur w) as F.
      unfold brevitas_forward in Hraw. rewrite Hraw in F. exact F.
    + pose proof (inference_with_finn_onnx_frame P cur w1') as F.
      rewrite Hf in F. exact F.
Qed.

Lemma verify_iteration_Raise_inv P input_tensor i w e w' :
  verify_iteration P input_tensor i w = (Raise e, w') ->
  inference_frame P w w'.
Proof.
  intros H. unfold verify_iteration in H.
  apply bind_Raise_inv in H as [H|(row & w0 & Hrow & H)].
  { apply lift_inv in H as [_ ->]. apply inference_frame_refl. }
  apply lift_inv in Hrow as [_ ->].
  apply bind_Raise_inv in H as [H|(cur & w0 & Hcur & H)].
  { apply lift_inv in H as [_ ->]. apply inference_frame_refl. }
  apply lift_inv in Hcur as [_ ->].
  pose proof (inference_with_brevitas_frame P cur w) as Fb.
  apply bind_Raise_inv in H as [H|(b & w1 & Hb & H)].
  { rewrite H in Fb. exact Fb. }
  rewrite Hb in Fb. simpl in Fb.
  pose proof (inference_with_finn_onnx_frame P cur w1) as Ff.
  apply bind_Raise_inv in H as [H|(f & w2 & Hf & H)].
  { rewrite H in Ff. eapply inference_frame_trans; eassumption. }
  rewrite Hf in Ff. simpl in Ff.
  apply tally_Raise in H as ->.
  eapply inference_frame_trans; eassumption.
Qed.

(** Which counter an iteration moves, by the truth values of the two
    comparisons of its outputs. *)
Lemma verify_iteration_compares P input_tensor i w :
  match verify_iteration P input_tensor i w with
  | (Ok _, w') =>
      exists o,
        iteration_outputs P input_tensor i w = Some o /\
        ((truth_eq o.1 o.2 = Ok true /\ truth_ne o.1 o.2 = Ok false /\
          compared_empty o = false /\
          ok w' = S (ok w) /\ nok w' = nok w) \/
         (truth_eq o.1 o.2 = Ok false /\ truth_ne o.1 o.2 = Ok true /\
          compared_empty o = false /\
          ok w' = ok w /\ nok w' = S (nok w)) \/
         (truth_eq o.1 o.2 = Ok false /\ truth_ne o.1 o.2 = Ok false /\
          compared_empty o = true /\
          ok w' = ok w /\ nok w' = nok w))
  | (Raise _, w') => ok w' = ok w /\ nok w' = nok w
  end.
Proof.
  destruct (verify_iteration P input_tensor i w) as [[[]|e] w'] eqn:H.
  - apply verify_iteration_Ok_inv in H
      as (row & cur & raw & f & w1 & w2 & agree & differ & _ & _ & _ & _
          & Hout & He & Hn & _ & Hexcl & Hempty & F & ->).
    destruct F as (_ & _ & Hok & Hnok & _).
    exists (f, postprocess raw). split; [exact Hout|].
    unfold compared_empty. cbn [fst snd ok nok set_description set_nok set_ok].
    rewrite (proj1 (postprocess_data raw)), He, Hn.
    destruct agree, differ.
    + specialize (Hexcl eq_refl). discriminate.
    + left. repeat split; try lia.
      destruct (empty_broadcast _ _); [|reflexivity].
      destruct (proj1 Hempty eq_refl). discriminate.
    + right. left. repeat split; try lia.
      destruct (empty_broadcast _ _); [|reflexivity].
      destruct (proj1 Hempty eq_refl). discriminate.
    + right. right. repeat split; try lia. apply Hempty. auto.
  - apply verify_iteration_Raise_inv in H.
    destruct H as (_ & _ & Hok & Hnok & _). auto.
Qed.

Lemma count_cons {A} (f : A -> bool) (x : A) (l : list A) :
  count f (x :: l) = (Nat.b2n (f x) + count f l)%nat.
Proof. unfold count. simpl. destruct (f x); reflexivity. Qed.

(** The counters after a loop, by the outputs that its completed
    iterations compared. *)
Lemma loop_outputs_counts P input_tensor (xs : list nat) : forall w,
  let outputs := loop_outputs P input_tensor xs w in
  (ok (for_each (verify_iteration P input_tensor) xs w).2
     = ok w + count compared_equal outputs)%nat /\
  (nok (for_each (verify_iteration P input_tensor) xs w).2
     = nok w + count compared_unequal outputs)%nat /\
  (count compared_equal outputs + count compared_unequal outputs
     + count compared_empty outputs = length outputs)%nat /\
  match (for_each (verify_iteration P input_tensor) xs w).1 with
  | Ok _ => length outputs = length xs
  | Raise _ => (length outputs < length xs)%nat
  end.
Proof.
  induction xs as [|i xs IH]; intros w; cbn zeta.
  - simpl. unfold count. simpl. repeat split; lia.
  - cbn [for_each loop_outputs]. unfold bind.
    pose proof (verify_iteration_compares P input_tensor i w) as Hi.
    destruct (verify_iteration P input_tensor i w) as [[[]|e] w1].
    + destruct Hi as (o & -> & Hi).
      change (option_list (Some o) ++ ?l) with (o :: l).
      specialize (IH w1). cbn zeta in IH.
      destruct IH as (IHok & IHnok & IHsum & IHlen).
      assert (exists a b c : bool,
                compared_equal o = a /\ compared_unequal o = b /\
                compared_empty o = c /\
                ok w1 = (ok w + Nat.b2n a)%nat /\
                nok w1 = (nok w + Nat.b2n b)%nat /\
                (Nat.b2n a + Nat.b2n b + Nat.b2n c = 1)%nat)
        as (a & b & c & Ha & Hb & Hc & Hok & Hnok & Hone).
      { unfold compared_equal, compared_unequal.
        destruct Hi as [(E & N & M & Hok & Hnok)|[(E & N & M & Hok & Hnok)
                       |(E & N & M & Hok & Hnok)]];
          rewrite E, N, M;
          [exists true, false, false | exists false, true, false
          | exists false, false, true];
          simpl; repeat split; lia. }
      rewrite IHok, IHnok, !count_cons, Ha, Hb, Hc, Hok, Hnok. cbn [length].
      (split; [lia|]); (split; [lia|]); (split; [lia|]).
      destruct (for_each _ xs w1) as [[[]|?] ?]; simpl in *; lia.
    + destruct Hi as [Hok Hnok]. unfold count. simpl.
      repeat split; lia.
Qed.

End Iteration.

(** C3 (as amended): the tally as a loop invariant.  An iteration that
    completes adds exactly one to [ok] when [==] on its two outputs is true,
    exactly one to [nok] when [!=] is true, and nothing to either when the
    comparison is empty, that is when the two outputs broadcast to an array
    without elements; it never adds to both.  An iteration that raises
    changes neither counter.  So from [ok = nok = 0] the loop ends with
    [ok] the number of completed samples that compared equal and [nok] the
    number that compared unequal, and [ok + nok] plus the number of empty
    comparisons is the number of samples completed: [k] after a loop over
    [k] samples, [n_verification_inputs] after the whole loop, fewer when an
    exception ended it.  The state after [k] samples of a longer loop is
    the state at the end of the loop over [k] samples. *)
Theorem tally_is_loop_invariant `{Ext : Externals}
    (P : Prepared) (input_tensor : Tensor Q) :
  (forall i w,
      match verify_iteration P input_tensor i w with
      | (Ok _, w') =>
          exists o,
            iteration_outputs P input_tensor i w = Some o /\
            ((truth_eq o.1 o.2 = Ok true /\ truth_ne o.1 o.2 = Ok false /\
              compared_empty o = false /\
              ok w' = S (ok w) /\ nok w' = nok w) \/
             (truth_eq o.1 o.2 = Ok false /\ truth_ne o.1 o.2 = Ok true /\
              compared_empty o = false /\
              ok w' = ok w /\ nok w' = S (nok w)) \/
             (truth_eq o.1 o.2 = Ok false /\ truth_ne o.1 o.2 = Ok false /\
              compared_empty o = true /\
              ok w' = ok w /\ nok w' = nok w))
      | (Raise _, w') => ok w' = ok w /\ nok w' = nok w
      end) /\
  (forall k w,
      let outputs := loop_outputs P input_tensor (seq 0 k) (loop_start w) in
      let w' := (verification_loop P input_tensor k w).2 in
      ok w' = count compared_equal outputs /\
      nok w' = count compared_unequal outputs /\
      (ok w' + nok w' + count compared_empty outputs = length outputs)%nat /\
      match (verification_loop P input_tensor k w).1 with
      | Ok _ => length outputs = k
      | Raise _ => (length outputs < k)%nat
      end) /\
  (forall w,
      let outputs :=
        loop_outputs P input_tensor (seq 0 n_verification_inputs)
                     (loop_start w) in
      match cell11 P input_tensor w with
      | (Ok _, w') =>
          (ok w' + nok w' + count compared_empty outputs
           = n_verification_inputs)%nat
      | (Raise _, w') =>
          (ok w' + nok w' + count compared_empty outputs
           < n_verification_inputs)%nat
      end) /\
  (forall n k w,
      (k <= n)%nat ->
      match for_each (verify_iteration P input_tensor) (seq 0 k)
                     (loop_start w) with
      | (Ok _, wk) =>
          (ok wk + nok wk
           + count compared_empty
               (loop_outputs P input_tensor (seq 0 k) (loop_start w))
           = k)%nat /\
          verification_loop P input_tensor n w =
          for_each (verify_iteration P input_tensor) (seq k (n - k)) wk
      | (Raise e, wk) =>
          verification_loop P input_tensor n w = (Raise e, wk)
      end).
Proof.
  assert (forall k w,
      let outputs := loop_outputs P input_tensor (seq 0 k) (loop_start w) in
      let w' := (verification_loop P input_tensor k w).2 in
      ok w' = count compared_equal outputs /\
      nok w' = count compared_unequal outputs /\
      (ok w' + nok w' + count compared_empty outputs = length outputs)%nat /\
      match (verification_loop P input_tensor k w).1 with
      | Ok _ => length outputs = k
      | Raise _ => (length outputs < k)%nat
      end) as Hloop.
  { intros k w. cbn zeta. rewrite verification_loop_unfold.
    destruct (loop_outputs_counts P input_tensor (seq 0 k) (loop_start w))
      as (Hok & Hnok & Hsum & Hlen).
    rewrite length_seq in Hlen.
    change (ok (loop_start w)) with 0%nat in Hok.
    change (nok (loop_start w)) with 0%nat in Hnok.
    simpl in Hok, Hnok. rewrite Hok, Hnok.
    repeat split; [exact Hsum | exact Hlen]. }
  split; [|split; [|split]].
  - intros i w. apply verify_iteration_compares.
  - exact Hloop.
  - intros w. cbn zeta. unfold cell11.
    destruct (Hloop n_verification_inputs w) as (_ & _ & Hsum & Hlen).
    destruct (verification_loop P input_tensor n_verification_inputs w)
      as [[[]|e] w']; simpl in *; lia.
  - intros n k w Hk.
    assert (verification_loop P input_tensor n w =
            for_each (verify_iteration P input_tensor)
                     (seq 0 k ++ seq k (n - k)) (loop_start w)) as Hsplit.
    { rewrite <- seq_app. replace (k + (n - k))%nat with n by lia.
      reflexivity. }
    rewrite for_each_app in Hsplit.
    destruct (Hloop k w) as (_ & _ & Hsum & Hlen).
    rewrite verification_loop_unfold in Hsum, Hlen.
    destruct (for_each (verify_iteration P input_tensor) (seq 0 k)
                       (loop_start w)) as [[[]|e] wk]; [|exact Hsplit].
    simpl in *. split; [lia | exact Hsplit].
Qed.

(** ** The toy instance *)

(** The toy notebook runs to the end and prints what the notebook shows. *)
Example toy_notebook_run :
  let (r, w) := notebook (Ext := Toy.toy_ext 0) Toy.toy_world in
  r = Ok tt /\ ok w = 100%nat /\ nok w = 0%nat /\
  description w = "ok 100 nok 0" /\
  stdout w =
    [ "Serving 'cybsec-mlp.onnx' at http://0.0.0.0:8081";
      "Input tensor name: global_in"; "Output tensor name: global_out";
      "Input tensor shape: [1, 600]"; "Input tensor datatype: DataType.BIPOLAR";
      ""; "Stopping http://0.0.0.0:8081";
      "Serving 'cybsec-mlp-verified.onnx' at http://0.0.0.0:8081";
      "Verification succeeded. Brevitas and FINN-ONNX execution outputs are identical" ].
Proof. vm_compute. repeat split. Qed.

(** With an engine that answers differently the tally splits. *)
Example toy_notebook_run_disagreeing :
  let (r, w) := notebook (Ext := Toy.toy_ext 1) Toy.toy_world in
  r = Ok tt /\ ok w = 50%nat /\ nok w = 50%nat /\
  last (stdout w) =
    Some "Verification failed. Brevitas and FINN-ONNX execution outputs are NOT identical".
Proof. vm_compute. repeat split. Qed.

(** C3 (as stated) fails: with an engine that answers with an array
    without elements every comparison is empty; the loop completes its
    hundred iterations and neither counter has moved, the first iteration
    included. *)
Lemma tally_misses_empty_comparisons :
  let first :=
    verify_iteration (Ext := Edge.empty_ext) Toy.toy_prepared Toy.toy_input 0
                     (loop_start Toy.toy_world) in
  let outcome :=
    cell11 (Ext := Edge.empty_ext) Toy.toy_prepared Toy.toy_input
           Toy.toy_world in
  first.1 = Ok tt /\ ok first.2 = 0%nat /\ nok first.2 = 0%nat /\
  outcome.1 = Ok tt /\ ok outcome.2 = 0%nat /\ nok outcome.2 = 0%nat /\
  (ok outcome.2 + nok outcome.2)%nat <> n_verification_inputs.
Proof. vm_compute. repeat split. discriminate. Qed.

(** C1 (as amended): the comparison is with the predicted class.  A sample
    whose iteration completes is counted as agreeing exactly when the
    exported model returns one number, the reference network returns one
    number, and the first equals the class predicted from the second, +1
    when the sigmoid of the raw output exceeds 0.5 and -1 otherwise.  A
    sample that does not agree is counted as disagreeing, unless the two
    outputs broadcast to an array without elements: such a sample is not
    counted at all. *)
Theorem agreement_is_on_predicted_class `{Ext : Externals}
    (P : Prepared) (input_tensor : Tensor Q) (i : nat) (w w' : World) :
  verify_iteration P input_tensor i w = (Ok tt, w') ->
  exists row current_inp raw finn_output w1 w2,
    index0 input_tensor i = Ok row /\
    reshape RuntimeError row [1; 593]%nat = Ok current_inp /\
    brevitas_forward current_inp w = (Ok raw, w1) /\
    inference_with_finn_onnx P current_inp w1 = (Ok finn_output, w2) /\
    ((agrees finn_output raw /\
      ok w' = S (ok w) /\ nok w' = nok w) \/
     (~ agrees finn_output raw /\
      empty_broadcast (shape finn_output) (shape raw) = false /\
      ok w' = ok w /\ nok w' = S (nok w)) \/
     (~ agrees finn_output raw /\
      empty_broadcast (shape finn_output) (shape raw) = true /\
      ok w' = ok w /\ nok w' = nok w)).
Proof.
  intros H.
  pose proof (verify_iteration_compares P input_tensor i w) as Hc.
  rewrite H in Hc. destruct Hc as (o & Ho & Hc).
  apply verify_iteration_Ok_inv in H
    as (row & cur & raw & f & w1 & w2 & agree & differ
        & Hrow & Hcur & Hraw & Hf & Hout & He & Hn & Hagree & _ & _ & _ & _).
  rewrite Hout in Ho. injection Ho as <-.
  unfold compared_empty in Hc. cbn [fst snd] in Hc.
  rewrite (proj1 (postprocess_data raw)), He in Hc.
  exists row, cur, raw, f, w1, w2.
  refine (conj Hrow (conj Hcur (conj Hraw (conj Hf _)))).
  assert (agree = false -> ~ agrees f raw) as Hnot.
  { intros -> Ha. apply Hagree in Ha. discriminate. }
  destruct Hc as [(E & _ & _ & Hok & Hnok)|[(E & _ & M & Hok & Hnok)
                 |(E & _ & M & Hok & Hnok)]]; injection E as ->.
  - left. split; [apply Hagree; reflexivity | auto].
  - right. left. auto.
  - right. right. auto.
Qed.

Lemma agreement_is_on_predicted_class_witness :
  exists w',
    verify_iteration (Ext := Toy.toy_ext 0) Toy.toy_prepared Toy.toy_input 0
                     Toy.toy_eval_world = (Ok tt, w') /\
    exists row current_inp raw finn_output w1 w2,
      index0 Toy.toy_input 0 = Ok row /\
      reshape RuntimeError row [1; 593]%nat = Ok current_inp /\
      brevitas_forward (Ext := Toy.toy_ext 0) current_inp Toy.toy_eval_world
        = (Ok raw, w1) /\
      inference_with_finn_onnx (Ext := Toy.toy_ext 0) Toy.toy_prepared
        current_inp w1 = (Ok finn_output, w2) /\
      ((agrees (Ext := Toy.toy_ext 0) finn_output raw /\
        ok w' = S (ok Toy.toy_eval_world) /\ nok w' = nok Toy.toy_eval_world) \/
       (~ agrees (Ext := Toy.toy_ext 0) finn_output raw /\
        empty_broadcast (shape finn_output) (shape raw) = false /\
        ok w' = ok Toy.toy_eval_world /\ nok w' = S (nok Toy.toy_eval_world)) \/
       (~ agrees (Ext := Toy.toy_ext 0) finn_output raw /\
        empty_broadcast (shape finn_output) (shape raw) = true /\
        ok w' = ok Toy.toy_eval_world /\ nok w' = nok Toy.toy_eval_world)).
Proof.
  eexists. split.
  - vm_compute. reflexivity.
  - apply (agreement_is_on_predicted_class (Ext := Toy.toy_ext 0)
             Toy.toy_prepared Toy.toy_input 0 Toy.toy_eval_world).
    vm_compute. reflexivity.
Defined.

(** C1 (as stated) fails: on the first toy sample the reference network
    returns 3 and the exported model returns 1; the two numbers differ, and
    the sample is counted as agreeing. *)
Lemma agreement_is_not_on_raw_outputs :
  (brevitas_forward (Ext := Toy.toy_ext 0) (Toy.toy_sample 0)
                    Toy.toy_eval_world).1
    = Ok (mkTensor [1; 1]%nat [3%Q]) /\
  (inference_with_finn_onnx (Ext := Toy.toy_ext 0) Toy.toy_prepared
                            (Toy.toy_sample 0) Toy.toy_eval_world).1
    = Ok (mkTensor [1; 1]%nat [1%Q]) /\
  ~ (1 == 3)%Q /\
  rbind (index0 Toy.toy_input 0)
        (fun row => reshape RuntimeError row [1; 593]%nat)
    = Ok (Toy.toy_sample 0) /\
  (verify_iteration (Ext := Toy.toy_ext 0) Toy.toy_prepared Toy.toy_input 0
                    Toy.toy_eval_world).1 = Ok tt /\
  ok (verify_iteration (Ext := Toy.toy_ext 0) Toy.toy_prepared Toy.toy_input 0
                       Toy.toy_eval_world).2 = S (ok Toy.toy_eval_world) /\
  nok (verify_iteration (Ext := Toy.toy_ext 0) Toy.toy_prepared Toy.toy_input 0
                        Toy.toy_eval_world).2 = nok Toy.toy_eval_world.
Proof.
  split; [vm_compute; reflexivity|].
  split; [vm_compute; reflexivity|].
  split; [intros H; vm_compute in H; discriminate|].
  split; [vm_compute; reflexivity|].
  vm_compute. repeat split.
Qed.

(** ** The final message *)

Lemma messages_differ : succeeded_message <> failed_message.
Proof. apply String.eqb_neq. reflexivity. Qed.

Lemma cell13_spec (w : World) :
  exists msg,
    cell13 w = (Ok tt, set_stdout (stdout w ++ [msg]) w) /\
    (msg = succeeded_message <-> ok w = n_verification_inputs) /\
    (msg = failed_message <-> ok w <> n_verification_inputs).
Proof.
  unfold cell13, print, modify. pose proof messages_differ as Hd.
  case_decide as Hok.
  - exists succeeded_message. split; [reflexivity|]. split; split; intros; congruence.
  - exists failed_message. split; [reflexivity|]. split; split; intros; congruence.
Qed.

Lemma verify_stdout `{Ext : Externals} (P : Prepared) (w : World) :
  match verify P w with
  | (Ok _, w') =>
      exists msg,
        stdout w' = stdout w ++ [msg] /\
        (msg = succeeded_message <-> ok w' = n_verification_inputs) /\
        (msg = failed_message <-> ok w' <> n_verification_inputs)
  | (Raise _, w') => stdout w' = stdout w
  end.
Proof.
  unfold verify, bind.
  pose proof (cell7_frame P w) as F7.
  destruct (cell7 w) as [[input_tensor|e] w1]; simpl in F7;
    [|apply F7].
  destruct F7 as (_ & O1 & _).
  pose proof (cell8_frame P w1) as F8.
  destruct (cell8 w1) as [[[]|e] w2]; simpl in F8;
    destruct F8 as (_ & O2 & _); [|congruence].
  pose proof (verification_loop_frame P input_tensor n_verification_inputs w2)
    as F11.
  fold (cell11 P input_tensor) in F11.
  destruct (cell11 P input_tensor w2) as [[[]|e] w3]; simpl in F11;
    destruct F11 as (_ & O3 & _); [|congruence].
  destruct (cell13_spec w3) as (msg & -> & Hs & Hf).
  exists msg. simpl. split; [congruence | auto].
Qed.

(** C2: after the loop over the [n_verification_inputs = 100] samples the
    line 'Verification succeeded. Brevitas and FINN-ONNX execution outputs
    are identical' is printed if and only if [ok] equals
    [n_verification_inputs], and the line 'Verification failed. Brevitas
    and FINN-ONNX execution outputs are NOT identical' otherwise; it is the
    only line that the cells from the test set to the end print, and a run
    that an exception aborted prints neither. *)
Theorem final_message_iff_all_agree `{Ext : Externals}
    (P : Prepared) (w : World) :
  n_verification_inputs = 100%nat /\
  (exists msg,
      cell13 w = (Ok tt, set_stdout (stdout w ++ [msg]) w) /\
      (msg = "Verification succeeded. Brevitas and FINN-ONNX execution outputs are identical"
       <-> ok w = n_verification_inputs) /\
      (msg = "Verification failed. Brevitas and FINN-ONNX execution outputs are NOT identical"
       <-> ok w <> n_verification_inputs)) /\
  match verify P w with
  | (Ok _, w') =>
      exists msg,
        stdout w' = stdout w ++ [msg] /\
        (msg = "Verification succeeded. Brevitas and FINN-ONNX execution outputs are identical"
         <-> ok w' = n_verification_inputs) /\
        (msg = "Verification failed. Brevitas and FINN-ONNX execution outputs are NOT identical"
         <-> ok w' <> n_verification_inputs)
  | (Raise _, w') => stdout w' = stdout w
  end.
Proof.
  split; [reflexivity|].
  split; [exact (cell13_spec w)|].
  exact (verify_stdout P w).
Qed.

(** ** The tidy-up passes *)

Lemma cell4_apply_passes `{Ext : Externals} (m : ModelWrapper) (w : World) :
  cell4 m w = (apply_passes tidy_up_passes m, w).
Proof.
  unfold cell4, bind, lift, ret, tidy_up_passes. simpl.
  repeat match goal with
         | |- context [transform ?x ?t] => destruct (transform x t); simpl
         end; reflexivity.
Qed.

(** C4: the normalization is exactly six transformations of the library,
    InferShapes, FoldConstants, GiveUniqueNodeNames, GiveReadableTensorNames,
    InferDataTypes and RemoveStaticGraphInputs in this order, each applied to
    the result of the one before; with passes that only sign the graph the
    six signatures appear in that order. *)
Theorem tidy_up_is_six_passes_in_order :
  (forall (Ext : Externals) (m : ModelWrapper) (w : World),
      cell4 m w =
      (apply_passes [ InferShapes; FoldConstants; GiveUniqueNodeNames;
                      GiveReadableTensorNames; InferDataTypes;
                      RemoveStaticGraphInputs ] m, w)) /\
  length tidy_up_passes = 6%nat /\
  (forall (m : ModelWrapper) (w : World),
      exists m',
        cell4 (Ext := Toy.toy_ext 0) m w = (Ok m', w) /\
        map op_type (graph_node m') =
        map op_type (graph_node m) ++
          [ "InferShapes"; "FoldConstants"; "GiveUniqueNodeNames";
            "GiveReadableTensorNames"; "InferDataTypes";
            "RemoveStaticGraphInputs" ]).
Proof.
  split; [intros; apply cell4_apply_passes|].
  split; [reflexivity|].
  intros m w. eexists. split; [reflexivity|]. simpl.
  rewrite !map_app, <- !app_assoc. reflexivity.
Qed.

(** ** The input datatype and the saved model *)

Lemma get_set_tensor_datatype (m : ModelWrapper) (name : string) (d : DataType) :
  get_tensor_datatype (set_tensor_datatype m name d) name = d.
Proof.
  unfold get_tensor_datatype, set_tensor_datatype. simpl.
  rewrite lookup_insert_eq. reflexivity.
Qed.

Lemma cell5_spec (m : ModelWrapper) (in_vi out_vi : ValueInfo) (w : World) :
  graph_input m !! 0%nat = Some in_vi ->
  graph_output m !! 0%nat = Some out_vi ->
  cell5 m w =
  (Ok (mkPrepared (set_tensor_datatype m (vi_name in_vi) BIPOLAR)
                  (vi_name in_vi) (vi_name out_vi)
                  (get_tensor_shape m (vi_name in_vi))),
   set_files (<[verified_model_filename :=
                  OnnxFile (set_tensor_datatype m (vi_name in_vi) BIPOLAR)]>
                (files w))
     (set_stdout
        (stdout w ++
           [ "Input tensor name: " +:+ vi_name in_vi;
             "Output tensor name: " +:+ vi_name out_vi;
             "Input tensor shape: " +:+
               str_shape (get_tensor_shape m (vi_name in_vi));
             "Input tensor datatype: DataType.BIPOLAR" ]) w)).
Proof.
  intros Hi Ho.
  unfold cell5, bind, lift, list_get, print, save_model, modify, ret.
  rewrite Hi, Ho. simpl. rewrite get_set_tensor_datatype.
  unfold set_files, set_stdout. simpl.
  repeat rewrite <- List.app_assoc. reflexivity.
Qed.

(** C5: once the passes have run, the first input of the graph is marked
    BIPOLAR: right after the marking step [get_tensor_datatype] on its name
    answers [BIPOLAR], and that is what the cell prints. *)
Theorem input_datatype_marked_bipolar
    (m : ModelWrapper) (in_vi out_vi : ValueInfo) (w : World) :
  graph_input m !! 0%nat = Some in_vi ->
  graph_output m !! 0%nat = Some out_vi ->
  exists P w',
    cell5 m w = (Ok P, w') /\
    finnonnx_in_tensor_name P = vi_name in_vi /\
    model_for_sim P = set_tensor_datatype m (vi_name in_vi) BIPOLAR /\
    get_tensor_datatype (model_for_sim P) (finnonnx_in_tensor_name P)
      = BIPOLAR /\
    last (stdout w') = Some "Input tensor datatype: DataType.BIPOLAR".
Proof.
  intros Hi Ho. eexists _, _. split; [apply (cell5_spec m in_vi out_vi w Hi Ho)|].
  simpl. rewrite get_set_tensor_datatype.
  repeat split.
  rewrite last_app. reflexivity.
Qed.

Lemma input_datatype_marked_bipolar_witness :
  graph_input Toy.toy_model !! 0%nat = Some (mkValueInfo "global_in" [1; 600]%nat) /\
  graph_output Toy.toy_model !! 0%nat = Some (mkValueInfo "global_out" [1; 1]%nat) /\
  exists P w',
    cell5 Toy.toy_model Toy.toy_world = (Ok P, w') /\
    finnonnx_in_tensor_name P = "global_in" /\
    model_for_sim P = set_tensor_datatype Toy.toy_model "global_in" BIPOLAR /\
    get_tensor_datatype (model_for_sim P) (finnonnx_in_tensor_name P)
      = BIPOLAR /\
    last (stdout w') = Some "Input tensor datatype: DataType.BIPOLAR".
Proof.
  split; [reflexivity|]. split; [reflexivity|].
  exact (input_datatype_marked_bipolar Toy.toy_model
           (mkValueInfo "global_in" [1; 600]%nat)
           (mkValueInfo "global_out" [1; 1]%nat) Toy.toy_world
           eq_refl eq_refl).
Defined.

Lemma showInNetron_eq (path : string) (w : World) :
  showInNetron path w =
  (Ok tt,
   set_netron (Some path)
     (set_stdout
        (stdout w ++
         match netron w with
         | Some _ => [""; "Stopping http://0.0.0.0:8081"]
         | None => []
         end ++ ["Serving '" +:+ path +:+ "' at http://0.0.0.0:8081"]) w)).
Proof.
  unfold showInNetron, bind, print, modify, ret.
  destruct (netron w); unfold set_netron, set_stdout; simpl;
    rewrite <- ?List.app_assoc; reflexivity.
Qed.

Section Saved.
Context `{Ext : Externals}.

Lemma prepare_inv (w : World) (P : Prepared) (w' : World) :
  prepare w = (Ok P, w') ->
  exists m0 m1 in_vi out_vi,
    files w !! model_file_path = Some (OnnxFile m0) /\
    apply_passes tidy_up_passes m0 = Ok m1 /\
    graph_input m1 !! 0%nat = Some in_vi /\
    graph_output m1 !! 0%nat = Some out_vi /\
    (Ok P, w') =
      (let (r, w5) := cell5 m1 (showInNetron model_file_path w).2 in
       (r, (showInNetron verified_model_filename w5).2)).
Proof.
  intros H. unfold prepare in H.
  apply bind_Ok_inv in H as (m0 & w1 & H2 & H).
  unfold cell2, load_model in H2.
  destruct (files w !! model_file_path) as [[m|c|s]|] eqn:Hf; try discriminate.
  injection H2 as -> <-.
  apply bind_Ok_inv in H as ([] & w2 & H3 & H).
  unfold cell3 in H3.
  apply bind_Ok_inv in H as (m1 & w3 & H4 & H).
  rewrite cell4_apply_passes in H4. injection H4 as H4 <-.
  apply bind_Ok_inv in H as (P5 & w5 & H5 & H).
  apply bind_Ok_inv in H as ([] & w6 & H6 & H).
  unfold cell6 in H6.
  injection H as <- <-.
  assert (exists in_vi out_vi, graph_input m1 !! 0%nat = Some in_vi /\
                               graph_output m1 !! 0%nat = Some out_vi)
    as (in_vi & out_vi & Hi & Ho).
  { unfold cell5, bind, lift, list_get in H5.
    destruct (graph_input m1 !! 0%nat) as [i|]; [|discriminate].
    destruct (graph_output m1 !! 0%nat) as [o|]; [|discriminate].
    eauto. }
  exists m0, m1, in_vi, out_vi. rewrite H3. cbn [snd]. rewrite H5, H6. auto.
Qed.

End Saved.

(** C6: the notebook reads 'cybsec-mlp.onnx', applies the passes, marks the
    input and saves the result as 'cybsec-mlp-verified.onnx'; the saved model
    is the model the session keeps as [model_for_sim]; nothing that runs
    afterwards writes a file, and every call of the execution engine is made
    with that model. *)
Theorem saved_model_is_model_for_sim `{Ext : Externals}
    (w : World) (P : Prepared) (w' : World) :
  prepare w = (Ok P, w') ->
  (exists m0 m1,
      files w !! "cybsec-mlp.onnx" = Some (OnnxFile m0) /\
      apply_passes tidy_up_passes m0 = Ok m1 /\
      model_for_sim P =
        set_tensor_datatype m1 (finnonnx_in_tensor_name P) BIPOLAR) /\
  files w' =
    <["cybsec-mlp-verified.onnx" := OnnxFile (model_for_sim P)]> (files w) /\
  (forall w1,
      files (verify P w1).2 = files w1 /\
      exists calls,
        exec_log (verify P w1).2 = exec_log w1 ++ calls /\
        Forall (fun c => c.1 = model_for_sim P) calls) /\
  files (verify P w').2 !! "cybsec-mlp-verified.onnx"
    = Some (OnnxFile (model_for_sim P)).
Proof.
  intros H.
  apply prepare_inv in H as (m0 & m1 & in_vi & out_vi & Hf & Hp & Hi & Ho & H).
  rewrite (cell5_spec m1 in_vi out_vi _ Hi Ho) in H.
  rewrite !showInNetron_eq in H.
  injection H as -> ->. simpl.
  split; [exists m0, m1; auto|].
  split; [reflexivity|].
  split; [intros w1; apply verify_model_frame|].
  match goal with
  | |- files (verify ?P ?w0).2 !! _ = _ =>
      destruct (verify_model_frame P w0) as [-> _]
  end.
  simpl. apply lookup_insert_eq.
Qed.

Lemma saved_model_is_model_for_sim_witness :
  exists P w',
    prepare (Ext := Toy.toy_ext 0) Toy.toy_world = (Ok P, w') /\
    files w' =
      <["cybsec-mlp-verified.onnx" := OnnxFile (model_for_sim P)]>
        (files Toy.toy_world) /\
    files (verify (Ext := Toy.toy_ext 0) P w').2
      !! "cybsec-mlp-verified.onnx" = Some (OnnxFile (model_for_sim P)).
Proof.
  eexists _, _.
  assert (forall P w', prepare (Ext := Toy.toy_ext 0) Toy.toy_world = (Ok P, w') ->
            prepare (Ext := Toy.toy_ext 0) Toy.toy_world = (Ok P, w') /\
            files w' =
              <["cybsec-mlp-verified.onnx" := OnnxFile (model_for_sim P)]>
                (files Toy.toy_world) /\
            files (verify (Ext := Toy.toy_ext 0) P w').2
              !! "cybsec-mlp-verified.onnx" = Some (OnnxFile (model_for_sim P)))
    as Happ.
  { intros P w' H. split; [exact H|].
    destruct (saved_model_is_model_for_sim (Ext := Toy.toy_ext 0)
                Toy.toy_world P w' H) as (_ & Hs & _ & Hl).
    split; assumption. }
  apply Happ. vm_compute. reflexivity.
Defined.

(** ** Rows, slices and padding *)

Lemma rows_of_lookup {A} (r c i : nat) (d : list A) :
  (i < r)%nat -> rows_of r c d !! i = Some (take c (drop (i * c) d)).
Proof.
  intros Hi. unfold rows_of. rewrite list_lookup_fmap, lookup_seq_lt by exact Hi.
  reflexivity.
Qed.

Lemma rows_of_length {A} (r c : nat) (d : list A) : length (rows_of r c d) = r.
Proof. unfold rows_of. rewrite length_map, length_seq. reflexivity. Qed.

Lemma row_length {A} (r c i : nat) (d : list A) :
  length d = (r * c)%nat -> (i < r)%nat ->
  length (take c (drop (i * c) d)) = c.
Proof.
  intros Hd Hi. rewrite length_take, length_drop, Hd. nia.
Qed.

Lemma concat_uniform_lookup {A} (n : nat) (ls : list (list A)) :
  Forall (fun l => length l = n) ls ->
  forall i l, ls !! i = Some l -> take n (drop (i * n) (concat ls)) = l.
Proof.
  induction 1 as [|l0 ls Hl0 Hls IH]; intros i l Hi; [discriminate|].
  destruct i as [|i].
  - simpl in Hi. injection Hi as ->. cbn [concat Nat.mul]. rewrite drop_0.
    rewrite take_app_length'; [reflexivity | symmetry; exact Hl0].
  - cbn [concat Nat.mul]. simpl in Hi.
    rewrite <- drop_drop, drop_app_length' by (symmetry; exact Hl0).
    apply IH. exact Hi.
Qed.

Lemma take_one_row {A} (c : nat) (v : list A) :
  length v = c -> rows_of 1 c v = [v].
Proof.
  intros Hv. unfold rows_of. cbn [seq map Nat.mul]. rewrite drop_0.
  rewrite take_ge by (rewrite Hv; reflexivity). reflexivity.
Qed.

(** The slice [t[:n, :-1]] of a well-formed matrix with enough rows, row by
    row. *)
Lemma slice_rows_spec (ds : Tensor Q) (r c n : nat) :
  shape ds = [r; c] -> wf_tensor ds -> (n <= r)%nat ->
  exists input_tensor,
    slice_rows_drop_last ds n = Ok input_tensor /\
    shape input_tensor = [n; (c - 1)%nat] /\
    forall i, (i < n)%nat ->
      index0 input_tensor i =
      Ok (mkTensor [(c - 1)%nat] (take (c - 1) (drop (i * c) (data ds)))).
Proof.
  intros Hs Hwf Hn. unfold wf_tensor in Hwf. rewrite Hs in Hwf.
  unfold numel in Hwf. simpl in Hwf. rewrite Nat.mul_1_r in Hwf.
  unfold slice_rows_drop_last. rewrite Hs.
  change (numel []) with 1%nat. cbv zeta. rewrite !Nat.mul_1_r.
  eexists. split; [reflexivity|].
  cbn [shape]. rewrite Nat.min_l by exact Hn. split; [reflexivity|].
  intros i Hi. unfold index0. cbn [shape data]. case_decide; [|lia].
  do 2 f_equal. change (numel [(c - 1)%nat]) with ((c - 1) * 1)%nat.
  rewrite Nat.mul_1_r.
  set (ls := map (take (c - 1)) (take n (rows_of r c (data ds)))).
  assert (Forall (fun l => length l = (c - 1)%nat) ls) as Hall.
  { apply Forall_forall. intros l Hl.
    apply list_elem_of_fmap in Hl as (l' & -> & Hl').
    apply list_elem_of_lookup in Hl' as (j & Hj).
    assert (j < r)%nat as Hjr.
    { apply lookup_lt_Some in Hj. rewrite length_take, rows_of_length in Hj. lia. }
    apply lookup_take_Some in Hj as [Hj _].
    rewrite rows_of_lookup in Hj by exact Hjr. injection Hj as <-.
    rewrite length_take, (row_length r c j) by assumption. lia. }
  assert (ls !! i = Some (take (c - 1) (take c (drop (i * c) (data ds)))))
    as Hrow.
  { unfold ls. rewrite list_lookup_fmap, lookup_take_lt by exact Hi.
    rewrite rows_of_lookup by lia. reflexivity. }
  rewrite (concat_uniform_lookup (c - 1) ls Hall i _ Hrow).
  rewrite take_take. f_equal. lia.
Qed.

(** C7: the verification batch is the first [n_verification_inputs = 100]
    rows of the quantized test set without their last column; when the test
    set has at least 100 rows of 593 boolean features and a label, every
    sample that the loop hands to the two paths is such a row reshaped to
    [(1, 593)]. *)
Theorem verification_batch `{Ext : Externals} (ds : Tensor Q) (r : nat) :
  shape ds = [r; 594]%nat -> wf_tensor ds -> (100 <= r)%nat ->
  boolean_encoded (data ds) ->
  n_verification_inputs = 100%nat /\
  (forall w,
      UNSW_NB15_quantized (files w) "UNSW_NB15_training-set.csv"
                          "UNSW_NB15_testing-set.csv" false = Ok ds ->
      cell7 w = (slice_rows_drop_last ds 100, w)) /\
  exists input_tensor,
    slice_rows_drop_last ds 100 = Ok input_tensor /\
    shape input_tensor = [100; 593]%nat /\
    forall i, (i < 100)%nat ->
      let features := take 593 (drop (i * 594) (data ds)) in
      let current_inp := mkTensor [1; 593]%nat features in
      rbind (index0 input_tensor i)
            (fun row => reshape RuntimeError row [1; 593]%nat)
        = Ok current_inp /\
      length features = 593%nat /\
      boolean_encoded features /\
      forall P w,
        verify_iteration P input_tensor i w =
        (do brevitas_output <- inference_with_brevitas current_inp;
         do finn_output <- inference_with_finn_onnx P current_inp;
         tally finn_output brevitas_output) w.
Proof.
  intros Hs Hwf Hr Hb.
  split; [reflexivity|].
  split.
  { intros w Hds. unfold cell7, bind, lift. rewrite Hds. reflexivity. }
  destruct (slice_rows_spec ds r 594 100 Hs Hwf Hr) as (it & Hit & Hshape & Hrow).
  change (594 - 1)%nat with 593%nat in *.
  exists it. split; [exact Hit|]. split; [exact Hshape|].
  intros i Hi. cbv zeta.
  remember (take 593 (drop (i * 594) (data ds))) as features eqn:Hfeat.
  set (current_inp := mkTensor [1; 593]%nat features).
  assert (length features = 593%nat) as Hlen.
  { rewrite Hfeat. unfold wf_tensor in Hwf. rewrite Hs in Hwf.
    change (numel [r; 594%nat]) with (r * (594 * 1))%nat in Hwf.
    rewrite length_take, length_drop, Hwf. nia. }
  assert (rbind (index0 it i)
                (fun row => reshape RuntimeError row [1; 593]%nat)
          = Ok current_inp) as Hcur.
  { rewrite (Hrow i Hi), <- Hfeat. unfold rbind, reshape.
    cbn [data]. rewrite Hlen. reflexivity. }
  split; [exact Hcur|]. split; [exact Hlen|]. split.
  { rewrite Hfeat. unfold boolean_encoded. apply Forall_take, Forall_drop, Hb. }
  intros P w. unfold verify_iteration.
  unfold rbind in Hcur. unfold bind at 1 2, lift.
  destruct (index0 it i) as [row|e]; [|discriminate].
  rewrite Hcur. reflexivity.
Qed.

Lemma length_grid {A} (g : nat -> nat -> A) (c : nat) (rows : list nat) :
  length (concat (map (fun i => map (g i) (seq 0 c)) rows))
  = (length rows * c)%nat.
Proof.
  induction rows as [|i rows IH]; [reflexivity|].
  cbn [map concat length]. rewrite length_app, length_map, length_seq, IH.
  reflexivity.
Qed.

Lemma toy_dataset_wf : wf_tensor Toy.toy_dataset.
Proof.
  unfold wf_tensor, Toy.toy_dataset. cbn [data shape].
  rewrite length_grid, length_seq.
  change (numel [120; 594]%nat) with (120 * (594 * 1))%nat.
  rewrite Nat.mul_1_r. reflexivity.
Qed.

Lemma toy_dataset_boolean : boolean_encoded (data Toy.toy_dataset).
Proof.
  unfold boolean_encoded, Toy.toy_dataset. cbn [data].
  apply Forall_forall. intros x Hx.
  apply list_elem_of_In, in_concat in Hx as (l & Hl & Hx).
  apply in_map_iff in Hl as (i & <- & _).
  apply in_map_iff in Hx as (j & <- & _).
  unfold Toy.bit. destruct (Nat.even _); auto.
Qed.

Lemma toy_sample_boolean i : boolean_encoded (data (Toy.toy_sample i)).
Proof.
  unfold boolean_encoded, Toy.toy_sample. cbn [data].
  apply Forall_forall. intros x Hx.
  apply list_elem_of_In, in_map_iff in Hx as (j & <- & _).
  unfold Toy.bit. destruct (Nat.even _); auto.
Qed.

Lemma verification_batch_witness :
  shape Toy.toy_dataset = [120; 594]%nat /\ wf_tensor Toy.toy_dataset /\
  (100 <= 120)%nat /\ boolean_encoded (data Toy.toy_dataset) /\
  slice_rows_drop_last Toy.toy_dataset 100 = Ok Toy.toy_input /\
  rbind (index0 Toy.toy_input 3)
        (fun row => reshape RuntimeError row [1; 593]%nat)
    = Ok (Toy.toy_sample 3).
Proof.
  assert (shape Toy.toy_dataset = [120; 594]%nat) as Hs by reflexivity.
  pose proof toy_dataset_wf as Hwf.
  assert (100 <= 120)%nat as Hr by lia.
  pose proof toy_dataset_boolean as Hb.
  repeat (split; [assumption|]).
  destruct (verification_batch (Ext := Toy.toy_ext 0) Toy.toy_dataset 120
              Hs Hwf Hr Hb) as (_ & _ & it & Hit & _ & Hrows).
  assert (it = Toy.toy_input) as ->.
  { assert (slice_rows_drop_last Toy.toy_dataset 100 = Ok Toy.toy_input) as E
      by (vm_cast_no_check (eq_refl (Ok Toy.toy_input))).
    congruence. }
  split; [exact Hit|].
  destruct (Hrows 3%nat ltac:(lia)) as (Hcur & _).
  rewrite Hcur. vm_compute. reflexivity.
Defined.

(** C9: a vector of 593 values 0 or 1 reaches the execution engine as a
    tensor of shape [1, 600] (the input shape of the graph) whose first 593
    entries are the values mapped by x -> 2x - 1 and whose last 7 entries,
    the padding, are -1: every entry is -1 or +1. *)
Theorem finn_input_is_padded_bipolar `{Ext : Externals}
    (P : Prepared) (v : list Q) :
  length v = 593%nat -> boolean_encoded v ->
  finnonnx_model_in_shape P = Some [1; 600]%nat ->
  let fed := mkTensor [1; 600]%nat
               (map (fun x => 2 * x - 1)%Q v ++ replicate 7 (-1)%Q) in
  finn_input_dict P (mkTensor [1; 593]%nat v)
    = Ok {[ finnonnx_in_tensor_name P := fed ]} /\
  length (data fed) = 600%nat /\
  bipolar_encoded (data fed) /\
  forall w,
    inference_with_finn_onnx P (mkTensor [1; 593]%nat v) w =
    (rbind (execute_onnx (model_for_sim P)
                         {[ finnonnx_in_tensor_name P := fed ]})
           (fun output_dict =>
              dict_get output_dict (finnonnx_out_tensor_name P)),
     set_exec_log
       (exec_log w ++
          [(model_for_sim P, {[ finnonnx_in_tensor_name P := fed ]})]) w).
Proof.
  intros Hlen Hb Hshape fed.
  assert (length (data fed) = 600%nat) as Hfed.
  { unfold fed. cbn [data].
    rewrite length_app, length_map, length_replicate, Hlen. reflexivity. }
  assert (finn_input_dict P (mkTensor [1; 593]%nat v)
          = Ok {[ finnonnx_in_tensor_name P := fed ]}) as Hdict.
  { unfold finn_input_dict, np_pad_cols.
    change (shape (mkTensor [1; 593]%nat v)) with [1; 593]%nat.
    change (data (mkTensor [1; 593]%nat v)) with v.
    cbv beta iota. rewrite (take_one_row 593 v Hlen).
    unfold rbind at 1. rewrite Hshape.
    unfold reshape, to_bipolar_Q, tmap.
    change (593 + 7)%nat with 600%nat.
    cbn [shape data concat map].
    rewrite app_nil_r, map_app.
    replace (map (fun x => 2 * x - 1)%Q (replicate 7 0%Q))
      with (replicate 7 (-1)%Q) by reflexivity.
    change (length (map (fun x => 2 * x - 1)%Q v ++ replicate 7 (-1)%Q))
      with (length (data fed)).
    rewrite Hfed. change (numel [1; 600]%nat) with 600%nat.
    case_decide; [reflexivity | congruence]. }
  split; [exact Hdict|]. split; [exact Hfed|]. split.
  { unfold fed, bipolar_encoded. cbn [data]. apply Forall_app. split.
    - apply Forall_map. eapply Forall_impl; [exact Hb|].
      intros x [-> | ->]; [left | right]; reflexivity.
    - apply Forall_forall. intros x Hx.
      apply elem_of_replicate in Hx as [-> _]. left. reflexivity. }
  intros w. unfold inference_with_finn_onnx, bind, lift, call_execute_onnx.
  rewrite Hdict. unfold rbind.
  destruct (execute_onnx _ _); reflexivity.
Qed.

Lemma finn_input_is_padded_bipolar_witness :
  length (data (Toy.toy_sample 1)) = 593%nat /\
  boolean_encoded (data (Toy.toy_sample 1)) /\
  finnonnx_model_in_shape Toy.toy_prepared = Some [1; 600]%nat /\
  finn_input_dict Toy.toy_prepared (Toy.toy_sample 1)
    = Ok {[ "global_in" :=
              mkTensor [1; 600]%nat
                (map (fun x => 2 * x - 1)%Q (data (Toy.toy_sample 1))
                 ++ replicate 7 (-1)%Q) ]}.
Proof.
  assert (length (data (Toy.toy_sample 1)) = 593%nat) as Hl.
  { unfold Toy.toy_sample. cbn [data]. rewrite length_map, length_seq.
    reflexivity. }
  pose proof (toy_sample_boolean 1) as Hb.
  repeat (split; [first [assumption | reflexivity]|]).
  exact (proj1 (finn_input_is_padded_bipolar (Ext := Toy.toy_ext 0)
                  Toy.toy_prepared (data (Toy.toy_sample 1)) Hl Hb eq_refl)).
Defined.

(** ** Padding keeps tensors well-formed *)

Lemma length_concat_uniform {A} (n : nat) (ls : list (list A)) :
  Forall (fun l => length l = n) ls ->
  length (concat ls) = (length ls * n)%nat.
Proof.
  induction 1 as [|l ls Hl Hls IH]; [reflexivity|].
  cbn [concat length]. rewrite length_app, Hl, IH. reflexivity.
Qed.

Lemma rows_of_uniform {A} (r c : nat) (d : list A) :
  length d = (r * c)%nat -> Forall (fun l => length l = c) (rows_of r c d).
Proof.
  intros Hd. apply Forall_forall. intros l Hl.
  apply list_elem_of_lookup in Hl as (i & Hi).
  assert (i < r)%nat as Hir.
  { apply lookup_lt_Some in Hi. rewrite rows_of_length in Hi. exact Hi. }
  rewrite rows_of_lookup in Hi by exact Hir. injection Hi as <-.
  apply (row_length r); assumption.
Qed.

Lemma np_pad_cols_wf (t : Tensor Q) (r c after : nat) :
  shape t = [r; c] -> wf_tensor t ->
  exists padded,
    np_pad_cols t after = Ok padded /\
    shape padded = [r; (c + after)%nat] /\
    length (data padded) = (r * (c + after))%nat.
Proof.
  intros Hs Hwf. unfold np_pad_cols. rewrite Hs.
  eexists. split; [reflexivity|]. split; [reflexivity|]. cbn [data].
  rewrite (length_concat_uniform (c + after)).
  - rewrite length_map, rows_of_length. reflexivity.
  - apply Forall_map. eapply Forall_impl.
    + apply rows_of_uniform. unfold wf_tensor in Hwf. rewrite Hwf, Hs.
      change (numel [r; c]) with (r * (c * 1))%nat. lia.
    + intros l Hl. simpl. rewrite length_app, length_replicate, Hl.
      reflexivity.
Qed.

Lemma reshape_Ok {A} (exn : Exn) (t t' : Tensor A) (shp : list nat) :
  reshape exn t shp = Ok t' -> shape t' = shp /\ wf_tensor t'.
Proof.
  unfold reshape. case_decide as Hn; [|discriminate]. intros [= <-].
  split; [reflexivity|]. unfold wf_tensor. simpl. symmetry. exact Hn.
Qed.

(** ** Exceptions *)

Section Propagation.
Context `{Ext : Externals}.

(** An iteration that raises ends the loop, with its exception and in its
    state. *)
Lemma loop_stops_at_raise P input_tensor n k w wk e w' :
  (k < n)%nat ->
  for_each (verify_iteration P input_tensor) (seq 0 k) (loop_start w)
    = (Ok tt, wk) ->
  verify_iteration P input_tensor k wk = (Raise e, w') ->
  verification_loop P input_tensor n w = (Raise e, w').
Proof.
  intros Hk Hpre Hfail.
  rewrite verification_loop_unfold, (seq_split k n Hk), for_each_app, Hpre.
  simpl. unfold bind. rewrite Hfail. reflexivity.
Qed.

(** An exception of the engine is the exception of the iteration, in the
    state in which the call was made, the call recorded. *)
Lemma engine_exception P input_tensor i w row current_inp brevitas_output
    w1 input_dict e :
  index0 input_tensor i = Ok row ->
  reshape RuntimeError row [1; 593]%nat = Ok current_inp ->
  inference_with_brevitas current_inp w = (Ok brevitas_output, w1) ->
  finn_input_dict P current_inp = Ok input_dict ->
  execute_onnx (model_for_sim P) input_dict = Raise e ->
  verify_iteration P input_tensor i w =
  (Raise e, set_exec_log (exec_log w1 ++ [(model_for_sim P, input_dict)]) w1).
Proof.
  intros Hrow Hcur Hb Hd He.
  unfold verify_iteration, bind, lift. rewrite Hrow, Hcur, Hb.
  unfold inference_with_finn_onnx, bind, lift, call_execute_onnx.
  rewrite Hd, He. reflexivity.
Qed.

(** An exception of the network's forward pass is the exception of the
    iteration, in the state the forward pass left. *)
Lemma forward_exception P input_tensor i w row current_inp e w1 :
  index0 input_tensor i = Ok row ->
  reshape RuntimeError row [1; 593]%nat = Ok current_inp ->
  brevitas_forward current_inp w = (Raise e, w1) ->
  verify_iteration P input_tensor i w = (Raise e, w1).
Proof.
  intros Hrow Hcur Hb.
  unfold verify_iteration, bind, lift. rewrite Hrow, Hcur.
  unfold inference_with_brevitas, bind. rewrite Hb. reflexivity.
Qed.

Lemma checkpoint_exception P w input_tensor w0 e w1 :
  cell7 w = (Ok input_tensor, w0) ->
  torch_load "state_dict.pth" (construct_brevitas_model w0).2
    = (Raise e, w1) ->
  verify P w = (Raise e, w1).
Proof.
  intros H7 Hl. unfold verify, bind. rewrite H7.
  unfold cell8, bind.
  destruct (construct_brevitas_model w0) as [[[]|e0] wc] eqn:Hc;
    [|discriminate Hc].
  simpl in Hl. rewrite Hl. reflexivity.
Qed.

Lemma load_state_dict_exception P w input_tensor w0 ckpt states sd e w1 :
  cell7 w = (Ok input_tensor, w0) ->
  files w0 !! "state_dict.pth" = Some (CheckpointFile ckpt) ->
  ckpt !! "models_state_dict" = Some states ->
  states !! 0%nat = Some sd ->
  load_state_dict sd (construct_brevitas_model w0).2 = (Raise e, w1) ->
  verify P w = (Raise e, w1).
Proof.
  intros H7 Hf Hk Hs Hl. unfold verify, bind. rewrite H7.
  unfold cell8, bind.
  destruct (construct_brevitas_model w0) as [[[]|e0] wc] eqn:Hc;
    [|discriminate Hc].
  simpl in Hl.
  assert (files wc = files w0) as Hfiles.
  { unfold construct_brevitas_model, modify in Hc.
    destruct (init_parameters _ _ _). injection Hc as <-. reflexivity. }
  unfold torch_load. rewrite Hfiles, Hf.
  unfold lift, dict_get, list_get. rewrite Hk, Hs, Hl. reflexivity.
Qed.

Lemma pass_exception (m0 : ModelWrapper) (ts1 ts2 : list Transformation)
    (t : Transformation) (m : ModelWrapper) (e : Exn) :
  apply_passes ts1 m0 = Ok m -> transform m t = Raise e ->
  apply_passes (ts1 ++ t :: ts2) m0 = Raise e.
Proof.
  revert m0. induction ts1 as [|t1 ts1 IH]; intros m0 H1 Ht; simpl in *.
  - injection H1 as ->. rewrite Ht. reflexivity.
  - destruct (transform m0 t1) as [m1|e1]; [|discriminate].
    simpl in *. apply IH; assumption.
Qed.

End Propagation.

(** C8: the script has no handler: what a library call raises is what the
    run ends with, in the state of the call.  When the first [k]
    iterations complete and the engine raises [e] on the input of
    iteration [k], the loop ends there with [e]: the state is the one in
    which the engine was called, the call recorded once, with the tally of
    the [k] samples before it, nothing printed, no file written and no
    final message.  The same holds of an exception of the network's
    forward pass, of a reshape that does not fit, of the dataset loader,
    of [torch.load] and [load_state_dict] on the checkpoint, of a
    transformation pass and of the loading of the model file. *)
Theorem exceptions_propagate `{Ext : Externals}
    (P : Prepared) (input_tensor : Tensor Q) (n k : nat) (w wk w1 : World)
    (row current_inp : Tensor Q) (brevitas_output : Tensor Z)
    (input_dict : gmap string (Tensor Q)) (e : Exn) :
  (k < n)%nat ->
  for_each (verify_iteration P input_tensor) (seq 0 k) (loop_start w)
    = (Ok tt, wk) ->
  index0 input_tensor k = Ok row ->
  reshape RuntimeError row [1; 593]%nat = Ok current_inp ->
  inference_with_brevitas current_inp wk = (Ok brevitas_output, w1) ->
  finn_input_dict P current_inp = Ok input_dict ->
  execute_onnx (model_for_sim P) input_dict = Raise e ->
  let w' :=
    set_exec_log (exec_log w1 ++ [(model_for_sim P, input_dict)]) w1 in
  verify_iteration P input_tensor k wk = (Raise e, w') /\
  verification_loop P input_tensor n w = (Raise e, w') /\
  (run verification_loop P input_tensor n; cell13) w = (Raise e, w') /\
  ok w' = ok wk /\ nok w' = nok wk /\
  stdout w' = stdout w /\ files w' = files w /\
  (forall j wj rowj cur e0 w0 m w2,
      index0 input_tensor j = Ok rowj ->
      reshape RuntimeError rowj [1; 593]%nat = Ok cur ->
      brevitas_forward cur wj = (Raise e0, w0) ->
      verify_iteration P input_tensor j wj = (Raise e0, w0) /\
      ((j < m)%nat ->
       for_each (verify_iteration P input_tensor) (seq 0 j) (loop_start w2)
         = (Ok tt, wj) ->
       verification_loop P input_tensor m w2 = (Raise e0, w0))) /\
  (forall j wj rowj e0,
      index0 input_tensor j = Ok rowj ->
      reshape RuntimeError rowj [1; 593]%nat = Raise e0 ->
      verify_iteration P input_tensor j wj = (Raise e0, wj)) /\
  (forall j wj rowj cur b w0 e0,
      index0 input_tensor j = Ok rowj ->
      reshape RuntimeError rowj [1; 593]%nat = Ok cur ->
      inference_with_brevitas cur wj = (Ok b, w0) ->
      finn_input_dict P cur = Raise e0 ->
      verify_iteration P input_tensor j wj = (Raise e0, w0)) /\
  (forall w0 e0,
      UNSW_NB15_quantized (files w0) "UNSW_NB15_training-set.csv"
                          "UNSW_NB15_testing-set.csv" false = Raise e0 ->
      cell7 w0 = (Raise e0, w0) /\ verify P w0 = (Raise e0, w0)) /\
  (forall w0 input_tensor0 w2 e0 w3,
      cell7 w0 = (Ok input_tensor0, w2) ->
      torch_load "state_dict.pth" (construct_brevitas_model w2).2
        = (Raise e0, w3) ->
      verify P w0 = (Raise e0, w3)) /\
  (forall w0 input_tensor0 w2 ckpt states sd e0 w3,
      cell7 w0 = (Ok input_tensor0, w2) ->
      files w2 !! "state_dict.pth" = Some (CheckpointFile ckpt) ->
      ckpt !! "models_state_dict" = Some states ->
      states !! 0%nat = Some sd ->
      load_state_dict sd (construct_brevitas_model w2).2 = (Raise e0, w3) ->
      verify P w0 = (Raise e0, w3)) /\
  (forall w0 m0 ts1 t ts2 m e0,
      files w0 !! model_file_path = Some (OnnxFile m0) ->
      tidy_up_passes = ts1 ++ t :: ts2 ->
      apply_passes ts1 m0 = Ok m ->
      transform m t = Raise e0 ->
      notebook w0 = (Raise e0, (showInNetron model_file_path w0).2)) /\
  (forall w0 e0 w2,
      load_model model_file_path w0 = (Raise e0, w2) ->
      notebook w0 = (Raise e0, w2)).
Proof.
  intros Hk Hpre Hrow Hcur Hb Hd He w'.
  pose proof (engine_exception P input_tensor k wk row current_inp
                brevitas_output w1 input_dict e Hrow Hcur Hb Hd He) as Hfail.
  fold w' in Hfail.
  pose proof (loop_stops_at_raise P input_tensor n k w wk e w' Hk Hpre Hfail)
    as Hloop.
  split; [exact Hfail|]. split; [exact Hloop|].
  split; [apply bind_Raise, Hloop|].
  pose proof (respects_for_each (loop_frame P) (loop_frame_refl P)
                (loop_frame_trans P) (verify_iteration P input_tensor)
                (seq 0 k) (verify_iteration_frame P input_tensor)
                (loop_start w)) as Fk.
  rewrite Hpre in Fk. simpl in Fk.
  destruct Fk as ((Fk & _) & Hout & _).
  pose proof (verify_iteration_Raise_inv P input_tensor k wk e w' Hfail)
    as (((Ff & _) & Of & _) & _ & Hok & Hnok & _).
  change (files (loop_start w)) with (files w) in Fk.
  change (stdout (loop_start w)) with (stdout w) in Hout.
  repeat (split; [congruence|]).
  split; [|split; [|split; [|split; [|split; [|split; [|split]]]]]].
  - intros j wj rowj cur e0 w0 m w2 Hrowj Hcurj Hfwd.
    pose proof (forward_exception P input_tensor j wj rowj cur e0 w0
                  Hrowj Hcurj Hfwd) as Hj.
    split; [exact Hj|]. intros Hjm Hprej.
    exact (loop_stops_at_raise P input_tensor m j w2 wj e0 w0 Hjm Hprej Hj).
  - intros j wj rowj e0 Hrowj Hcurj.
    unfold verify_iteration, bind, lift. rewrite Hrowj, Hcurj. reflexivity.
  - intros j wj rowj cur b w0 e0 Hrowj Hcurj Hbj Hdj.
    unfold verify_iteration, bind, lift. rewrite Hrowj, Hcurj, Hbj.
    unfold inference_with_finn_onnx, bind, lift. rewrite Hdj. reflexivity.
  - intros w0 e0 Hds. unfold verify, cell7, bind, lift.
    rewrite Hds. auto.
  - intros w0 it w2 e0 w3. apply checkpoint_exception.
  - intros w0 it w2 ckpt states sd e0 w3.
    apply load_state_dict_exception.
  - intros w0 m0 ts1 t ts2 m e0 Hf Hts H1 Ht.
    pose proof (pass_exception m0 ts1 ts2 t m e0 H1 Ht) as Hp.
    rewrite <- Hts in Hp.
    unfold notebook, prepare, bind, cell2, load_model. rewrite Hf.
    unfold cell3.
    destruct (showInNetron model_file_path w0) as [[[]|e1] ws] eqn:Hs;
      [|rewrite showInNetron_eq in Hs; discriminate Hs].
    rewrite cell4_apply_passes, Hp. reflexivity.
  - intros w0 e0 w2 Hl. unfold notebook, prepare, bind, cell2.
    rewrite Hl. reflexivity.
Qed.

Lemma exceptions_propagate_witness :
  exists wk row current_inp brevitas_output w1 input_dict,
    for_each (verify_iteration (Ext := Toy.failing_ext) Toy.toy_prepared
                               Toy.toy_input)
             (seq 0 2) (loop_start Toy.toy_world) = (Ok tt, wk) /\
    index0 Toy.toy_input 2 = Ok row /\
    reshape RuntimeError row [1; 593]%nat = Ok current_inp /\
    inference_with_brevitas (Ext := Toy.failing_ext) current_inp wk
      = (Ok brevitas_output, w1) /\
    finn_input_dict Toy.toy_prepared current_inp = Ok input_dict /\
    execute_onnx (Externals := Toy.failing_ext)
                 (model_for_sim Toy.toy_prepared) input_dict
      = Raise (LibraryError 7) /\
    verification_loop (Ext := Toy.failing_ext) Toy.toy_prepared Toy.toy_input
                      100 Toy.toy_world
      = (Raise (LibraryError 7),
         set_exec_log
           (exec_log w1 ++ [(model_for_sim Toy.toy_prepared, input_dict)])
           w1) /\
    ok w1 = 2%nat /\ nok w1 = 0%nat /\ stdout w1 = stdout Toy.toy_world.
Proof.
  assert (forall wk row current_inp brevitas_output w1 input_dict,
    for_each (verify_iteration (Ext := Toy.failing_ext) Toy.toy_prepared
                               Toy.toy_input)
             (seq 0 2) (loop_start Toy.toy_world) = (Ok tt, wk) ->
    index0 Toy.toy_input 2 = Ok row ->
    reshape RuntimeError row [1; 593]%nat = Ok current_inp ->
    inference_with_brevitas (Ext := Toy.failing_ext) current_inp wk
      = (Ok brevitas_output, w1) ->
    finn_input_dict Toy.toy_prepared current_inp = Ok input_dict ->
    execute_onnx (Externals := Toy.failing_ext)
                 (model_for_sim Toy.toy_prepared) input_dict
      = Raise (LibraryError 7) ->
    ok wk = 2%nat -> nok wk = 0%nat ->
    for_each (verify_iteration (Ext := Toy.failing_ext) Toy.toy_prepared
                               Toy.toy_input)
             (seq 0 2) (loop_start Toy.toy_world) = (Ok tt, wk) /\
    index0 Toy.toy_input 2 = Ok row /\
    reshape RuntimeError row [1; 593]%nat = Ok current_inp /\
    inference_with_brevitas (Ext := Toy.failing_ext) current_inp wk
      = (Ok brevitas_output, w1) /\
    finn_input_dict Toy.toy_prepared current_inp = Ok input_dict /\
    execute_onnx (Externals := Toy.failing_ext)
                 (model_for_sim Toy.toy_prepared) input_dict
      = Raise (LibraryError 7) /\
    verification_loop (Ext := Toy.failing_ext) Toy.toy_prepared Toy.toy_input
                      100 Toy.toy_world
      = (Raise (LibraryError 7),
         set_exec_log
           (exec_log w1 ++ [(model_for_sim Toy.toy_prepared, input_dict)])
           w1) /\
    ok w1 = 2%nat /\ nok w1 = 0%nat /\ stdout w1 = stdout Toy.toy_world)
    as Happ.
  { intros wk row cur b w1 d H1 H2 H3 H4 H5 H6 Hok Hnok.
    destruct (exceptions_propagate (Ext := Toy.failing_ext) Toy.toy_prepared
                Toy.toy_input 100 2 Toy.toy_world wk w1 row cur b d
                (LibraryError 7) ltac:(lia) H1 H2 H3 H4 H5 H6)
      as (_ & L & _ & Hok' & Hnok' & Hout & _).
    cbn [ok nok stdout set_exec_log] in Hok', Hnok', Hout.
    repeat (split; [assumption|]).
    split; [congruence|]. split; [congruence | assumption]. }
  eexists _, _, _, _, _, _. apply Happ.
  - vm_compute. reflexivity.
  - vm_compute. reflexivity.
  - vm_compute. reflexivity.
  - vm_compute. reflexivity.
  - vm_compute. reflexivity.
  - vm_compute. reflexivity.
  - reflexivity.
  - reflexivity.
Defined.

(** Without the checkpoint file the run ends with what [torch.load]
    raises. *)
Example missing_checkpoint_aborts :
  (verify (Ext := Toy.toy_ext 0) Toy.toy_prepared
          Edge.no_checkpoint_world).1
  = Raise (FileNotFoundError "state_dict.pth").
Proof. vm_compute. reflexivity. Qed.

(** ** Independence of the random generator *)

Section Determinism.
Context `{Ext : Externals}.

Lemma rng_blind_ret {A} (a : A) : rng_blind (ret a).
Proof. intros r d w Ht. auto. Qed.

Lemma rng_blind_lift {A} (x : result A) : rng_blind (lift x).
Proof. intros r d w Ht. auto. Qed.

Lemma rng_blind_bind {A B} (c : M A) (k : A -> M B) :
  rng_blind c -> (forall a, rng_blind (k a)) -> rng_blind (bind c k).
Proof.
  intros Hc Hk r d w Ht. unfold bind.
  destruct (Hc r d w Ht) as [E T]. rewrite E.
  destruct (c w) as [[a|e] w1]; simpl in *; [apply Hk, T | auto].
Qed.

Lemma rng_blind_modify (f : World -> World) :
  (forall r d w, f (set_generator r d w) = set_generator r d (f w)) ->
  (forall w, training (f w) = training w) ->
  rng_blind (modify f).
Proof.
  intros Hf Ht r d w Hw. unfold modify. simpl. rewrite Hf, Ht. auto.
Qed.

Lemma rng_blind_for_each {A} (body : A -> M unit) (xs : list A) :
  (forall x, rng_blind (body x)) -> rng_blind (for_each body xs).
Proof.
  intros Hb. induction xs as [|x xs IH]; simpl.
  - apply rng_blind_ret.
  - apply rng_blind_bind; [apply Hb | intros _; exact IH].
Qed.

(** In evaluation mode [Dropout] is the identity and draws nothing. *)
Lemma rng_blind_dropout p x : rng_blind (dropout p x).
Proof.
  intros r d w Ht. unfold dropout. simpl. rewrite Ht. auto.
Qed.

Lemma rng_blind_apply_layer i l x : rng_blind (apply_layer i l x).
Proof.
  destruct l; try apply rng_blind_dropout;
    intros r d w Ht; (split; [reflexivity | exact Ht]).
Qed.

Lemma rng_blind_sequential_forward layers : forall i x,
  rng_blind (sequential_forward i layers x).
Proof.
  induction layers as [|l layers IH]; intros i x; simpl.
  - apply rng_blind_ret.
  - apply rng_blind_bind; [apply rng_blind_apply_layer | intros y; apply IH].
Qed.

Lemma rng_blind_inference_with_brevitas x :
  rng_blind (inference_with_brevitas x).
Proof.
  apply rng_blind_bind;
    [apply rng_blind_sequential_forward | intros y; apply rng_blind_ret].
Qed.

Lemma rng_blind_inference_with_finn_onnx P x :
  rng_blind (inference_with_finn_onnx P x).
Proof.
  unfold inference_with_finn_onnx.
  apply rng_blind_bind; [apply rng_blind_lift | intros d].
  apply rng_blind_bind; [|intros o; apply rng_blind_lift].
  intros r g w Ht. simpl. auto.
Qed.

Lemma rng_blind_tally (finn_output : Tensor Q) (brevitas_output : Tensor Z) :
  rng_blind (tally finn_output brevitas_output).
Proof.
  unfold tally.
  repeat first
    [ apply rng_blind_lift
    | apply rng_blind_modify; [intros r d w; reflexivity | intros w; reflexivity]
    | apply rng_blind_bind; [|intros ?] ].
Qed.

Lemma rng_blind_verify_iteration P input_tensor i :
  rng_blind (verify_iteration P input_tensor i).
Proof.
  unfold verify_iteration.
  repeat first
    [ apply rng_blind_lift
    | apply rng_blind_tally
    | apply rng_blind_inference_with_brevitas
    | apply rng_blind_inference_with_finn_onnx
    | apply rng_blind_bind; [|intros ?] ].
Qed.

Lemma rng_free_lift {A} (x : result A) : rng_free (lift x).
Proof. intros r d w. reflexivity. Qed.

Lemma rng_free_ret {A} (a : A) : rng_free (ret a).
Proof. intros r d w. reflexivity. Qed.

Lemma rng_free_bind {A B} (c : M A) (k : A -> M B) :
  rng_free c -> (forall a, rng_free (k a)) -> rng_free (bind c k).
Proof.
  intros Hc Hk r d w. unfold bind. rewrite (Hc r d w).
  destruct (c w) as [[a|e] w1]; simpl; [apply Hk | reflexivity].
Qed.

Lemma rng_free_modify (f : World -> World) :
  (forall r d w, f (set_generator r d w) = set_generator r d (f w)) ->
  rng_free (modify f).
Proof. intros Hf r d w. unfold modify. simpl. rewrite Hf. reflexivity. Qed.

(** The loop starts with [eval()], so it is independent of the generator
    from any state. *)
Lemma rng_free_verification_loop P input_tensor n :
  rng_free (verification_loop P input_tensor n).
Proof.
  intros r d w. rewrite !verification_loop_unfold.
  change (loop_start (set_generator r d w))
    with (set_generator r d (loop_start w)).
  apply (rng_blind_for_each (verify_iteration P input_tensor) (seq 0 n)
           (rng_blind_verify_iteration P input_tensor) r d (loop_start w)).
  reflexivity.
Qed.

Lemma rng_free_cell13 : rng_free cell13.
Proof.
  intros r d w. unfold cell13. simpl. case_decide; reflexivity.
Qed.

Lemma rng_free_loop_and_message P input_tensor :
  rng_free (run cell11 P input_tensor; cell13).
Proof.
  apply rng_free_bind;
    [apply rng_free_verification_loop | intros _; apply rng_free_cell13].
Qed.

Lemma rng_free_same_outcome (c : M unit) (w : World) r1 d1 r2 d2 :
  rng_free c ->
  same_outcome (c (set_generator r1 d1 w)) (c (set_generator r2 d2 w)).
Proof.
  intros Hc. rewrite (Hc r1 d1 w), (Hc r2 d2 w).
  unfold same_outcome. simpl. auto.
Qed.

End Determinism.

(** C10: [eval()] comes before the loop, so [Dropout] is the identity in
    every forward pass.  For a fixed trained network (the parameters of the
    session) and fixed files, whatever the state of the random generator,
    the loop and the final message end with the same result, the same [ok]
    and [nok], the same printed lines and the same progress text; in
    evaluation mode [inference_with_brevitas] returns the same for the same
    input and consumes nothing of the generator, and
    [inference_with_finn_onnx] never looks at it; and the loop leaves the
    network in evaluation mode. *)
Theorem verification_is_deterministic `{Ext : Externals}
    (P : Prepared) (input_tensor : Tensor Q) (w : World)
    (r1 r2 : nat -> bool) (d1 d2 : nat) :
  same_outcome ((run cell11 P input_tensor; cell13) (set_generator r1 d1 w))
               ((run cell11 P input_tensor; cell13) (set_generator r2 d2 w)) /\
  (forall current_inp,
      let first := inference_with_brevitas current_inp
                     (set_generator r1 d1 (set_training false w)) in
      let second := inference_with_brevitas current_inp
                      (set_generator r2 d2 (set_training false w)) in
      first.1 = second.1 /\ drawn first.2 = d1 /\ drawn second.2 = d2) /\
  (forall current_inp,
      (inference_with_finn_onnx P current_inp (set_generator r1 d1 w)).1 =
      (inference_with_finn_onnx P current_inp (set_generator r2 d2 w)).1) /\
  training (cell11 P input_tensor w).2 = false.
Proof.
  split; [apply rng_free_same_outcome, rng_free_loop_and_message|].
  split; [|split].
  - intros current_inp. cbv zeta.
    destruct (rng_blind_inference_with_brevitas current_inp r1 d1
                (set_training false w) eq_refl) as [E1 _].
    destruct (rng_blind_inference_with_brevitas current_inp r2 d2
                (set_training false w) eq_refl) as [E2 _].
    rewrite E1, E2. repeat split.
  - intros current_inp.
    unfold inference_with_finn_onnx, bind, lift, call_execute_onnx.
    destruct (finn_input_dict P current_inp); [|reflexivity].
    destruct (execute_onnx _ _); reflexivity.
  - unfold cell11. rewrite verification_loop_unfold.
    pose proof (rng_blind_for_each (verify_iteration P input_tensor)
                  (seq 0 n_verification_inputs)
                  (rng_blind_verify_iteration P input_tensor)
                  (rng (loop_start w)) (drawn (loop_start w)) (loop_start w)
                  eq_refl) as [_ T].
    exact T.
Qed.

(** Without [eval()] the claim would fail: in training mode the output of
    a [Dropout] layer depends on the generator. *)
Example dropout_in_training_mode_draws :
  (dropout (1 # 2) (mkTensor [1; 2]%nat [1; 1]%Q)
           (set_generator Nat.even 0 Toy.toy_world)).1
  <> (dropout (1 # 2) (mkTensor [1; 2]%nat [1; 1]%Q)
              (set_generator Nat.odd 0 Toy.toy_world)).1.
Proof. vm_compute. discriminate. Qed.

(** The parameters that the checkpoint does not name keep the values the
    constructors drew: they depend on the generator, which is why the
    statement above fixes the parameters of the session. *)
Example fresh_parameters_depend_on_generator :
  params (cell8 (Ext := Toy.toy_ext 0)
                (set_generator Nat.even 0 Toy.toy_world)).2
  <> params (cell8 (Ext := Toy.toy_ext 0)
                   (set_generator Nat.odd 0 Toy.toy_world)).2.
Proof.
  intros H. apply (f_equal (fun m => m !! "12.bias")) in H.
  vm_compute in H. discriminate.
Qed.

(** * Further properties of the notebook *)

Section Iterations.
Context `{Ext : Externals}.

(** X2: whatever the network returns, [inference_with_brevitas] answers
    with a bipolar array of the shape of the raw output, and it fails
    exactly when the forward pass fails, with the same exception. *)
Theorem inference_with_brevitas_is_bipolar (current_inp : Tensor Q) (w : World) :
  match inference_with_brevitas current_inp w with
  | (Ok brevitas_output, w') =>
      exists raw,
        brevitas_forward current_inp w = (Ok raw, w') /\
        shape brevitas_output = shape raw /\
        length (data brevitas_output) = length (data raw) /\
        Forall (fun z => z = (-1)%Z \/ z = 1%Z) (data brevitas_output)
  | (Raise e, w') => brevitas_forward current_inp w = (Raise e, w')
  end.
Proof.
  unfold inference_with_brevitas, bind, ret.
  destruct (brevitas_forward current_inp w) as [[raw|e] w']; [|reflexivity].
  exists raw. destruct (postprocess_data raw) as [Hs Hd].
  repeat split; try assumption.
  - rewrite Hd, length_map. reflexivity.
  - rewrite Hd. apply Forall_map, Forall_forall. intros x _.
    destruct (predicted_class_cases x) as [-> | ->]; auto.
Qed.

(** ** What one iteration does to the state *)

Lemma only_drawn_refl w : only_drawn w w.
Proof. exists (drawn w). destruct w. reflexivity. Qed.

Lemma only_drawn_trans w1 w2 w3 :
  only_drawn w1 w2 -> only_drawn w2 w3 -> only_drawn w1 w3.
Proof. intros [d1 ->] [d2 ->]. exists d2. reflexivity. Qed.

Lemma inference_with_brevitas_only_drawn x :
  respects only_drawn (inference_with_brevitas x).
Proof.
  assert (forall layers i y, respects only_drawn (sequential_forward i layers y))
    as Hseq.
  { induction layers as [|l layers IH]; intros i y; simpl.
    - apply respects_ret, only_drawn_refl.
    - apply respects_bind; [apply only_drawn_trans | | intros z; apply IH].
      destruct l; try (intros w; apply only_drawn_refl).
      intros w. unfold apply_layer, dropout.
      destruct (training w); simpl; [eexists; reflexivity | apply only_drawn_refl]. }
  apply respects_bind; [apply only_drawn_trans | apply Hseq |].
  intros y. apply respects_ret, only_drawn_refl.
Qed.

(** The dictionary built for the engine has one entry, under the name of
    the graph's input, of the graph's input shape. *)


(** The outcome of the two comparisons: at most one of them is true. *)
Lemma tally_Ok (finn_output : Tensor Q) (brevitas_output : Tensor Z) w w' :
  tally finn_output brevitas_output w = (Ok tt, w') ->
  exists agree differ : bool,
    agree && differ = false /\
    w' = set_description
           (progress_text (ok w + (if agree then 1 else 0))
                          (nok w + (if differ then 1 else 0)))
           (set_nok (nok w + (if differ then 1 else 0))
              (set_ok (ok w + (if agree then 1 else 0)) w)).
Proof.
  unfold tally, bind, lift, modify.
  destruct (truth_cases finn_output brevitas_output)
    as [[E N]|[(E & N & _)|[(E & N & _)|(x & y & _ & _ & E & N)]]];
    rewrite E; simpl; rewrite ?N; simpl; try discriminate; intros [= <-].
  - exists false, false. split; reflexivity.
  - exists false, true. split; reflexivity.
  - exists (eq_QZ x y), (ne_QZ x y). split; [|reflexivity].
    unfold ne_QZ, eq_QZ. destruct (Qeq_bool x (inject_Z y)); reflexivity.
Qed.

(** A completed iteration, step by step. *)
Lemma verify_iteration_Ok_steps P input_tensor i w w' :
  verify_iteration P input_tensor i w = (Ok tt, w') ->
  exists row current_inp brevitas_output finn_output input_dict output_dict
         w1 (agree differ : bool),
    index0 input_tensor i = Ok row /\
    reshape RuntimeError row [1; 593]%nat = Ok current_inp /\
    inference_with_brevitas current_inp w = (Ok brevitas_output, w1) /\
    only_drawn w w1 /\
    finn_input_dict P current_inp = Ok input_dict /\
    execute_onnx (model_for_sim P) input_dict = Ok output_dict /\
    output_dict !! finnonnx_out_tensor_name P = Some finn_output /\
    agree && differ = false /\
    let w2 := set_exec_log (exec_log w1 ++ [(model_for_sim P, input_dict)]) w1 in
    w' = set_description
           (progress_text (ok w2 + (if agree then 1 else 0))
                          (nok w2 + (if differ then 1 else 0)))
           (set_nok (nok w2 + (if differ then 1 else 0))
              (set_ok (ok w2 + (if agree then 1 else 0)) w2)).
Proof.
  intros H. unfold verify_iteration in H.
  apply bind_Ok_inv in H as (row & w0 & Hrow & H).
  apply lift_inv in Hrow as [Hrow ->].
  apply bind_Ok_inv in H as (cur & w0 & Hcur & H).
  apply lift_inv in Hcur as [Hcur ->].
  apply bind_Ok_inv in H as (b & w1 & Hb & H).
  apply bind_Ok_inv in H as (f & w2 & Hf & H).
  pose proof (inference_with_brevitas_only_drawn cur w) as Hd.
  rewrite Hb in Hd. simpl in Hd.
  unfold inference_with_finn_onnx in Hf.
  apply bind_Ok_inv in Hf as (d & w0 & Hdict & Hf).
  apply lift_inv in Hdict as [Hdict ->].
  apply bind_Ok_inv in Hf as (o & w0 & Ho & Hf).
  unfold call_execute_onnx in Ho. injection Ho as Ho <-.
  apply lift_inv in Hf as [Hf ->].
  unfold dict_get in Hf.
  destruct (o !! finnonnx_out_tensor_name P) as [t|] eqn:Ht; [|discriminate].
  injection Hf as ->.
  apply tally_Ok in H as (agree & differ & Hex & ->).
  exists row, cur, b, f, d, o, w1, agree, differ.
  repeat (split; [assumption|]). reflexivity.
Qed.

(** An iteration that raises leaves everything but the generator position
    and the log of engine calls as it was. *)
Lemma verify_iteration_Raise_steps P input_tensor i w e w' :
  verify_iteration P input_tensor i w = (Raise e, w') ->
  exists w1, only_drawn w w1 /\
    (w' = w1 \/
     exists current_inp input_dict,
       shape current_inp = [1; 593]%nat /\ wf_tensor current_inp /\
       finn_input_dict P current_inp = Ok input_dict /\
       w' = set_exec_log (exec_log w1 ++ [(model_for_sim P, input_dict)]) w1).
Proof.
  intros H. unfold verify_iteration in H.
  apply bind_Raise_inv in H as [H|(row & w0 & Hrow & H)].
  { apply lift_inv in H as [_ ->]. exists w. split; [apply only_drawn_refl | auto]. }
  apply lift_inv in Hrow as [_ ->].
  apply bind_Raise_inv in H as [H|(cur & w0 & Hcur & H)].
  { apply lift_inv in H as [_ ->]. exists w. split; [apply only_drawn_refl | auto]. }
  apply lift_inv in Hcur as [Hcur ->].
  apply reshape_Ok in Hcur as [Hshape Hwf].
  pose proof (inference_with_brevitas_only_drawn cur w) as Hd.
  apply bind_Raise_inv in H as [H|(b & w1 & Hb & H)].
  { rewrite H in Hd. exists w'. split; [exact Hd | auto]. }
  rewrite Hb in Hd. simpl in Hd. exists w1. split; [exact Hd|].
  assert (forall r w2, inference_with_finn_onnx P cur w1 = (r, w2) ->
            w2 = w1 \/ exists current_inp input_dict,
              shape current_inp = [1; 593]%nat /\ wf_tensor current_inp /\
              finn_input_dict P current_inp = Ok input_dict /\
              w2 = set_exec_log (exec_log w1 ++ [(model_for_sim P, input_dict)]) w1)
    as Hfinn.
  { intros r w2. unfold inference_with_finn_onnx, bind, lift, call_execute_onnx.
    destruct (finn_input_dict P cur) as [d|] eqn:Hd'; [|intros [= _ <-]; auto].
    destruct (execute_onnx (model_for_sim P) d); intros [= _ <-];
      right; exists cur, d; auto. }
  apply bind_Raise_inv in H as [H|(f & w2 & Hf & H)].
  { exact (Hfinn _ _ H). }
  apply tally_Raise in H as ->. exact (Hfinn _ _ Hf).
Qed.

(** X3: no sample is counted twice.  Without any assumption on what the
    two paths return, an iteration never decreases a counter and adds at
    most one to [ok + nok], never to both counters; an iteration that
    raises adds nothing.  So the loop over [k] samples ends with
    [ok + nok <= k]. *)
Theorem tally_never_double_counts (P : Prepared) (input_tensor : Tensor Q) :
  (forall i w,
      match verify_iteration P input_tensor i w with
      | (Ok _, w') =>
          (ok w' = ok w /\ nok w' = nok w) \/
          (ok w' = S (ok w) /\ nok w' = nok w) \/
          (ok w' = ok w /\ nok w' = S (nok w))
      | (Raise _, w') => ok w' = ok w /\ nok w' = nok w
      end) /\
  (forall k w,
      (ok (verification_loop P input_tensor k w).2 +
       nok (verification_loop P input_tensor k w).2 <= k)%nat).
Proof.
  assert (forall i w,
      match verify_iteration P input_tensor i w with
      | (Ok _, w') =>
          (ok w' = ok w /\ nok w' = nok w) \/
          (ok w' = S (ok w) /\ nok w' = nok w) \/
          (ok w' = ok w /\ nok w' = S (nok w))
      | (Raise _, w') => ok w' = ok w /\ nok w' = nok w
      end) as Hstep.
  { intros i w.
    destruct (verify_iteration P input_tensor i w) as [[[]|e] w'] eqn:H.
    - apply verify_iteration_Ok_steps in H
        as (row & cur & b & f & d & o & w1 & agree & differ
            & _ & _ & _ & [g ->] & _ & _ & _ & Hex & ->).
      simpl. destruct agree, differ; try discriminate; lia.
    - apply verify_iteration_Raise_steps in H
        as (w1 & [g ->] & [-> | (c & d & _ & _ & _ & ->)]); simpl; auto. }
  split; [exact Hstep|].
  intros k w. rewrite verification_loop_unfold.
  assert (match for_each (verify_iteration P input_tensor) (seq 0 k)
                         (loop_start w) with
          | (Ok _, w') => (ok w' + nok w' <= length (seq 0 k))%nat
          | (Raise _, w') =>
              exists j, (j < length (seq 0 k))%nat /\ (ok w' + nok w' <= j)%nat
          end) as Hrule.
  { apply (for_each_rule (verify_iteration P input_tensor)
             (fun j w' => ok w' + nok w' <= j)%nat
             (fun j w' => ok w' + nok w' <= j)%nat); [|simpl; lia].
    intros j x w0 _ Hj. specialize (Hstep x w0).
    destruct (verify_iteration P input_tensor x w0) as [[[]|?] ?]; lia. }
  destruct (for_each (verify_iteration P input_tensor) (seq 0 k) (loop_start w))
    as [[[]|e] w']; simpl.
  - rewrite length_seq in Hrule. exact Hrule.
  - destruct Hrule as (j & Hj & Hle). rewrite length_seq in Hj. lia.
Qed.


(** ** The final message and the tally *)

(** X4: when the run completes, the last printed line is the success
    message exactly when no sample was counted as differing and no
    comparison was empty, and the failure message exactly when a sample was
    counted as differing or a comparison was empty: the samples counted
    and the empty comparisons are the [n_verification_inputs] samples of
    the run. *)
Theorem success_message_iff_no_disagreement (P : Prepared) (w w' : World) :
  verify P w = (Ok tt, w') ->
  exists input_tensor w2,
    cell7 w = (Ok input_tensor, w) /\ cell8 w = (Ok tt, w2) /\
    let outputs :=
      loop_outputs P input_tensor (seq 0 n_verification_inputs)
                   (loop_start w2) in
    length outputs = n_verification_inputs /\
    (ok w' + nok w' + count compared_empty outputs
     = n_verification_inputs)%nat /\
    (last (stdout w') =
       Some "Verification succeeded. Brevitas and FINN-ONNX execution outputs are identical"
     <-> nok w' = 0%nat /\ count compared_empty outputs = 0%nat) /\
    (last (stdout w') =
       Some "Verification failed. Brevitas and FINN-ONNX execution outputs are NOT identical"
     <-> (0 < nok w' + count compared_empty outputs)%nat).
Proof.
  intros H. unfold verify in H.
  apply bind_Ok_inv in H as (input_tensor & w1 & H7 & H).
  assert (w1 = w) as ->.
  { unfold cell7, bind, lift in H7.
    destruct (UNSW_NB15_quantized _ _ _ _); injection H7 as _ <-;
      reflexivity. }
  apply bind_Ok_inv in H as ([] & w2 & H8 & H).
  apply bind_Ok_inv in H as ([] & w3 & H11 & H).
  exists input_tensor, w2. split; [exact H7|]. split; [exact H8|].
  unfold cell11 in H11. rewrite verification_loop_unfold in H11.
  destruct (loop_outputs_counts P input_tensor (seq 0 n_verification_inputs)
              (loop_start w2)) as (Hok & Hnok & Hsum & Hlen).
  rewrite H11 in Hok, Hnok, Hlen. rewrite length_seq in Hlen.
  cbn [fst snd] in Hok, Hnok, Hlen.
  change (ok (loop_start w2)) with 0%nat in Hok.
  change (nok (loop_start w2)) with 0%nat in Hnok.
  destruct (cell13_spec w3) as (msg & H13 & Hs & Hf).
  rewrite H13 in H. injection H as <-. cbv zeta.
  cbn [ok nok stdout set_stdout].
  rewrite last_snoc. pose proof messages_differ as Hd.
  split; [exact Hlen|]. split; [lia|]. split; split; intros Hx.
  - injection Hx as Hx. apply Hs in Hx. lia.
  - f_equal. apply Hs. lia.
  - injection Hx as Hx. apply Hf in Hx. lia.
  - f_equal. apply Hf. lia.
Qed.

End Iterations.

Lemma success_message_iff_no_disagreement_witness :
  let outcome := verify (Ext := Toy.toy_ext 1) Toy.toy_prepared Toy.toy_world in
  outcome = (Ok tt, outcome.2) /\
  exists input_tensor w2,
    cell7 (Ext := Toy.toy_ext 1) Toy.toy_world
      = (Ok input_tensor, Toy.toy_world) /\
    cell8 (Ext := Toy.toy_ext 1) Toy.toy_world = (Ok tt, w2) /\
    let outputs :=
      loop_outputs (Ext := Toy.toy_ext 1) Toy.toy_prepared input_tensor
                   (seq 0 n_verification_inputs) (loop_start w2) in
    length outputs = n_verification_inputs /\
    (ok outcome.2 + nok outcome.2 + count compared_empty outputs
     = n_verification_inputs)%nat /\
    (last (stdout outcome.2) =
       Some "Verification succeeded. Brevitas and FINN-ONNX execution outputs are identical"
     <-> nok outcome.2 = 0%nat /\ count compared_empty outputs = 0%nat) /\
    (last (stdout outcome.2) =
       Some "Verification failed. Brevitas and FINN-ONNX execution outputs are NOT identical"
     <-> (0 < nok outcome.2 + count compared_empty outputs)%nat).
Proof.
  intros outcome.
  assert (outcome = (Ok tt, outcome.2)) as H.
  { assert (outcome.1 = Ok tt) as E
      by (unfold outcome; vm_compute; reflexivity).
    rewrite (surjective_pairing outcome) at 1. rewrite E. reflexivity. }
  split; [exact H|].
  exact (success_message_iff_no_disagreement (Ext := Toy.toy_ext 1)
           Toy.toy_prepared Toy.toy_world outcome.2 H).
Defined.

Section Calls.
Context `{Ext : Externals}.

(** ** The progress bar *)


(** ** The calls of the execution engine *)

Lemma notebook_call_of_dict P current_inp input_dict :
  shape current_inp = [1; 593]%nat -> wf_tensor current_inp ->
  finn_input_dict P current_inp = Ok input_dict ->
  notebook_call P (model_for_sim P, input_dict).
Proof.
  intros Hs Hwf H.
  destruct (np_pad_cols_wf current_inp 1 593 7 Hs Hwf)
    as (padded & Hpad & Hps & Hpl).
  unfold finn_input_dict in H. rewrite Hpad in H. unfold rbind in H.
  split; [reflexivity|]. cbn [snd].
  destruct (finnonnx_model_in_shape P) as [shp|].
  - destruct (reshape ValueError (to_bipolar_Q padded) shp) as [t|] eqn:Ht;
      [|discriminate].
    injection H as <-. apply reshape_Ok in Ht as [Hst Hwt].
    exists t. repeat split; assumption.
  - injection H as <-. exists (to_bipolar_Q padded).
    split; [reflexivity|]. split; [exact Hps|].
    unfold wf_tensor, to_bipolar_Q, tmap. cbn [data shape].
    rewrite length_map, Hpl, Hps. cbn. lia.
Qed.

(** X6: the engine is called exactly once per sample: a loop over [n]
    samples that completes has made [n] calls, a loop that raises at most
    [n]; each call hands over the model of the session and one well-formed
    tensor of the graph's input shape under the graph's input name. *)
Theorem engine_called_once_per_sample (P : Prepared) (input_tensor : Tensor Q)
    (n : nat) (w : World) :
  match verification_loop P input_tensor n w with
  | (Ok _, w') =>
      exists calls, exec_log w' = exec_log w ++ calls /\
                    length calls = n /\ Forall (notebook_call P) calls
  | (Raise _, w') =>
      exists calls, exec_log w' = exec_log w ++ calls /\
                    (length calls <= n)%nat /\ Forall (notebook_call P) calls
  end.
Proof.
  rewrite verification_loop_unfold.
  assert (match for_each (verify_iteration P input_tensor) (seq 0 n)
                         (loop_start w) with
          | (Ok _, w') =>
              exists calls, exec_log w' = exec_log w ++ calls /\
                length calls = length (seq 0 n) /\
                Forall (notebook_call P) calls
          | (Raise _, w') =>
              exists k, (k < length (seq 0 n))%nat /\
                exists calls, exec_log w' = exec_log w ++ calls /\
                  (length calls <= S k)%nat /\ Forall (notebook_call P) calls
          end) as H.
  { apply (for_each_rule (verify_iteration P input_tensor)
      (fun j w' => exists calls, exec_log w' = exec_log w ++ calls /\
                     length calls = j /\ Forall (notebook_call P) calls)
      (fun j w' => exists calls, exec_log w' = exec_log w ++ calls /\
                     (length calls <= S j)%nat /\
                     Forall (notebook_call P) calls)).
    - intros j x w0 _ (calls & Hlog & Hlen & Hall).
      destruct (verify_iteration P input_tensor x w0) as [[[]|e] w1] eqn:Hit.
      + apply verify_iteration_Ok_steps in Hit
          as (row & cur & b & f & d & o & w1' & agree & differ
              & _ & Hcur & _ & [g ->] & Hd & _ & _ & _ & ->).
        apply reshape_Ok in Hcur as [Hcs Hcw].
        exists (calls ++ [(model_for_sim P, d)]). simpl.
        rewrite Hlog, <- List.app_assoc, length_app. simpl.
        split; [reflexivity|]. split; [lia|].
        apply Forall_app. split; [exact Hall|].
        constructor; [|constructor].
        exact (notebook_call_of_dict P cur d Hcs Hcw Hd).
      + apply verify_iteration_Raise_steps in Hit
          as (w1' & [g ->] & [-> | (c & d & Hcs & Hcw & Hd & ->)]); simpl.
        * exists calls. repeat split; [assumption | lia | assumption].
        * exists (calls ++ [(model_for_sim P, d)]).
          rewrite Hlog, <- List.app_assoc, length_app. simpl.
          split; [reflexivity|]. split; [lia|].
          apply Forall_app. split; [exact Hall|].
          constructor; [|constructor].
          exact (notebook_call_of_dict P c d Hcs Hcw Hd).
    - exists []. simpl. rewrite app_nil_r. repeat split. constructor. }
  destruct (for_each (verify_iteration P input_tensor) (seq 0 n) (loop_start w))
    as [[[]|e] w']; rewrite length_seq in H.
  - exact H.
  - destruct H as (k & Hk & calls & Hlog & Hlen & Hall).
    exists calls. repeat split; [assumption | lia | assumption].
Qed.

End Calls.

(** ** The samples as the engine sees them *)

Lemma finn_input_dict_sample (P : Prepared) (v : list Q) :
  length v = 593%nat ->
  finnonnx_model_in_shape P = Some [1; 600]%nat ->
  finn_input_dict P (mkTensor [1; 593]%nat v) = Ok (engine_call P v).2.
Proof.
  intros Hlen Hshape. unfold finn_input_dict, np_pad_cols, engine_call.
  change (shape (mkTensor [1; 593]%nat v)) with [1; 593]%nat.
  change (data (mkTensor [1; 593]%nat v)) with v.
  cbv beta iota. rewrite (take_one_row 593 v Hlen).
  unfold rbind at 1. rewrite Hshape.
  unfold reshape, to_bipolar_Q, tmap.
  change (593 + 7)%nat with 600%nat.
  cbn [shape data concat map snd].
  rewrite app_nil_r, map_app.
  replace (map (fun x => 2 * x - 1)%Q (replicate 7 0%Q))
    with (replicate 7 (-1)%Q) by reflexivity.
  rewrite length_app, length_map, length_replicate, Hlen.
  change (numel [1; 600]%nat) with 600%nat. change (593 + 7)%nat with 600%nat.
  case_decide; [reflexivity | congruence].
Qed.


Section Order.
Context `{Ext : Externals}.


End Order.



(** ** What the loop reads *)

Section Reads.
Context `{Ext : Externals}.

Lemma sim_blind_ret {A} (a : A) : sim_blind (ret a).
Proof. intros w1 w2 H. auto. Qed.

Lemma sim_blind_lift {A} (x : result A) : sim_blind (lift x).
Proof. intros w1 w2 H. auto. Qed.

Lemma sim_blind_bind {A B} (c : M A) (k : A -> M B) :
  sim_blind c -> (forall a, sim_blind (k a)) -> sim_blind (bind c k).
Proof.
  intros Hc Hk w1 w2 H. unfold bind. destruct (Hc w1 w2 H) as [E Hs].
  destruct (c w1) as [[a1|e1] u1], (c w2) as [[a2|e2] u2]; simpl in *;
    try discriminate E.
  - injection E as <-. apply Hk, Hs.
  - injection E as <-. split; [reflexivity | assumption].
Qed.

Lemma sim_blind_for_each {A} (body : A -> M unit) (xs : list A) :
  (forall x, sim_blind (body x)) -> sim_blind (for_each body xs).
Proof.
  intros Hb. induction xs as [|x xs IH]; simpl.
  - apply sim_blind_ret.
  - apply sim_blind_bind; [apply Hb | intros _; exact IH].
Qed.

Lemma sim_blind_inference_with_brevitas x :
  sim_blind (inference_with_brevitas x).
Proof.
  assert (forall layers i y, sim_blind (sequential_forward i layers y)) as Hseq.
  { induction layers as [|l layers IH]; intros i y; simpl.
    - apply sim_blind_ret.
    - apply sim_blind_bind; [|intros z; apply IH].
      intros w1 w2 H. pose proof H as (Hp & T1 & T2 & _).
      destruct l; simpl; unfold dropout; rewrite ?Hp, ?T1, ?T2; auto. }
  apply sim_blind_bind; [apply Hseq | intros y; apply sim_blind_ret].
Qed.

Lemma sim_blind_inference_with_finn_onnx P x :
  sim_blind (inference_with_finn_onnx P x).
Proof.
  unfold inference_with_finn_onnx.
  apply sim_blind_bind; [apply sim_blind_lift | intros d].
  apply sim_blind_bind; [|intros o; apply sim_blind_lift].
  intros w1 w2 H. simpl. auto.
Qed.

Lemma sim_blind_tally (finn_output : Tensor Q) (brevitas_output : Tensor Z) :
  sim_blind (tally finn_output brevitas_output).
Proof.
  unfold tally.
  apply sim_blind_bind; [apply sim_blind_lift | intros agree].
  apply sim_blind_bind; [|intros _].
  { intros w1 w2 (Hp & T1 & T2 & Ho & Hn & Hd). simpl.
    split; [reflexivity|]. repeat split; simpl; congruence. }
  apply sim_blind_bind; [apply sim_blind_lift | intros differ].
  apply sim_blind_bind; [|intros _].
  { intros w1 w2 (Hp & T1 & T2 & Ho & Hn & Hd). simpl.
    split; [reflexivity|]. repeat split; simpl; congruence. }
  intros w1 w2 (Hp & T1 & T2 & Ho & Hn & Hd). simpl.
  split; [reflexivity|]. repeat split; simpl; congruence.
Qed.

Lemma sim_blind_verify_iteration P input_tensor i :
  sim_blind (verify_iteration P input_tensor i).
Proof.
  unfold verify_iteration.
  apply sim_blind_bind; [apply sim_blind_lift | intros row].
  apply sim_blind_bind; [apply sim_blind_lift | intros cur].
  apply sim_blind_bind; [apply sim_blind_inference_with_brevitas | intros b].
  apply sim_blind_bind; [apply sim_blind_inference_with_finn_onnx | intros f].
  apply sim_blind_tally.
Qed.

Lemma verification_loop_keeps_params P input_tensor n w :
  params (verification_loop P input_tensor n w).2 = params w.
Proof.
  rewrite verification_loop_unfold.
  change (params w) with (params (loop_start w)).
  apply (respects_for_each (fun u u' => params u' = params u)).
  - reflexivity.
  - intros u1 u2 u3 H1 H2. congruence.
  - intros x u.
    destruct (verify_iteration P input_tensor x u) as [[[]|e] u'] eqn:Hit; simpl.
    + apply verify_iteration_Ok_steps in Hit
        as (row & cur & b & f & d & o & w1' & agree & differ
            & _ & _ & _ & [g ->] & _ & _ & _ & _ & ->).
      reflexivity.
    + apply verify_iteration_Raise_steps in Hit
        as (w1' & [g ->] & [-> | (c & d & _ & _ & _ & ->)]); reflexivity.
Qed.

(** X8: the loop resets the tally, the progress text and the training
    flag before the first sample and reads nothing of the session but the
    parameters of the network: run from two states with the same
    parameters it ends with the same result, the same [ok] and [nok] and
    the same progress text; in particular running the cell a second time
    gives the tally of the first run again. *)
Theorem verification_loop_reads_only_parameters
    (P : Prepared) (input_tensor : Tensor Q) (n : nat) (w1 w2 : World) :
  params w1 = params w2 ->
  let first := verification_loop P input_tensor n w1 in
  let second := verification_loop P input_tensor n w2 in
  let again := verification_loop P input_tensor n first.2 in
  (first.1 = second.1 /\ ok first.2 = ok second.2 /\
   nok first.2 = nok second.2 /\ description first.2 = description second.2) /\
  (again.1 = first.1 /\ ok again.2 = ok first.2 /\
   nok again.2 = nok first.2 /\ description again.2 = description first.2).
Proof.
  intros Hp.
  assert (forall u1 u2, params u1 = params u2 ->
            let a := verification_loop P input_tensor n u1 in
            let b := verification_loop P input_tensor n u2 in
            a.1 = b.1 /\ ok a.2 = ok b.2 /\ nok a.2 = nok b.2 /\
            description a.2 = description b.2) as Hsim.
  { intros u1 u2 Hu. cbv zeta. rewrite !verification_loop_unfold.
    destruct (sim_blind_for_each (verify_iteration P input_tensor) (seq 0 n)
                (sim_blind_verify_iteration P input_tensor)
                (loop_start u1) (loop_start u2)) as [E (_ & _ & _ & Ho & Hn & Hd)].
    { repeat split. exact Hu. }
    auto. }
  cbv zeta. split; [apply Hsim, Hp|].
  apply Hsim. apply verification_loop_keeps_params.
Qed.

End Reads.

Lemma verification_loop_reads_only_parameters_witness :
  params (set_ok 7 (set_stdout ["earlier output"] Toy.toy_eval_world))
    = params Toy.toy_world /\
  (verification_loop (Ext := Toy.toy_ext 1) Toy.toy_prepared Toy.toy_input 4
     (set_ok 7 (set_stdout ["earlier output"] Toy.toy_eval_world))).1
  = (verification_loop (Ext := Toy.toy_ext 1) Toy.toy_prepared Toy.toy_input 4
       Toy.toy_world).1 /\
  ok (verification_loop (Ext := Toy.toy_ext 1) Toy.toy_prepared Toy.toy_input 4
        (set_ok 7 (set_stdout ["earlier output"] Toy.toy_eval_world))).2
  = ok (verification_loop (Ext := Toy.toy_ext 1) Toy.toy_prepared
          Toy.toy_input 4 Toy.toy_world).2.
Proof.
  split; [reflexivity|].
  destruct (verification_loop_reads_only_parameters (Ext := Toy.toy_ext 1)
              Toy.toy_prepared Toy.toy_input 4
              (set_ok 7 (set_stdout ["earlier output"] Toy.toy_eval_world))
              Toy.toy_world eq_refl) as [(E & Ho & _) _].
  split; [exact E | exact Ho].
Defined.

(** ** Batches that do not fit the loop *)

Section Misfits.
Context `{Ext : Externals}.

(** X9: the loop always asks for [n_verification_inputs = 100] samples,
    the slice gives what the test set has.  With a test set of fewer rows
    the loop cannot complete: it raises, with [IndexError] at the first
    missing row when the rows before it went through. *)
Theorem short_test_set_aborts (ds : Tensor Q) (r c : nat) :
  shape ds = [r; c] -> (r < n_verification_inputs)%nat ->
  exists input_tensor,
    slice_rows_drop_last ds n_verification_inputs = Ok input_tensor /\
    shape input_tensor = [r; (c - 1)%nat] /\
    forall P w,
      (exists e w', cell11 P input_tensor w = (Raise e, w')) /\
      (forall wr,
          for_each (verify_iteration P input_tensor) (seq 0 r) (loop_start w)
            = (Ok tt, wr) ->
          cell11 P input_tensor w = (Raise IndexError, wr)).
Proof.
  intros Hs Hr. unfold slice_rows_drop_last. rewrite Hs.
  eexists. split; [reflexivity|]. cbn [shape].
  rewrite Nat.min_r by lia. split; [reflexivity|].
  intros P w.
  match goal with
  | |- context [cell11 P ?t w] => set (input_tensor := t)
  end.
  assert (forall wr, verify_iteration P input_tensor r wr
                     = (Raise IndexError, wr)) as Hfail.
  { intros wr. unfold verify_iteration, bind, lift, index0.
    unfold input_tensor. cbn [shape].
    case_decide; [lia | reflexivity]. }
  assert (cell11 P input_tensor w =
          match for_each (verify_iteration P input_tensor) (seq 0 r)
                         (loop_start w) with
          | (Ok _, wr) => (Raise IndexError, wr)
          | (Raise e, wr) => (Raise e, wr)
          end) as Hsplit.
  { unfold cell11. rewrite verification_loop_unfold.
    rewrite (seq_split r n_verification_inputs Hr), for_each_app.
    destruct (for_each (verify_iteration P input_tensor) (seq 0 r)
                       (loop_start w)) as [[[]|e] wr]; [|reflexivity].
    cbn [for_each]. unfold bind. rewrite Hfail. reflexivity. }
  rewrite Hsplit. split.
  - destruct (for_each (verify_iteration P input_tensor) (seq 0 r)
                       (loop_start w)) as [[[]|e] wr]; eauto.
  - intros wr ->. reflexivity.
Qed.

(** X10: the loop body reshapes every sample to [(1, 593)].  A well-formed
    batch of another width stops the loop at the first sample with the
    [RuntimeError] of the reshape, a batch without rows with the
    [IndexError] of the indexing; nothing was counted and the engine was
    not called. *)
Theorem batch_must_have_593_features (P : Prepared) (input_tensor : Tensor Q)
    (m c : nat) (w : World) :
  shape input_tensor = [m; c] -> wf_tensor input_tensor -> c <> 593%nat ->
  cell11 P input_tensor w =
  (Raise (if decide (m = 0%nat) then IndexError else RuntimeError),
   loop_start w).
Proof.
  intros Hs Hwf Hc. unfold cell11, n_verification_inputs.
  rewrite verification_loop_unfold.
  change (seq 0 100) with (0%nat :: seq 1 99). cbn [for_each].
  unfold bind at 1.
  assert (verify_iteration P input_tensor 0 (loop_start w) =
          (Raise (if decide (m = 0%nat) then IndexError else RuntimeError),
           loop_start w)) as ->; [|reflexivity].
  unfold verify_iteration, bind, lift, index0. rewrite Hs.
  case_decide as Hm0; case_decide as Hm; try lia; [|reflexivity].
  unfold reshape. cbn [data].
  change (numel [c]) with (c * 1)%nat. rewrite Nat.mul_1_r.
  rewrite (row_length m c 0) by
    (try lia; unfold wf_tensor in Hwf; rewrite Hwf, Hs;
     change (numel [m; c]) with (m * (c * 1))%nat; lia).
  change (numel [1; 593]%nat) with 593%nat.
  case_decide; [congruence | reflexivity].
Qed.

End Misfits.

Lemma short_test_set_aborts_witness :
  shape Edge.short_dataset = [3; 594]%nat /\ (3 < n_verification_inputs)%nat /\
  exists input_tensor,
    slice_rows_drop_last Edge.short_dataset n_verification_inputs
      = Ok input_tensor /\
    shape input_tensor = [3; 593]%nat /\
    exists e w',
      cell11 (Ext := Toy.toy_ext 0) Toy.toy_prepared input_tensor Toy.toy_world
        = (Raise e, w').
Proof.
  split; [reflexivity|]. split; [unfold n_verification_inputs; lia|].
  destruct (short_test_set_aborts (Ext := Toy.toy_ext 0) Edge.short_dataset
              3 594 eq_refl ltac:(unfold n_verification_inputs; lia))
    as (it & Hit & Hshape & Hrun).
  exists it. split; [exact Hit|]. split; [exact Hshape|].
  exact (proj1 (Hrun Toy.toy_prepared Toy.toy_world)).
Defined.

Lemma batch_must_have_593_features_witness :
  shape Edge.narrow_batch = [2; 3]%nat /\ wf_tensor Edge.narrow_batch /\
  3%nat <> 593%nat /\
  cell11 (Ext := Toy.toy_ext 0) Toy.toy_prepared Edge.narrow_batch Toy.toy_world
    = (Raise RuntimeError, loop_start Toy.toy_world).
Proof.
  split; [reflexivity|]. split; [reflexivity|]. split; [lia|].
  exact (batch_must_have_593_features (Ext := Toy.toy_ext 0) Toy.toy_prepared
           Edge.narrow_batch 2 3 Toy.toy_world eq_refl eq_refl ltac:(lia)).
Defined.

(** ** When the preprocessing for the engine fits *)

Section Fits.
Context `{Ext : Externals}.

(** X11: for a well-formed matrix of [r] rows and [c] columns the
    preprocessing succeeds exactly when the input shape of the graph holds
    [r * (c + 7)] elements; it then hands the engine one well-formed tensor
    of that shape.  Otherwise the reshape raises [ValueError] and the
    engine is not called. *)
Theorem finn_preprocessing_fits (P : Prepared) (current_inp : Tensor Q)
    (r c : nat) (shp : list nat) :
  shape current_inp = [r; c] -> wf_tensor current_inp ->
  finnonnx_model_in_shape P = Some shp ->
  if decide (numel shp = (r * (c + 7))%nat)
  then exists t,
         finn_input_dict P current_inp
           = Ok {[ finnonnx_in_tensor_name P := t ]} /\
         shape t = shp /\ wf_tensor t
  else forall w,
         inference_with_finn_onnx P current_inp w = (Raise ValueError, w).
Proof.
  intros Hs Hwf Hshape.
  destruct (np_pad_cols_wf current_inp r c 7 Hs Hwf)
    as (padded & Hpad & Hps & Hpl).
  assert (finn_input_dict P current_inp =
          if decide (numel shp = (r * (c + 7))%nat)
          then Ok {[ finnonnx_in_tensor_name P :=
                       mkTensor shp (data (to_bipolar_Q padded)) ]}
          else Raise ValueError) as Hdict.
  { unfold finn_input_dict. rewrite Hpad. unfold rbind at 1.
    rewrite Hshape. unfold reshape, to_bipolar_Q, tmap. cbn [data].
    rewrite length_map, Hpl. case_decide; reflexivity. }
  case_decide as Hn.
  - eexists. split; [exact Hdict|]. split; [reflexivity|].
    unfold wf_tensor, to_bipolar_Q, tmap. cbn [data shape].
    rewrite length_map, Hpl, Hn. reflexivity.
  - intros w. unfold inference_with_finn_onnx, bind, lift.
    rewrite Hdict. reflexivity.
Qed.

(** X12: the engine must answer under the name of the graph's output:
    an answer without it ends the iteration with [KeyError] of that name,
    after the call, and before anything is counted. *)
Theorem finn_output_must_be_named (P : Prepared) (current_inp : Tensor Q)
    (input_dict output_dict : gmap string (Tensor Q)) (w : World) :
  finn_input_dict P current_inp = Ok input_dict ->
  execute_onnx (model_for_sim P) input_dict = Ok output_dict ->
  output_dict !! finnonnx_out_tensor_name P = None ->
  inference_with_finn_onnx P current_inp w =
  (Raise (KeyError (finnonnx_out_tensor_name P)),
   set_exec_log (exec_log w ++ [(model_for_sim P, input_dict)]) w) /\
  forall brevitas_output w1,
    inference_with_brevitas current_inp w1 = (Ok brevitas_output, w) ->
    forall row input_tensor i,
      index0 input_tensor i = Ok row ->
      reshape RuntimeError row [1; 593]%nat = Ok current_inp ->
      exists w',
        verify_iteration P input_tensor i w1
          = (Raise (KeyError (finnonnx_out_tensor_name P)), w') /\
        ok w' = ok w1 /\ nok w' = nok w1.
Proof.
  intros Hd Ho Hk.
  assert (inference_with_finn_onnx P current_inp w =
          (Raise (KeyError (finnonnx_out_tensor_name P)),
           set_exec_log (exec_log w ++ [(model_for_sim P, input_dict)]) w))
    as Hfinn.
  { unfold inference_with_finn_onnx, bind, lift, call_execute_onnx, dict_get.
    rewrite Hd, Ho, Hk. reflexivity. }
  split; [exact Hfinn|].
  intros b w1 Hb row input_tensor i Hrow Hcur.
  eexists. split.
  - unfold verify_iteration, bind, lift. rewrite Hrow, Hcur, Hb, Hfinn.
    reflexivity.
  - pose proof (inference_with_brevitas_only_drawn current_inp w1) as Hdr.
    rewrite Hb in Hdr. simpl in Hdr. destruct Hdr as [g Hg].
    rewrite Hg. split; reflexivity.
Qed.

End Fits.

Lemma finn_preprocessing_fits_witness :
  shape (Toy.toy_sample 2) = [1; 593]%nat /\ wf_tensor (Toy.toy_sample 2) /\
  finnonnx_model_in_shape Toy.toy_prepared = Some [1; 600]%nat /\
  exists t,
    finn_input_dict Toy.toy_prepared (Toy.toy_sample 2)
      = Ok {[ finnonnx_in_tensor_name Toy.toy_prepared := t ]} /\
    shape t = [1; 600]%nat /\ wf_tensor t.
Proof.
  assert (wf_tensor (Toy.toy_sample 2)) as Hwf.
  { unfold wf_tensor, Toy.toy_sample. cbn [data shape].
    rewrite length_map, length_seq. reflexivity. }
  split; [reflexivity|]. split; [exact Hwf|]. split; [reflexivity|].
  exact (finn_preprocessing_fits (Ext := Toy.toy_ext 0) Toy.toy_prepared
           (Toy.toy_sample 2) 1 593 [1; 600]%nat eq_refl Hwf eq_refl).
Defined.

Lemma finn_output_must_be_named_witness :
  finn_input_dict Toy.toy_prepared (Toy.toy_sample 0)
    = Ok (engine_call Toy.toy_prepared (data (Toy.toy_sample 0))).2 /\
  inference_with_finn_onnx (Ext := Edge.misnaming_ext) Toy.toy_prepared
    (Toy.toy_sample 0) Toy.toy_eval_world =
  (Raise (KeyError "global_out"),
   set_exec_log
     (exec_log Toy.toy_eval_world ++
        [engine_call Toy.toy_prepared (data (Toy.toy_sample 0))])
     Toy.toy_eval_world).
Proof.
  assert (finn_input_dict Toy.toy_prepared (Toy.toy_sample 0)
          = Ok (engine_call Toy.toy_prepared (data (Toy.toy_sample 0))).2)
    as Hd.
  { apply finn_input_dict_sample; [|reflexivity].
    unfold Toy.toy_sample. cbn [data]. rewrite length_map, length_seq.
    reflexivity. }
  split; [exact Hd|].
  exact (proj1 (finn_output_must_be_named (Ext := Edge.misnaming_ext)
                  Toy.toy_prepared (Toy.toy_sample 0) _ _ Toy.toy_eval_world
                  Hd eq_refl eq_refl)).
Defined.

(** ** The preparation as a whole *)

Lemma showInNetron_lines (path : string) (w : World) :
  showInNetron path w =
  (Ok tt,
   set_netron (Some path)
     (set_stdout (stdout w ++ viewer_lines (netron w) path) w)).
Proof. apply showInNetron_eq. Qed.

Section Preparation.
Context `{Ext : Externals}.

Lemma prepare_cases (w : World) :
  prepare w =
  match files w !! model_file_path with
  | Some (OnnxFile m0) =>
      match apply_passes tidy_up_passes m0 with
      | Ok m1 =>
          match cell5 m1 (showInNetron model_file_path w).2 with
          | (Ok P, w5) => (Ok P, (showInNetron verified_model_filename w5).2)
          | (Raise e, w5) => (Raise e, w5)
          end
      | Raise e => (Raise e, (showInNetron model_file_path w).2)
      end
  | Some _ => (Raise (LibraryError 0), w)
  | None => (Raise AssertionError, w)
  end.
Proof.
  unfold prepare, bind, cell2, load_model, cell3, cell6.
  destruct (files w !! model_file_path) as [[m0|c|s]|]; try reflexivity.
  rewrite (showInNetron_eq model_file_path w). cbn [snd].
  rewrite cell4_apply_passes.
  destruct (apply_passes tidy_up_passes m0) as [m1|e]; [|reflexivity].
  match goal with
  | |- context [cell5 m1 ?w1] =>
      destruct (cell5 m1 w1) as [[P|e] w5]; [|reflexivity]
  end.
  rewrite (showInNetron_eq verified_model_filename w5). reflexivity.
Qed.

Lemma cell5_Raise (m : ModelWrapper) (w : World) :
  graph_input m = [] \/ graph_output m = [] ->
  cell5 m w = (Raise IndexError, w).
Proof.
  intros H. unfold cell5, bind, lift, list_get.
  destruct (graph_input m) as [|i ?]; [reflexivity|].
  destruct H as [H|H]; [discriminate|]. rewrite H. reflexivity.
Qed.

Lemma cell5_cases (m : ModelWrapper) :
  (exists in_vi out_vi,
      graph_input m !! 0%nat = Some in_vi /\
      graph_output m !! 0%nat = Some out_vi) \/
  (graph_input m = [] \/ graph_output m = []).
Proof.
  destruct (graph_input m) as [|i ?]; [right; left; reflexivity|].
  destruct (graph_output m) as [|o ?]; [right; right; reflexivity|].
  left. exists i, o. split; reflexivity.
Qed.

(** What the preparation does to the session, case by case. *)
Lemma prepare_outcome (w : World) :
  match prepare w with
  | (Ok P, w') =>
      stdout w' = stdout w ++ prepare_lines (netron w) P /\
      files w' =
        <["cybsec-mlp-verified.onnx" := OnnxFile (model_for_sim P)]>
          (files w) /\
      netron w' = Some "cybsec-mlp-verified.onnx"
  | (Raise e, w') =>
      files w' = files w /\
      ((stdout w' = stdout w /\ netron w' = netron w) \/
       (stdout w' = stdout w ++ viewer_lines (netron w) "cybsec-mlp.onnx" /\
        netron w' = Some "cybsec-mlp.onnx")) /\
      (files w !! model_file_path = None -> w' = w) /\
      (forall m0 m1,
         files w !! model_file_path = Some (OnnxFile m0) ->
         apply_passes tidy_up_passes m0 = Ok m1 ->
         e = IndexError /\ (graph_input m1 = [] \/ graph_output m1 = []))
  end.
Proof.
  rewrite prepare_cases.
  destruct (files w !! model_file_path) as [[m0|c|s]|] eqn:Hf;
    try (split; [reflexivity|]; split; [left; split; reflexivity|];
         split; intros; [reflexivity || discriminate | discriminate]).
  rewrite (showInNetron_lines model_file_path w). cbn [snd].
  destruct (apply_passes tidy_up_passes m0) as [m1|e] eqn:Hp.
  - destruct (cell5_cases m1) as [(in_vi & out_vi & Hi & Ho)|Hno].
    + rewrite (cell5_spec m1 in_vi out_vi _ Hi Ho).
      rewrite showInNetron_lines.
      cbn [snd stdout files netron set_netron set_stdout set_files
           model_for_sim finnonnx_in_tensor_name finnonnx_out_tensor_name
           finnonnx_model_in_shape].
      split; [|split; reflexivity].
      unfold prepare_lines.
      cbn [finnonnx_in_tensor_name finnonnx_out_tensor_name
           finnonnx_model_in_shape].
      rewrite <- !List.app_assoc. reflexivity.
    + rewrite (cell5_Raise m1 _ Hno).
      split; [reflexivity|]. split; [right; split; reflexivity|].
      split; [intros; discriminate|].
      intros m0' m1' Hm0 Hm1. injection Hm0 as <-.
      rewrite Hp in Hm1. injection Hm1 as <-. auto.
  - split; [reflexivity|]. split; [right; split; reflexivity|].
    split; [intros; discriminate|].
    intros m0' m1' Hm0 Hm1. injection Hm0 as <-.
    rewrite Hp in Hm1. discriminate.
Qed.


(** X14: the preparation can be run again: it saves under another name
    than the one it reads, so a second run after a successful one gives the
    same session values and leaves the directory and the viewer as the
    first run left them; it prints the lines of a run that finds the
    viewer running. *)
Theorem prepare_can_be_rerun (w : World) (P : Prepared) (w' : World) :
  prepare w = (Ok P, w') ->
  exists w'',
    prepare w' = (Ok P, w'') /\
    files w'' = files w' /\ netron w'' = netron w' /\
    stdout w' = stdout w ++ prepare_lines (netron w) P /\
    stdout w'' =
      stdout w' ++ prepare_lines (Some "cybsec-mlp-verified.onnx") P.
Proof.
  intros H.
  pose proof (prepare_outcome w) as H1. rewrite H in H1.
  destruct H1 as (Hout1 & Hfiles1 & Hn1).
  apply prepare_inv in H as (m0 & m1 & in_vi & out_vi & Hf & Hp & Hi & Ho & H).
  rewrite (cell5_spec m1 in_vi out_vi _ Hi Ho) in H.
  assert (P = mkPrepared (set_tensor_datatype m1 (vi_name in_vi) BIPOLAR)
                (vi_name in_vi) (vi_name out_vi)
                (get_tensor_shape m1 (vi_name in_vi))) as HP.
  { injection H as -> _. reflexivity. }
  clear H.
  pose proof (prepare_outcome w') as H2.
  assert ((prepare w').1 = Ok P) as E1.
  { rewrite prepare_cases, Hfiles1.
    rewrite (lookup_insert_ne (files w) "cybsec-mlp-verified.onnx"
               model_file_path) by discriminate.
    rewrite Hf, Hp, (cell5_spec m1 in_vi out_vi _ Hi Ho), <- HP.
    reflexivity. }
  assert (prepare w' = (Ok P, (prepare w').2)) as E.
  { rewrite (surjective_pairing (prepare w')) at 1. rewrite E1.
    reflexivity. }
  rewrite E in H2. destruct H2 as (Hout2 & Hfiles2 & Hn2).
  exists (prepare w').2. split; [exact E|].
  split; [rewrite Hfiles2, Hfiles1; apply insert_insert_eq|].
  split; [congruence|]. split; [exact Hout1|].
  rewrite Hout2, Hn1. reflexivity.
Qed.

End Preparation.

Example cell5_without_input :
  cell5 Edge.no_input_model Toy.toy_world = (Raise IndexError, Toy.toy_world).
Proof. apply cell5_Raise. left. reflexivity. Qed.

Lemma prepare_can_be_rerun_witness :
  let outcome := prepare (Ext := Toy.toy_ext 0) Toy.toy_world in
  exists P,
    outcome = (Ok P, outcome.2) /\
    exists w'',
      prepare (Ext := Toy.toy_ext 0) outcome.2 = (Ok P, w'') /\
      files w'' = files outcome.2 /\ netron w'' = netron outcome.2 /\
      stdout outcome.2 = stdout Toy.toy_world ++ prepare_lines None P /\
      stdout w'' =
        stdout outcome.2 ++ prepare_lines (Some "cybsec-mlp-verified.onnx") P.
Proof.
  intros outcome.
  assert (exists P, outcome.1 = Ok P) as [P E1]
    by (eexists; unfold outcome; vm_compute; reflexivity).
  assert (outcome = (Ok P, outcome.2)) as E.
  { rewrite (surjective_pairing outcome) at 1. rewrite E1. reflexivity. }
  exists P. split; [exact E|].
  exact (prepare_can_be_rerun (Ext := Toy.toy_ext 0) Toy.toy_world
           P outcome.2 E).
Defined.

(** ** The whole notebook *)

Section Report.
Context `{Ext : Externals}.

(** X16: what a run of the whole notebook prints.  A run that completes
    prints the lines of the preparation (the viewer's lines for the two
    models around the four lines about the graph's input and output) and
    then one verdict, the success message when the tally of agreements it
    ends with is [n_verification_inputs] and the failure message otherwise,
    and nothing else.  A run that raises prints no verdict. *)
Theorem notebook_prints_one_verdict_last (w : World) :
  match notebook w with
  | (Ok _, w') =>
      exists P msg,
        stdout w' = stdout w ++ prepare_lines (netron w) P ++ [msg] /\
        ((msg = "Verification succeeded. Brevitas and FINN-ONNX execution outputs are identical"
          /\ ok w' = n_verification_inputs) \/
         (msg = "Verification failed. Brevitas and FINN-ONNX execution outputs are NOT identical"
          /\ ok w' <> n_verification_inputs))
  | (Raise _, w') =>
      exists lines,
        stdout w' = stdout w ++ lines /\
        ~ In "Verification succeeded. Brevitas and FINN-ONNX execution outputs are identical"
             lines /\
        ~ In "Verification failed. Brevitas and FINN-ONNX execution outputs are NOT identical"
             lines
  end.
Proof.
  assert (forall running path,
            ~ In succeeded_message (viewer_lines running path) /\
            ~ In failed_message (viewer_lines running path)) as Hviewer.
  { intros running path. unfold viewer_lines.
    destruct running; split; intros Hin; cbn [In app] in Hin;
      repeat (destruct Hin as [Hin|Hin]; [discriminate Hin|]);
      exact Hin. }
  assert (forall running P,
            ~ In succeeded_message (prepare_lines running P) /\
            ~ In failed_message (prepare_lines running P)) as Hprepare.
  { intros running P. unfold prepare_lines.
    split; intros Hin;
      (apply in_app_or in Hin as [Hin|Hin];
       [exact (proj1 (Hviewer _ _) Hin) || exact (proj2 (Hviewer _ _) Hin)|]);
      (apply in_app_or in Hin as [Hin|Hin];
       [|exact (proj1 (Hviewer _ _) Hin) || exact (proj2 (Hviewer _ _) Hin)]);
      cbn [In] in Hin;
      repeat (destruct Hin as [Hin|Hin]; [discriminate Hin|]);
      exact Hin. }
  unfold notebook, bind.
  pose proof (prepare_outcome w) as Hp.
  destruct (prepare w) as [[P|e] w1].
  - destruct Hp as (Hp & _ & _).
    pose proof (verify_stdout P w1) as Hv.
    destruct (verify P w1) as [[[]|e] w2].
    + destruct Hv as (msg & Hv & Hs & Hf).
      exists P, msg. split.
      * rewrite Hv, Hp, <- List.app_assoc. reflexivity.
      * destruct (decide (ok w2 = n_verification_inputs)) as [Hok|Hok].
        -- left. split; [apply Hs, Hok | exact Hok].
        -- right. split; [apply Hf, Hok | exact Hok].
    + exists (prepare_lines (netron w) P).
      split; [rewrite Hv; exact Hp | apply Hprepare].
  - destruct Hp as (_ & [[Hp _]|[Hp _]] & _).
    + exists []. rewrite app_nil_r. split; [exact Hp|]. split; intros [].
    + exists (viewer_lines (netron w) "cybsec-mlp.onnx").
      split; [exact Hp | apply Hviewer].
Qed.

End Report.

(** ** The batch for any number of rows *)

Lemma slice_rows_clamps {A} (t : Tensor A) (r c n : nat) :
  shape t = [r; c] ->
  slice_rows_drop_last t n = slice_rows_drop_last t (Nat.min n r).
Proof.
  intros Hs. unfold slice_rows_drop_last. rewrite Hs. cbv zeta.
  rewrite <- Nat.min_assoc, Nat.min_id. do 3 f_equal.
  destruct (Nat.le_ge_cases n r) as [Hn|Hn].
  - rewrite Nat.min_l by exact Hn. reflexivity.
  - rewrite Nat.min_r by exact Hn.
    rewrite !take_ge by (rewrite rows_of_length; lia). reflexivity.
Qed.

(** X17: [t[:n, :-1]] never fails on a matrix: asked for more rows than
    there are it answers with all of them.  For a well-formed matrix of
    [r] rows and [c] columns the answer is a well-formed matrix of
    [min n r] rows and [c - 1] columns whose row [i] is row [i] of the
    matrix without its last entry; indexing it at [min n r] or beyond
    raises [IndexError]. *)
Theorem batch_slice_clamps (ds : Tensor Q) (r c n : nat) :
  shape ds = [r; c] -> wf_tensor ds ->
  exists input_tensor,
    slice_rows_drop_last ds n = Ok input_tensor /\
    shape input_tensor = [Nat.min n r; (c - 1)%nat] /\
    wf_tensor input_tensor /\
    (forall i, (i < Nat.min n r)%nat ->
       index0 input_tensor i =
       Ok (mkTensor [(c - 1)%nat] (take (c - 1) (drop (i * c) (data ds))))) /\
    (forall i, (Nat.min n r <= i)%nat ->
       index0 input_tensor i = Raise IndexError).
Proof.
  intros Hs Hwf.
  destruct (slice_rows_spec ds r c (Nat.min n r) Hs Hwf (Nat.le_min_r n r))
    as (t & Ht & Hshape & Hrows).
  exists t. rewrite (slice_rows_clamps ds r c n Hs).
  split; [exact Ht|]. split; [exact Hshape|].
  split; [|split; [exact Hrows|]].
  - unfold slice_rows_drop_last in Ht. rewrite Hs in Ht.
    change (numel []) with 1%nat in Ht. cbv zeta in Ht.
    rewrite !Nat.mul_1_r in Ht.
    injection Ht as <-. unfold wf_tensor. cbn [data shape].
    rewrite (length_concat_uniform (c - 1)).
    + rewrite length_map, length_take, rows_of_length.
      rewrite <- Nat.min_assoc, Nat.min_id.
      change (numel [Nat.min n r; (c - 1)%nat])
        with (Nat.min n r * ((c - 1) * 1))%nat. lia.
    + apply Forall_map. apply Forall_take.
      eapply Forall_impl.
      * apply rows_of_uniform. unfold wf_tensor in Hwf.
        rewrite Hwf, Hs. change (numel [r; c]) with (r * (c * 1))%nat. lia.
      * intros l Hl. simpl. rewrite length_take, Hl. lia.
  - intros i Hi. unfold index0. rewrite Hshape.
    case_decide; [lia | reflexivity].
Qed.

Lemma batch_slice_clamps_witness :
  shape Edge.small_dataset = [3; 3]%nat /\ wf_tensor Edge.small_dataset /\
  exists input_tensor,
    slice_rows_drop_last Edge.small_dataset 100 = Ok input_tensor /\
    shape input_tensor = [3; 2]%nat /\
    wf_tensor input_tensor /\
    index0 input_tensor 2 = Ok (mkTensor [2]%nat [1; 1]%Q) /\
    index0 input_tensor 3 = Raise IndexError.
Proof.
  split; [reflexivity|]. split; [reflexivity|].
  destruct (batch_slice_clamps Edge.small_dataset 3 3 100 eq_refl eq_refl)
    as (t & Ht & Hshape & Hwf & Hrows & Hout).
  exists t. split; [exact Ht|]. split; [exact Hshape|]. split; [exact Hwf|].
  split; [apply (Hrows 2%nat); simpl; lia | apply (Hout 3%nat); simpl; lia].
Defined.
